(** * WikiCollage canvas engine: a shallow embedding and its properties

    The development follows the JavaScript sources of the canvas editor:
    [pages.js], [memento.js], [selection.js], [resize.js], [viewport.js]
    and the pointer handlers of [block.js].

    Number model.  JavaScript numbers are IEEE-754 doubles.  Here every
    coordinate, size and zoom factor is an exact rational ([Q]); block ids
    and z-indices are integers ([Z]).  Rounding, [NaN] and the infinities
    are outside the model, and [x / 0] is [0] in [Q]; the zoom theorem,
    whose conclusion rests on the value of a quotient, assumes a positive
    zoom.
    [JSON.parse (JSON.stringify v)] is the identity on the pure values of
    the model.  Reads of the DOM ([getBoundingClientRect]) are explicit
    arguments of the handlers. *)

From Stdlib Require Import Bool String ZArith QArith Qabs Qminmax List Lia Lqa.
From Stdlib Require Import Permutation Sorted.
Import ListNotations.

(** ** JavaScript helpers *)

Definition MIN_SIZE : Q := 20.

(** [a > b], [a < b], [a >= b], [a <= b], [a !== b] on numbers. *)
Definition gtb (a b : Q) : bool := negb (Qle_bool a b).
Definition ltb (a b : Q) : bool := negb (Qle_bool b a).
Definition geb (a b : Q) : bool := Qle_bool b a.
Definition leb (a b : Q) : bool := Qle_bool a b.
Definition neqb (a b : Q) : bool := negb (Qeq_bool a b).

(** [Array.prototype.includes] on number arrays. *)
Definition includes (l : list Z) (i : Z) : bool := existsb (Z.eqb i) l.

(** [Array.prototype.slice]: a negative index counts from the end, and
    both bounds are clamped to the array. *)
Definition rel_index (len i : Z) : Z :=
  if (i <? 0)%Z then Z.max (len + i) 0 else Z.min i len.

Definition slice {A : Type} (l : list A) (start : Z) (end_ : option Z) : list A :=
  let len := Z.of_nat (length l) in
  let k := rel_index len start in
  let final := match end_ with None => len | Some e => rel_index len e end in
  firstn (Z.to_nat (final - k)) (skipn (Z.to_nat k) l).

(** [[...new Set(l)]]: first occurrences, in order. *)
Fixpoint dedup_acc (seen l : list Z) : list Z :=
  match l with
  | [] => []
  | i :: r => if includes seen i then dedup_acc seen r
              else i :: dedup_acc (i :: seen) r
  end.
Definition new_Set (l : list Z) : list Z := dedup_acc [] l.

(** ** Data model ([types.js]) *)

Module Block.
Record t := mk {
    id : Z; width : Q; height : Q; x : Q; y : Q; zIndex : Z;
    imageSrc : string; pageSrc : string }.
End Block.

Module OriginalBlockState.
Record t := mk { id : Z; x : Q; y : Q; width : Q; height : Q }.
End OriginalBlockState.

Module ResizeString.
Inductive t := nw | ne | sw | se | n | s | w | e.
End ResizeString.

(** [ResizeState.id] is a block id or the string ["selection-bounding-box"]. *)
Inductive ResizeId :=
| BlockId (i : Z)
| SelectionBoundingBox.

Module ResizeState.
Record t := mk {
    id : ResizeId; handle : ResizeString.t;
    startWidth : Q; startHeight : Q; startX : Q; startY : Q;
    originalBlocks : option (list OriginalBlockState.t) }.
End ResizeState.

Module DragState.
Record t := mk { id : Z; startX : Q; startY : Q }.
End DragState.

Module SelectionBoxState.
Record t := mk { startX : Q; startY : Q; currentX : Q; currentY : Q }.
End SelectionBoxState.

Module Page.
Record t := mk {
    id : string; name : string; blocks : list Block.t;
    offsetX : Q; offsetY : Q; zoom : Q; mouseX : Q; mouseY : Q;
    cursorStyle : string;
    isViewportDragging : bool; isTextEditorFocused : bool; isInteractMode : bool;
    selectedIds : list Z; previewSelectedIds : list Z;
    editingId : option Z; hoveringId : option Z;
    resizing : option ResizeState.t;
    dragStart : option DragState.t;
    selectionBox : option SelectionBoxState.t;
    state : string;   (* the page's program payload, opaque to the canvas *)
    css : string }.
End Page.

(** One key of an object literal of type [Partial<Page>]. *)
Inductive PageField :=
| id_ (v : string) | name_ (v : string) | blocks_ (v : list Block.t)
| offsetX_ (v : Q) | offsetY_ (v : Q) | zoom_ (v : Q)
| mouseX_ (v : Q) | mouseY_ (v : Q) | cursorStyle_ (v : string)
| isViewportDragging_ (v : bool) | isTextEditorFocused_ (v : bool)
| isInteractMode_ (v : bool)
| selectedIds_ (v : list Z) | previewSelectedIds_ (v : list Z)
| editingId_ (v : option Z) | hoveringId_ (v : option Z)
| resizing_ (v : option ResizeState.t)
| dragStart_ (v : option DragState.t)
| selectionBox_ (v : option SelectionBoxState.t)
| state_ (v : string) | css_ (v : string).

(** [Partial<Page>]: the keys of the literal, in the order written. *)
Definition PageData := list PageField.

Definition set_field (p : Page.t) (f : PageField) : Page.t :=
  let '(Page.mk i nm b ox oy z mx my cs vd tf im si ps ei hi rs ds sb st c) := p in
  match f with
  | id_ v => Page.mk v nm b ox oy z mx my cs vd tf im si ps ei hi rs ds sb st c
  | name_ v => Page.mk i v b ox oy z mx my cs vd tf im si ps ei hi rs ds sb st c
  | blocks_ v => Page.mk i nm v ox oy z mx my cs vd tf im si ps ei hi rs ds sb st c
  | offsetX_ v => Page.mk i nm b v oy z mx my cs vd tf im si ps ei hi rs ds sb st c
  | offsetY_ v => Page.mk i nm b ox v z mx my cs vd tf im si ps ei hi rs ds sb st c
  | zoom_ v => Page.mk i nm b ox oy v mx my cs vd tf im si ps ei hi rs ds sb st c
  | mouseX_ v => Page.mk i nm b ox oy z v my cs vd tf im si ps ei hi rs ds sb st c
  | mouseY_ v => Page.mk i nm b ox oy z mx v cs vd tf im si ps ei hi rs ds sb st c
  | cursorStyle_ v => Page.mk i nm b ox oy z mx my v vd tf im si ps ei hi rs ds sb st c
  | isViewportDragging_ v => Page.mk i nm b ox oy z mx my cs v tf im si ps ei hi rs ds sb st c
  | isTextEditorFocused_ v => Page.mk i nm b ox oy z mx my cs vd v im si ps ei hi rs ds sb st c
  | isInteractMode_ v => Page.mk i nm b ox oy z mx my cs vd tf v si ps ei hi rs ds sb st c
  | selectedIds_ v => Page.mk i nm b ox oy z mx my cs vd tf im v ps ei hi rs ds sb st c
  | previewSelectedIds_ v => Page.mk i nm b ox oy z mx my cs vd tf im si v ei hi rs ds sb st c
  | editingId_ v => Page.mk i nm b ox oy z mx my cs vd tf im si ps v hi rs ds sb st c
  | hoveringId_ v => Page.mk i nm b ox oy z mx my cs vd tf im si ps ei v rs ds sb st c
  | resizing_ v => Page.mk i nm b ox oy z mx my cs vd tf im si ps ei hi v ds sb st c
  | dragStart_ v => Page.mk i nm b ox oy z mx my cs vd tf im si ps ei hi rs v sb st c
  | selectionBox_ v => Page.mk i nm b ox oy z mx my cs vd tf im si ps ei hi rs ds v st c
  | state_ v => Page.mk i nm b ox oy z mx my cs vd tf im si ps ei hi rs ds sb v c
  | css_ v => Page.mk i nm b ox oy z mx my cs vd tf im si ps ei hi rs ds sb st v
  end.

(** The spread [{ ...page, ...pageData }]. *)
Definition spread (p : Page.t) (d : PageData) : Page.t := fold_left set_field d p.

Module Memento.
Record t := mk { pages : list Page.t; currentPageId : string }.
End Memento.

Module MementoManager.
Record t := mk {
    undoStack : list Memento.t; redoStack : list Memento.t; maxHistorySize : Z }.
End MementoManager.

Module State.
Record t := mk {
    pages : list Page.t; currentPageId : string;
    mementoManager : MementoManager.t;
    isDarkMode : bool; panelsVisible : bool; programsPanelWidth : Q;
    clipboard : option (list Block.t); programFilter : string;
    notification : option string; notificationVisible : bool;
    editingPageId : option string;
    isShiftPressed : bool; isOptionPressed : bool }.
End State.

(** [{ ...state, pages }], [{ ...state, mementoManager }] and
    [{ ...state, pages, currentPageId, mementoManager }]. *)
Definition with_pages (st : State.t) (ps : list Page.t) : State.t :=
  let '(State.mk _ cp mm dm pv pw cb pf nt nv ep sh op) := st in
  State.mk ps cp mm dm pv pw cb pf nt nv ep sh op.

Definition with_mementoManager (st : State.t) (mm : MementoManager.t) : State.t :=
  let '(State.mk ps cp _ dm pv pw cb pf nt nv ep sh op) := st in
  State.mk ps cp mm dm pv pw cb pf nt nv ep sh op.

Definition restore (st : State.t) (ps : list Page.t) (cp : string)
    (mm : MementoManager.t) : State.t :=
  let '(State.mk _ _ _ dm pv pw cb pf nt nv ep sh op) := st in
  State.mk ps cp mm dm pv pw cb pf nt nv ep sh op.

(** ** [pages.js] *)

Definition getCurrentPage (st : State.t) : option Page.t :=
  find (fun page => String.eqb (Page.id page) (State.currentPageId st)) (State.pages st).

Definition getCurrentBlocks (st : State.t) : list Block.t :=
  match getCurrentPage st with
  | Some currentPage => Page.blocks currentPage
  | None => []
  end.

Record Viewport := mkViewport { vp_offsetX : Q; vp_offsetY : Q; vp_zoom : Q }.

Definition getCurrentViewport (st : State.t) : Viewport :=
  match getCurrentPage st with
  | Some currentPage =>
      mkViewport (Page.offsetX currentPage) (Page.offsetY currentPage) (Page.zoom currentPage)
  | None => mkViewport 0 0 1
  end.

Definition updateCurrentPage (st : State.t) (pageData : PageData) : State.t :=
  with_pages st
    (map (fun page =>
            if String.eqb (Page.id page) (State.currentPageId st)
            then spread page pageData else page)
         (State.pages st)).

Definition renamePage_next (st : State.t) (pageId newName : string) : State.t :=
  with_pages st
    (map (fun page =>
            if String.eqb (Page.id page) pageId
            then spread page [name_ newName] else page)
         (State.pages st)).

(** ** [memento.js] *)

Definition createMementoManager : MementoManager.t :=
  MementoManager.mk [] [] 50.

Definition cleanPages (ps : list Page.t) : list Page.t :=
  map (fun page => spread page [selectedIds_ []; dragStart_ None; resizing_ None]) ps.

Definition createMemento (st : State.t) : Memento.t :=
  Memento.mk (cleanPages (State.pages st)) (State.currentPageId st).

Definition saveMementoAndReturn (prevState newState : State.t) : State.t :=
  let memento := createMemento prevState in
  let mm := State.mementoManager prevState in
  let newMementoManager :=
    MementoManager.mk
      (slice (MementoManager.undoStack mm ++ [memento])
             (- MementoManager.maxHistorySize mm) None)
      []
      (MementoManager.maxHistorySize mm) in
  with_mementoManager newState newMementoManager.

(** [stack[stack.length - 1]]; the index is in range at both call sites,
    which return early on an empty stack. *)
Definition last_entry {A : Type} (l : list A) : option A :=
  nth_error l (length l - 1).

Definition undoState (st : State.t) : State.t :=
  let mm := State.mementoManager st in
  if (length (MementoManager.undoStack mm) =? 0)%nat then st
  else match last_entry (MementoManager.undoStack mm) with
       | None => st
       | Some memento =>
           let currentMemento := createMemento st in
           let newMementoManager :=
             MementoManager.mk
               (slice (MementoManager.undoStack mm) 0 (Some (-1)%Z))
               (MementoManager.redoStack mm ++ [currentMemento])
               (MementoManager.maxHistorySize mm) in
           restore st (Memento.pages memento) (Memento.currentPageId memento)
                   newMementoManager
       end.

Definition redoState (st : State.t) : State.t :=
  let mm := State.mementoManager st in
  if (length (MementoManager.redoStack mm) =? 0)%nat then st
  else match last_entry (MementoManager.redoStack mm) with
       | None => st
       | Some memento =>
           let currentMemento := createMemento st in
           let newMementoManager :=
             MementoManager.mk
               (MementoManager.undoStack mm ++ [currentMemento])
               (slice (MementoManager.redoStack mm) 0 (Some (-1)%Z))
               (MementoManager.maxHistorySize mm) in
           restore st (Memento.pages memento) (Memento.currentPageId memento)
                   newMementoManager
       end.

(** Two committed mutations as the sources write them: the state handed to
    [saveMementoAndReturn] as [prevState] is the state before the change. *)
Definition renamePage (st : State.t) (pageId newName : string) : State.t :=
  saveMementoAndReturn st (renamePage_next st pageId newName).

Definition deleteSelectedBlocks (st : State.t) : State.t :=
  match getCurrentPage st with
  | None => st
  | Some currentPage =>
      let newState :=
        updateCurrentPage st
          [blocks_ (filter (fun block =>
                              negb (includes (Page.selectedIds currentPage) (Block.id block)))
                           (Page.blocks currentPage));
           selectedIds_ []] in
      saveMementoAndReturn st newState
  end.

(** ** [selection.js] *)

Local Open Scope Q_scope.

(** The four properties the geometry code reads from a block, and the
    shape every resize handler returns. *)
Module Rect.
Record t := mk { width : Q; height : Q; x : Q; y : Q }.
End Rect.

Definition rect_of_block (b : Block.t) : Rect.t :=
  Rect.mk (Block.width b) (Block.height b) (Block.x b) (Block.y b).

Definition find_block (blocks : list Block.t) (i : Z) : option Block.t :=
  find (fun b => Z.eqb (Block.id b) i) blocks.

Definition isBlockSelected (st : State.t) (blockId : Z) : bool :=
  match getCurrentPage st with
  | Some currentPage => includes (Page.selectedIds currentPage) blockId
  | None => false
  end.

Definition getSelectedBlocks (st : State.t) : list Block.t :=
  match getCurrentPage st with
  | None => []
  | Some currentPage =>
      if (length (Page.selectedIds currentPage) =? 0)%nat then []
      else filter (fun block => includes (Page.selectedIds currentPage) (Block.id block))
                  (getCurrentBlocks st)
  end.

Definition getSelectedBlockIds (st : State.t) : list Z :=
  match getCurrentPage st with
  | Some currentPage => Page.selectedIds currentPage
  | None => []
  end.

Definition hasSelection (st : State.t) : bool :=
  match getCurrentPage st with
  | Some currentPage => (0 <? length (Page.selectedIds currentPage))%nat
  | None => false
  end.

Definition selectBlock (st : State.t) (blockId : Z) : State.t :=
  updateCurrentPage st [selectedIds_ [blockId]; editingId_ None].

Definition deselectAllBlocks (st : State.t) : State.t :=
  updateCurrentPage st [selectedIds_ []; editingId_ None].

Definition getFirstSelectedBlockId (st : State.t) : option Z :=
  match getSelectedBlockIds st with
  | [] => None
  | i :: _ => Some i
  end.

Definition addBlockToSelection (st : State.t) (blockId : Z) : State.t :=
  match getCurrentPage st with
  | None => st
  | Some currentPage =>
      let currentSelectedIds := Page.selectedIds currentPage in
      if includes currentSelectedIds blockId then st
      else updateCurrentPage st
             [selectedIds_ (currentSelectedIds ++ [blockId]); editingId_ None]
  end.

Definition removeBlockFromSelection (st : State.t) (blockId : Z) : State.t :=
  match getCurrentPage st with
  | None => st
  | Some currentPage =>
      let currentSelectedIds := Page.selectedIds currentPage in
      let newSelectedIds := filter (fun i => negb (Z.eqb i blockId)) currentSelectedIds in
      updateCurrentPage st [selectedIds_ newSelectedIds; editingId_ None]
  end.

Definition toggleBlockSelection (st : State.t) (blockId : Z) : State.t :=
  if isBlockSelected st blockId then removeBlockFromSelection st blockId
  else addBlockToSelection st blockId.

(** The [forEach] of [getSelectionBoundingBox] over the running
    [(minX, minY, maxX, maxY)].  The source seeds it with [Infinity] and
    [-Infinity]; as [Math.min(Infinity, v) = v], the model seeds it with the
    first block's values. *)
Definition bbox_step (acc : Q * Q * Q * Q) (block : Block.t) : Q * Q * Q * Q :=
  let '(minX, minY, maxX, maxY) := acc in
  (Qmin minX (Block.x block), Qmin minY (Block.y block),
   Qmax maxX (Block.x block + Block.width block),
   Qmax maxY (Block.y block + Block.height block)).

Definition getSelectionBoundingBox (st : State.t) : option Rect.t :=
  match getSelectedBlocks st with
  | [] => None
  | [block] => Some (rect_of_block block)
  | block :: rest =>
      let '(minX, minY, maxX, maxY) :=
        fold_left bbox_step rest
          (Block.x block, Block.y block,
           Block.x block + Block.width block, Block.y block + Block.height block) in
      Some (Rect.mk (maxX - minX) (maxY - minY) minX minY)
  end.

(** The filter predicate of [calculatePreviewSelection]. *)
Definition intersects (minX maxX minY maxY : Q) (block : Block.t) : bool :=
  let blockRight := Block.x block + Block.width block in
  let blockBottom := Block.y block + Block.height block in
  negb (gtb (Block.x block) maxX || ltb blockRight minX
        || gtb (Block.y block) maxY || ltb blockBottom minY).

Definition calculatePreviewSelection (st : State.t)
    (selectionBox : SelectionBoxState.t) : list Z :=
  match getCurrentPage st with
  | None => []
  | Some currentPage =>
      let minX := Qmin (SelectionBoxState.startX selectionBox)
                       (SelectionBoxState.currentX selectionBox) in
      let maxX := Qmax (SelectionBoxState.startX selectionBox)
                       (SelectionBoxState.currentX selectionBox) in
      let minY := Qmin (SelectionBoxState.startY selectionBox)
                       (SelectionBoxState.currentY selectionBox) in
      let maxY := Qmax (SelectionBoxState.startY selectionBox)
                       (SelectionBoxState.currentY selectionBox) in
      let blocks := getCurrentBlocks st in
      let intersectingBlockIds :=
        map Block.id (filter (intersects minX maxX minY maxY) blocks) in
      let currentSelectedIds := Page.selectedIds currentPage in
      if State.isShiftPressed st
      then new_Set (currentSelectedIds ++ intersectingBlockIds)
      else intersectingBlockIds
  end.

Definition handleSelectionBoxComplete (st : State.t)
    (selectionBox : SelectionBoxState.t) : State.t :=
  let newSelectedIds := calculatePreviewSelection st selectionBox in
  updateCurrentPage st [selectedIds_ newSelectedIds; previewSelectedIds_ []].

Definition isPointInSelectionBounds (st : State.t) (canvasX canvasY : Q) : bool :=
  let selectedBlocks := getSelectedBlocks st in
  if (length selectedBlocks <=? 1)%nat then false
  else match getSelectionBoundingBox st with
       | None => false
       | Some boundingBox =>
           geb canvasX (Rect.x boundingBox)
           && leb canvasX (Rect.x boundingBox + Rect.width boundingBox)
           && geb canvasY (Rect.y boundingBox)
           && leb canvasY (Rect.y boundingBox + Rect.height boundingBox)
       end.

(** ** [resize.js] *)

(** The pointer position handed to a resize handler. *)
Record Percent := mkPercent { percentX : Q; percentY : Q }.

Definition RESIZE_HANDLERS (handle : ResizeString.t) (block : Rect.t) (e : Percent) : Rect.t :=
  let bx := Rect.x block in
  let b_y := Rect.y block in
  let bw := Rect.width block in
  let bh := Rect.height block in
  match handle with
  | ResizeString.nw =>
      Rect.mk (bx + bw - percentX e) (b_y + bh - percentY e)
              (Qmin (bx + bw - MIN_SIZE) (percentX e))
              (Qmin (b_y + bh - MIN_SIZE) (percentY e))
  | ResizeString.ne =>
      Rect.mk (percentX e - bx) (b_y + bh - percentY e)
              bx (Qmin (b_y + bh - MIN_SIZE) (percentY e))
  | ResizeString.sw =>
      Rect.mk (bx + bw - percentX e) (percentY e - b_y)
              (Qmin (bx + bw - MIN_SIZE) (percentX e)) b_y
  | ResizeString.se =>
      Rect.mk (percentX e - bx) (percentY e - b_y) bx b_y
  | ResizeString.n =>
      Rect.mk bw (b_y + bh - percentY e)
              bx (Qmin (b_y + bh - MIN_SIZE) (percentY e))
  | ResizeString.s =>
      Rect.mk bw (percentY e - b_y) bx b_y
  | ResizeString.w =>
      Rect.mk (bx + bw - percentX e) bh
              (Qmin (bx + bw - MIN_SIZE) (percentX e)) b_y
  | ResizeString.e =>
      Rect.mk (percentX e - bx) bh bx b_y
  end.

(** [handle.includes("n")] and [handle.includes("w")] on the handle's name. *)
Definition includes_n (handle : ResizeString.t) : bool :=
  match handle with
  | ResizeString.nw | ResizeString.ne | ResizeString.n => true
  | _ => false
  end.

Definition includes_w (handle : ResizeString.t) : bool :=
  match handle with
  | ResizeString.nw | ResizeString.sw | ResizeString.w => true
  | _ => false
  end.

Definition is_corner (handle : ResizeString.t) : bool :=
  match handle with
  | ResizeString.nw | ResizeString.ne | ResizeString.sw | ResizeString.se => true
  | _ => false
  end.

Definition is_n_or_s (handle : ResizeString.t) : bool :=
  match handle with
  | ResizeString.n | ResizeString.s => true
  | _ => false
  end.

Definition applyAspectRatioConstraint (dimensions originalBlock : Rect.t)
    (handle : ResizeString.t) : Rect.t :=
  let originalAspectRatio := Rect.width originalBlock / Rect.height originalBlock in
  if is_corner handle then
    let constrainedByWidth :=
      Rect.mk (Rect.width dimensions) (Rect.width dimensions / originalAspectRatio)
              (Rect.x dimensions) (Rect.y dimensions) in
    let constrainedByHeight :=
      Rect.mk (Rect.height dimensions * originalAspectRatio) (Rect.height dimensions)
              (Rect.x dimensions) (Rect.y dimensions) in
    let widthArea := Rect.width constrainedByWidth * Rect.height constrainedByWidth in
    let heightArea := Rect.width constrainedByHeight * Rect.height constrainedByHeight in
    let useWidthConstraint := leb widthArea heightArea in
    let result := if useWidthConstraint then constrainedByWidth else constrainedByHeight in
    let result_width := Qmax MIN_SIZE (Rect.width result) in
    let result_height := Qmax MIN_SIZE (Rect.height result) in
    if useWidthConstraint then
      if includes_n handle then
        let heightDiff := result_height - Rect.height dimensions in
        Rect.mk result_width result_height (Rect.x result) (Rect.y dimensions - heightDiff)
      else Rect.mk result_width result_height (Rect.x result) (Rect.y result)
    else
      if includes_w handle then
        let widthDiff := result_width - Rect.width dimensions in
        Rect.mk result_width result_height (Rect.x dimensions - widthDiff) (Rect.y result)
      else Rect.mk result_width result_height (Rect.x result) (Rect.y result)
  else if is_n_or_s handle then
    let newWidth := Rect.height dimensions * originalAspectRatio in
    let widthDiff := newWidth - Rect.width originalBlock in
    Rect.mk (Qmax MIN_SIZE newWidth) (Rect.height dimensions)
            (Rect.x originalBlock - widthDiff / 2) (Rect.y dimensions)
  else
    let newHeight := Rect.width dimensions / originalAspectRatio in
    let heightDiff := newHeight - Rect.height originalBlock in
    Rect.mk (Rect.width dimensions) (Qmax MIN_SIZE newHeight)
            (Rect.x dimensions) (Rect.y originalBlock - heightDiff / 2).

Definition RESIZE_CURSORS (handle : ResizeString.t) : string :=
  match handle with
  | ResizeString.nw | ResizeString.se => "nwse-resize"
  | ResizeString.ne | ResizeString.sw => "nesw-resize"
  | ResizeString.n | ResizeString.s => "ns-resize"
  | ResizeString.w | ResizeString.e => "ew-resize"
  end.

(** The events and the DOM reads of the handlers. *)
Record PointerEvent := mkPointerEvent {
  clientX : Q; clientY : Q; button : Z; shiftKey : bool }.

Record WheelEvent := mkWheelEvent {
  deltaX : Q; deltaY : Q; ctrlKey : bool; metaKey : bool }.

(** [getBoundingClientRect()] of an element: the two sides the handlers read. *)
Record DOMRect := mkDOMRect { left : Q; top : Q }.

(** [onpointerdown] of a block's own resize handle; [blockId] is the id
    parsed from the handle's parent element.  The handler always stops the
    event's propagation. *)
Definition ResizeHandle_block_onpointerdown (handle : ResizeString.t) (blockId : Z)
    (st : State.t) : State.t :=
  let blocks := getCurrentBlocks st in
  match find_block blocks blockId with
  | None => st
  | Some block =>
      let selectedState := selectBlock st blockId in
      updateCurrentPage selectedState
        [resizing_ (Some (ResizeState.mk (BlockId blockId) handle
                            (Block.width block) (Block.height block)
                            (Block.x block) (Block.y block) None));
         cursorStyle_ (RESIZE_CURSORS handle)]
  end.

(** [onpointerdown] of a handle of the multi-selection bounding box. *)
Definition ResizeHandle_multi_onpointerdown (handle : ResizeString.t)
    (st : State.t) : State.t :=
  let selectedBlocks := getSelectedBlocks st in
  match getSelectionBoundingBox st with
  | None => st
  | Some bbox =>
      if (length selectedBlocks <=? 1)%nat then st
      else updateCurrentPage st
        [resizing_ (Some (ResizeState.mk SelectionBoundingBox handle
                            (Rect.width bbox) (Rect.height bbox)
                            (Rect.x bbox) (Rect.y bbox)
                            (Some (map (fun block =>
                                          OriginalBlockState.mk (Block.id block)
                                            (Block.x block) (Block.y block)
                                            (Block.width block) (Block.height block))
                                       selectedBlocks))));
         cursorStyle_ (RESIZE_CURSORS handle)]
  end.

Definition find_original (originalBlocks : list OriginalBlockState.t) (i : Z)
    : option OriginalBlockState.t :=
  find (fun o => Z.eqb (OriginalBlockState.id o) i) originalBlocks.

(** [{ ...block, x, y, width, height }]. *)
Definition with_geometry (b : Block.t) (x y width height : Q) : Block.t :=
  Block.mk (Block.id b) width height x y (Block.zIndex b)
           (Block.imageSrc b) (Block.pageSrc b).

(** The body of the [blocks.map] of the group branch. *)
Definition group_resize_block (resizing : ResizeState.t)
    (originalBlocks : list OriginalBlockState.t) (newBBox : Rect.t)
    (block : Block.t) : Block.t :=
  let scaleX := Rect.width newBBox / ResizeState.startWidth resizing in
  let scaleY := Rect.height newBBox / ResizeState.startHeight resizing in
  match find_original originalBlocks (Block.id block) with
  | None => block
  | Some originalBlock =>
      let relativeX :=
        (OriginalBlockState.x originalBlock - ResizeState.startX resizing)
        / ResizeState.startWidth resizing in
      let relativeY :=
        (OriginalBlockState.y originalBlock - ResizeState.startY resizing)
        / ResizeState.startHeight resizing in
      let newWidth := Qmax MIN_SIZE (OriginalBlockState.width originalBlock * scaleX) in
      let newHeight := Qmax MIN_SIZE (OriginalBlockState.height originalBlock * scaleY) in
      let newX := Rect.x newBBox + relativeX * Rect.width newBBox in
      let newY := Rect.y newBBox + relativeY * Rect.height newBBox in
      with_geometry block newX newY newWidth newHeight
  end.

(** The bounding box the group branch scales the blocks into. *)
Definition group_newBBox (st : State.t) (resizing : ResizeState.t)
    (canvasX canvasY : Q) : Rect.t :=
  let virtualBoundingBox :=
    Rect.mk (ResizeState.startWidth resizing) (ResizeState.startHeight resizing)
            (ResizeState.startX resizing) (ResizeState.startY resizing) in
  let newBBox := RESIZE_HANDLERS (ResizeState.handle resizing) virtualBoundingBox
                   (mkPercent canvasX canvasY) in
  if State.isShiftPressed st
  then applyAspectRatioConstraint newBBox virtualBoundingBox (ResizeState.handle resizing)
  else newBBox.

(** The rectangle the single-block branch gives the resized block. *)
Definition single_resize_rect (st : State.t) (resizing : ResizeState.t)
    (block : Block.t) (canvasX canvasY : Q) : Rect.t :=
  let newDimensions := RESIZE_HANDLERS (ResizeState.handle resizing) (rect_of_block block)
                         (mkPercent canvasX canvasY) in
  let newDimensions :=
    if State.isShiftPressed st then
      let originalBlock :=
        Rect.mk (ResizeState.startWidth resizing) (ResizeState.startHeight resizing)
                (ResizeState.startX resizing) (ResizeState.startY resizing) in
      applyAspectRatioConstraint newDimensions originalBlock (ResizeState.handle resizing)
    else newDimensions in
  let finalWidth := Qmax MIN_SIZE (Rect.width newDimensions) in
  let finalHeight := Qmax MIN_SIZE (Rect.height newDimensions) in
  Rect.mk finalWidth finalHeight (Rect.x newDimensions) (Rect.y newDimensions).

Definition handleResizePointerMove (st : State.t) (event : PointerEvent)
    (canvasRect : DOMRect) : State.t :=
  match getCurrentPage st with
  | None => st
  | Some page =>
      match Page.resizing page with
      | None => st
      | Some resizing =>
          let viewport := getCurrentViewport st in
          let canvasX := (clientX event - left canvasRect) / vp_zoom viewport in
          let canvasY := (clientY event - top canvasRect) / vp_zoom viewport in
          let blocks := getCurrentBlocks st in
          match ResizeState.id resizing with
          | SelectionBoundingBox =>
              match ResizeState.originalBlocks resizing with
              | None => st
              | Some originalBlocks =>
                  let newBBox := group_newBBox st resizing canvasX canvasY in
                  updateCurrentPage st
                    [blocks_ (map (group_resize_block resizing originalBlocks newBBox) blocks)]
              end
          | BlockId i =>
              match find_block blocks i with
              | None => st
              | Some block =>
                  let r := single_resize_rect st resizing block canvasX canvasY in
                  updateCurrentPage st
                    [blocks_ (map (fun b =>
                                     if Z.eqb (Block.id b) i
                                     then with_geometry b (Rect.x r) (Rect.y r)
                                            (Rect.width r) (Rect.height r)
                                     else b)
                                  blocks)]
              end
          end
      end
  end.

(** ** [viewport.js] *)

Definition getCanvasCoordinates (event : PointerEvent) (st : State.t)
    (canvasRect : DOMRect) : Q * Q :=
  let viewport := getCurrentViewport st in
  ((clientX event - left canvasRect) / vp_zoom viewport,
   (clientY event - top canvasRect) / vp_zoom viewport).

Definition handleMiddleMouseDown (st : State.t) : State.t :=
  let deselectedState := deselectAllBlocks st in
  updateCurrentPage deselectedState
    [isViewportDragging_ true; cursorStyle_ "grabbing"].

(** [None] stands for the source's [return state]: the caller tells the two
    outcomes apart by comparing the result with [state] by reference. *)
Definition handleDragStart (st : State.t) (canvasX canvasY : Q) (isShiftKey : bool)
    : option State.t :=
  let isInSelectionBounds := isPointInSelectionBounds st canvasX canvasY in
  if isInSelectionBounds && negb isShiftKey then
    match getSelectedBlocks st with
    | referenceBlock :: _ =>
        Some (updateCurrentPage st
                [dragStart_ (Some (DragState.mk (Block.id referenceBlock)
                                     (Block.x referenceBlock) (Block.y referenceBlock)))])
    | [] => None
    end
  else None.

Definition handleSelectionBoxStart (st : State.t) (canvasX canvasY : Q)
    (isShiftKey : bool) : State.t :=
  updateCurrentPage st
    [selectionBox_ (Some (SelectionBoxState.mk canvasX canvasY canvasX canvasY));
     selectedIds_ (if isShiftKey then getSelectedBlockIds st else []);
     previewSelectedIds_ [];
     editingId_ None].

Definition onpointerdown (st : State.t) (event : PointerEvent) (canvasRect : DOMRect)
    : State.t :=
  if (button event =? 1)%Z then handleMiddleMouseDown st
  else
    let '(canvasX, canvasY) := getCanvasCoordinates event st canvasRect in
    let isInSelectionBounds := isPointInSelectionBounds st canvasX canvasY in
    let dragResult :=
      if isInSelectionBounds && negb (shiftKey event)
      then handleDragStart st canvasX canvasY (shiftKey event)
      else None in
    match dragResult with
    | Some r => r
    | None =>
        if (button event =? 0)%Z
        then handleSelectionBoxStart st canvasX canvasY (shiftKey event)
        else st
    end.

(** [{ ...block, x, y }]. *)
Definition with_position (b : Block.t) (x y : Q) : Block.t :=
  with_geometry b x y (Block.width b) (Block.height b).

Definition handleBlockDrag (st : State.t) (dx dy : Q) : State.t :=
  let viewport := getCurrentViewport st in
  let adjustedDx := dx / vp_zoom viewport in
  let adjustedDy := dy / vp_zoom viewport in
  let blocks := getCurrentBlocks st in
  let selectedBlockIds := getSelectedBlockIds st in
  updateCurrentPage st
    [blocks_ (map (fun block =>
                     if includes selectedBlockIds (Block.id block)
                     then with_position block (Block.x block + adjustedDx)
                                              (Block.y block + adjustedDy)
                     else block)
                  blocks)].

Definition handleViewportDrag (st : State.t) (dx dy : Q) : State.t :=
  let viewport := getCurrentViewport st in
  updateCurrentPage st
    [offsetX_ (vp_offsetX viewport + dx); offsetY_ (vp_offsetY viewport + dy)].

Definition handleSelectionBoxMove (st : State.t) (event : PointerEvent)
    (canvasRect : DOMRect) : State.t :=
  match getCurrentPage st with
  | None => st
  | Some currentPage =>
      match Page.selectionBox currentPage with
      | None => st
      | Some selectionBox =>
          let '(canvasX, canvasY) := getCanvasCoordinates event st canvasRect in
          let updatedSelectionBox :=
            SelectionBoxState.mk (SelectionBoxState.startX selectionBox)
              (SelectionBoxState.startY selectionBox) canvasX canvasY in
          let previewSelectedIds := calculatePreviewSelection st updatedSelectionBox in
          updateCurrentPage st
            [selectionBox_ (Some updatedSelectionBox);
             previewSelectedIds_ previewSelectedIds]
      end
  end.

Definition is_some {A : Type} (o : option A) : bool :=
  match o with Some _ => true | None => false end.

Definition onpointermove (st : State.t) (event : PointerEvent) (canvasRect : DOMRect)
    : State.t :=
  match getCurrentPage st with
  | None => st
  | Some currentPage =>
      let dx := clientX event - Page.mouseX currentPage in
      let dy := clientY event - Page.mouseY currentPage in
      let st := updateCurrentPage st [mouseX_ (clientX event); mouseY_ (clientY event)] in
      if is_some (Page.resizing currentPage)
      then handleResizePointerMove st event canvasRect
      else if is_some (Page.dragStart currentPage)
              && negb (is_some (Page.editingId currentPage))
      then handleBlockDrag st dx dy
      else if Page.isViewportDragging currentPage
      then handleViewportDrag st dx dy
      else if is_some (Page.selectionBox currentPage)
      then handleSelectionBoxMove st event canvasRect
      else st
  end.

(** [v || 0] on a number. *)
Definition or_zero (v : Q) : Q := if Qeq_bool v 0 then 0 else v.

(** The predicate of [selectedBlockIds.some] in [handleDragCompletion]. *)
Definition block_moved (blocks : list Block.t) (dragStart : DragState.t)
    (draggedBlock : option Block.t) (blockId : Z) : bool :=
  match find_block blocks blockId with
  | None => false
  | Some block =>
      if Z.eqb blockId (DragState.id dragStart) then
        neqb (Block.x block) (DragState.startX dragStart)
        || neqb (Block.y block) (DragState.startY dragStart)
      else
        let draggedX := match draggedBlock with Some d => or_zero (Block.x d) | None => 0 end in
        let draggedY := match draggedBlock with Some d => or_zero (Block.y d) | None => 0 end in
        let dragDeltaX := or_zero (DragState.startX dragStart) - draggedX in
        let dragDeltaY := or_zero (DragState.startY dragStart) - draggedY in
        let originalX := Block.x block + dragDeltaX in
        let originalY := Block.y block + dragDeltaY in
        gtb (Qabs (Block.x block - originalX)) 0.1
        || gtb (Qabs (Block.y block - originalY)) 0.1
  end.

Definition handleDragCompletion (st newState : State.t) : State.t :=
  match getCurrentPage st with
  | None => newState
  | Some currentPage =>
      match Page.dragStart currentPage with
      | None => newState
      | Some dragStart =>
          let blocks := getCurrentBlocks st in
          let selectedBlockIds := getSelectedBlockIds st in
          let draggedBlock := find_block blocks (DragState.id dragStart) in
          let hasAnyBlockMoved :=
            existsb (block_moved blocks dragStart draggedBlock) selectedBlockIds in
          match draggedBlock with
          | Some dragged =>
              if hasAnyBlockMoved then
                let dragDeltaX :=
                  or_zero (Block.x dragged) - or_zero (DragState.startX dragStart) in
                let dragDeltaY :=
                  or_zero (Block.y dragged) - or_zero (DragState.startY dragStart) in
                let beforeDragState :=
                  updateCurrentPage st
                    [blocks_ (map (fun b =>
                                     if includes selectedBlockIds (Block.id b)
                                     then with_position b (Block.x b - dragDeltaX)
                                                          (Block.y b - dragDeltaY)
                                     else b)
                                  blocks)] in
                saveMementoAndReturn beforeDragState newState
              else newState
          | None => newState
          end
      end
  end.

(** The predicate of [originalBlocks.some] in [handleResizeCompletion]. *)
Definition original_changed (blocks : list Block.t)
    (originalBlock : OriginalBlockState.t) : bool :=
  match find_block blocks (OriginalBlockState.id originalBlock) with
  | None => false
  | Some currentBlock =>
      gtb (Qabs (Block.x currentBlock - OriginalBlockState.x originalBlock)) 0.1
      || gtb (Qabs (Block.y currentBlock - OriginalBlockState.y originalBlock)) 0.1
      || gtb (Qabs (Block.width currentBlock - OriginalBlockState.width originalBlock)) 0.1
      || gtb (Qabs (Block.height currentBlock - OriginalBlockState.height originalBlock)) 0.1
  end.

Definition handleResizeCompletion (st newState : State.t) : State.t :=
  match getCurrentPage st with
  | None => newState
  | Some currentPage =>
      match Page.resizing currentPage with
      | None => newState
      | Some resizing =>
          let blocks := getCurrentBlocks st in
          match ResizeState.id resizing with
          | SelectionBoundingBox =>
              match ResizeState.originalBlocks resizing with
              | None => newState
              | Some originalBlocks =>
                  let hasAnyBlockChanged :=
                    existsb (original_changed blocks) originalBlocks in
                  if hasAnyBlockChanged then
                    let beforeResizeState :=
                      updateCurrentPage st
                        [blocks_ (map (fun b =>
                                         match find_original originalBlocks (Block.id b) with
                                         | Some originalBlock =>
                                             with_geometry b
                                               (OriginalBlockState.x originalBlock)
                                               (OriginalBlockState.y originalBlock)
                                               (OriginalBlockState.width originalBlock)
                                               (OriginalBlockState.height originalBlock)
                                         | None => b
                                         end)
                                      blocks)] in
                    saveMementoAndReturn beforeResizeState newState
                  else newState
              end
          | BlockId i =>
              match find_block blocks i with
              | None => newState
              | Some resizedBlock =>
                  if neqb (Block.width resizedBlock) (ResizeState.startWidth resizing)
                     || neqb (Block.height resizedBlock) (ResizeState.startHeight resizing)
                     || neqb (Block.x resizedBlock) (ResizeState.startX resizing)
                     || neqb (Block.y resizedBlock) (ResizeState.startY resizing)
                  then
                    let beforeResizeState :=
                      updateCurrentPage st
                        [blocks_ (map (fun b =>
                                         if Z.eqb (Block.id b) (Block.id resizedBlock)
                                         then with_geometry b
                                                (or_zero (ResizeState.startX resizing))
                                                (or_zero (ResizeState.startY resizing))
                                                (or_zero (ResizeState.startWidth resizing))
                                                (or_zero (ResizeState.startHeight resizing))
                                         else b)
                                      blocks)] in
                    saveMementoAndReturn beforeResizeState newState
                  else newState
              end
          end
      end
  end.

Definition onpointerup (st : State.t) : State.t :=
  match getCurrentPage st with
  | None => st
  | Some currentPage =>
      let newState :=
        updateCurrentPage st
          [isViewportDragging_ false; resizing_ None; dragStart_ None;
           cursorStyle_ "default"] in
      let newState :=
        match Page.selectionBox currentPage with
        | Some selectionBox =>
            let newState := handleSelectionBoxComplete newState selectionBox in
            updateCurrentPage newState [selectionBox_ None]
        | None => newState
        end in
      if is_some (Page.dragStart currentPage) then handleDragCompletion st newState
      else if is_some (Page.resizing currentPage) then handleResizeCompletion st newState
      else newState
  end.

(** [rect] is the bounding rectangle of the viewport element. *)
Definition onwheel (st : State.t) (event : WheelEvent) (rect : DOMRect) : State.t :=
  let isTrackpad := ltb (Qabs (deltaY event)) 50 && negb (ctrlKey event) in
  match getCurrentPage st with
  | None => st
  | Some page =>
      if isTrackpad then
        updateCurrentPage st
          [offsetX_ (Page.offsetX page - deltaX event);
           offsetY_ (Page.offsetY page - deltaY event)]
      else if ctrlKey event || metaKey event then
        let zoomDelta := - deltaY event * 0.01 in
        let newZoom := Qmax 0.1 (Qmin 5 (Page.zoom page + zoomDelta)) in
        let relativeMouseX := Page.mouseX page - left rect in
        let relativeMouseY := Page.mouseY page - top rect in
        let zoomRatio := newZoom / Page.zoom page in
        let newOffsetX := relativeMouseX - (relativeMouseX - Page.offsetX page) * zoomRatio in
        let newOffsetY := relativeMouseY - (relativeMouseY - Page.offsetY page) * zoomRatio in
        updateCurrentPage st [zoom_ newZoom; offsetX_ newOffsetX; offsetY_ newOffsetY]
      else st
  end.

(** The screen-to-canvas conversion of [getViewportCenterCoordinates],
    for a point given relative to the viewport element. *)
Definition screenToCanvas (px py : Q) (viewport : Viewport) : Q * Q :=
  ((px - vp_offsetX viewport) / vp_zoom viewport,
   (py - vp_offsetY viewport) / vp_zoom viewport).

(** [onkeydown] for the key ["z"] or ["Z"] with ctrl or cmd held: undo, or
    redo with shift. *)
Definition onkeydown_z (st : State.t) (shift : bool) : State.t :=
  match getCurrentPage st with
  | None => st
  | Some currentPage =>
      if Page.isTextEditorFocused currentPage then st
      else if is_some (Page.editingId currentPage) then st
      else if shift then redoState st else undoState st
  end.

(** ** [block.js]: the pointer-down handler of a rendered block *)

(** [block] and [isMultiSelect] are the values the view closed over when it
    rendered the block.  The second component tells whether the event goes
    on to the viewport's handler: the handler returns before
    [event.stopPropagation()] when there is no current page or several
    blocks are selected. *)
Definition block_onpointerdown (isMultiSelect : bool) (block : Block.t)
    (st : State.t) (event : PointerEvent) : State.t * bool :=
  match getCurrentPage st with
  | None => (st, true)
  | Some currentPage =>
      if isMultiSelect then (st, true)
      else if match Page.editingId currentPage with
              | Some i => Z.eqb i (Block.id block)
              | None => false
              end || Page.isInteractMode currentPage
      then (st, false)
      else if shiftKey event then (toggleBlockSelection st (Block.id block), false)
      else
        let selectedState := selectBlock st (Block.id block) in
        (updateCurrentPage selectedState
           [dragStart_ (Some (DragState.mk (Block.id block) (Block.x block) (Block.y block)))],
         false)
  end.

(** [isMultiSelect] as the view computes it. *)
Definition isMultiSelect (st : State.t) : bool :=
  (1 <? length (getSelectedBlocks st))%nat.

(** ** Pointer events as the DOM delivers them *)

(** Where a pointer-down lands.  On a block, the handler runs with the
    [isMultiSelect] and [block] of the rendered view; on a block's resize
    handle, with the handle and the block id of the parent element. *)
Inductive PointerTarget :=
| OnCanvas
| OnBlock (isMultiSelect : bool) (block : Block.t)
| OnBlockHandle (handle : ResizeString.t) (blockId : Z)
| OnMultiHandle (handle : ResizeString.t).

Inductive PointerEv :=
| Down (target : PointerTarget) (event : PointerEvent) (canvasRect : DOMRect)
| Move (event : PointerEvent) (canvasRect : DOMRect)
| Up.

(** A pointer-down bubbles from its target to the viewport unless a handler
    stops it; both kinds of resize handle stop it. *)
Definition pointerdown (target : PointerTarget) (st : State.t)
    (event : PointerEvent) (canvasRect : DOMRect) : State.t :=
  match target with
  | OnCanvas => onpointerdown st event canvasRect
  | OnBlock multi block =>
      let '(st1, bubbles) := block_onpointerdown multi block st event in
      if bubbles then onpointerdown st1 event canvasRect else st1
  | OnBlockHandle handle blockId => ResizeHandle_block_onpointerdown handle blockId st
  | OnMultiHandle handle => ResizeHandle_multi_onpointerdown handle st
  end.

Definition pointer_step (st : State.t) (ev : PointerEv) : State.t :=
  match ev with
  | Down target event canvasRect => pointerdown target st event canvasRect
  | Move event canvasRect => onpointermove st event canvasRect
  | Up => onpointerup st
  end.

Definition run_pointer (evs : list PointerEv) (st : State.t) : State.t :=
  fold_left pointer_step evs st.

(** Every pointer-down comes with the pointer up: no second pointer goes
    down while one is down. *)
Fixpoint well_bracketed (pressed : bool) (evs : list PointerEv) : bool :=
  match evs with
  | [] => true
  | Down _ _ _ :: r => negb pressed && well_bracketed true r
  | Move _ _ :: r => well_bracketed pressed r
  | Up :: r => well_bracketed false r
  end.

Definition gesture_count (p : Page.t) : nat :=
  ((if is_some (Page.resizing p) then 1 else 0)
   + (if is_some (Page.dragStart p) then 1 else 0)
   + (if is_some (Page.selectionBox p) then 1 else 0))%nat.

(** At most one of [resizing], [dragStart], [selectionBox] of the current
    page is non-null. *)
Definition at_most_one_gesture (st : State.t) : Prop :=
  match getCurrentPage st with
  | Some p => (gesture_count p <= 1)%nat
  | None => True
  end.

Definition no_gesture (st : State.t) : Prop :=
  match getCurrentPage st with
  | Some p => gesture_count p = 0%nat
  | None => True
  end.

(** ** Histories *)

(** [commits st0 ms st]: [st] comes from [st0] by committed mutations, each
    a call [saveMementoAndReturn prevState newState] whose [prevState]
    carries the manager of the state it is applied in; [ms] lists the
    snapshots taken, oldest first. *)
Inductive commits : State.t -> list Memento.t -> State.t -> Prop :=
| commits_nil st : commits st [] st
| commits_snoc st0 ms st prevState newState :
    commits st0 ms st ->
    State.mementoManager prevState = State.mementoManager st ->
    commits st0 (ms ++ [createMemento prevState])
            (saveMementoAndReturn prevState newState).

Inductive history_step : State.t -> State.t -> Prop :=
| step_commit st prevState newState :
    State.mementoManager prevState = State.mementoManager st ->
    history_step st (saveMementoAndReturn prevState newState)
| step_undo st : history_step st (undoState st)
| step_redo st : history_step st (redoState st).

Inductive history_steps : State.t -> State.t -> Prop :=
| steps_refl st : history_steps st st
| steps_snoc st0 st st' :
    history_steps st0 st -> history_step st st' -> history_steps st0 st'.

(** ** Sample states *)

Definition blockA : Block.t := Block.mk 1 100 100 0 0 1 "a.png" "A".
Definition blockB : Block.t := Block.mk 2 50 50 100 0 2 "b.png" "B".

Definition page1 : Page.t :=
  Page.mk "p1" "New Page" [blockA; blockB] 0 0 1 0 0 "pointer"
          false false false [] [] None None None None None EmptyString EmptyString.

Definition page2 : Page.t :=
  Page.mk "p2" "Second" [blockB] 0 0 1 0 0 "pointer"
          false false false [2%Z] [] None None None None None EmptyString EmptyString.

Definition state1 : State.t :=
  State.mk [page1; page2] "p1" createMementoManager
           false true 300 None EmptyString None false None false false.

Definition origin : DOMRect := mkDOMRect 0 0.

Definition click (x y : Q) : PointerEvent := mkPointerEvent x y 0 false.

(** A committed mutation to repeat, and the snapshots it takes. *)
Definition touch (st : State.t) : State.t := renamePage st "p1" "renamed".

Fixpoint snapshots (k : nat) (st : State.t) : list Memento.t :=
  match k with
  | O => []
  | S k' => snapshots k' st ++ [createMemento (Nat.iter k' touch st)]
  end.

(** A marquee in progress over both blocks of [page1], after one commit. *)
Definition state_marquee : State.t :=
  run_pointer [Down OnCanvas (click 300 300) origin; Move (click 50 50) origin]
    (touch state1).

(** Ctrl+Z while that marquee is in progress, the pointer released, then
    Ctrl+Shift+Z. *)
Definition state_redone : State.t :=
  onkeydown_z (onpointerup (onkeydown_z state_marquee false)) true.

(** ** Page isolation *)

(** [st'] has the current page id of [st], and every page of [st] whose id
    is not the current one is in [st'], at the same place, unchanged. *)
Definition others_unchanged (st st' : State.t) : Prop :=
  State.currentPageId st' = State.currentPageId st
  /\ Forall2 (fun p p' => Page.id p <> State.currentPageId st -> p' = p)
             (State.pages st) (State.pages st').

(** ** Resize *)

(** The blocks a resize gesture acts on: the block of the given id, or the
    blocks recorded when the group gesture started. *)
Definition resize_targets (resizing : ResizeState.t) (i : Z) : bool :=
  match ResizeState.id resizing with
  | BlockId j => Z.eqb i j
  | SelectionBoundingBox =>
      match ResizeState.originalBlocks resizing with
      | Some originalBlocks => is_some (find_original originalBlocks i)
      | None => false
      end
  end.

(** Blocks A and B of the sample page selected, the [se] handle of their
    bounding box pressed, and the pointer taken to [(x, y)] with or without
    shift held. *)
Definition state_selected : State.t :=
  updateCurrentPage state1 [selectedIds_ [1; 2]%Z].

Definition with_shift (st : State.t) (v : bool) : State.t :=
  let '(State.mk ps cp mm dm pv pw cb pf nt nv ep _ op) := st in
  State.mk ps cp mm dm pv pw cb pf nt nv ep v op.

Definition state_pressed (shift : bool) : State.t :=
  with_shift
    (run_pointer [Down (OnMultiHandle ResizeString.se) (click 150 100) origin]
       state_selected)
    shift.

Definition group_se_to (shift : bool) (x y : Q) : State.t :=
  run_pointer [Move (click x y) origin] (state_pressed shift).

(** The group rule in the words of the specification: every recorded block
    keeps its fraction of the bounding box.  [claimed_group_block] is the
    rule as the specification states it; [amended_group_block] floors the
    two sizes at [MIN_SIZE]. *)
Definition claimed_group_block (origBBox newBBox : Rect.t)
    (orig : OriginalBlockState.t) (block : Block.t) : Block.t :=
  let relativeX := (OriginalBlockState.x orig - Rect.x origBBox) / Rect.width origBBox in
  let relativeY := (OriginalBlockState.y orig - Rect.y origBBox) / Rect.height origBBox in
  with_geometry block
    (Rect.x newBBox + relativeX * Rect.width newBBox)
    (Rect.y newBBox + relativeY * Rect.height newBBox)
    (OriginalBlockState.width orig * (Rect.width newBBox / Rect.width origBBox))
    (OriginalBlockState.height orig * (Rect.height newBBox / Rect.height origBBox)).

Definition amended_group_block (origBBox newBBox : Rect.t)
    (orig : OriginalBlockState.t) (block : Block.t) : Block.t :=
  let c := claimed_group_block origBBox newBBox orig block in
  with_geometry block (Block.x c) (Block.y c)
    (Qmax MIN_SIZE (Block.width c)) (Qmax MIN_SIZE (Block.height c)).

Definition geometry_is (b : Block.t) (x y width height : Q) : Prop :=
  Block.x b == x /\ Block.y b == y /\ Block.width b == width /\ Block.height b == height.

(** The content of an option known to be [Some]. *)
Definition the {A : Type} (o : option A) (default : A) : A :=
  match o with Some v => v | None => default end.

Definition page_pressed : Page.t := the (getCurrentPage (state_pressed true)) page1.

Definition resizing_pressed : ResizeState.t :=
  the (Page.resizing page_pressed)
      (ResizeState.mk SelectionBoundingBox ResizeString.se 0 0 0 0 None).

Definition originals_pressed : list OriginalBlockState.t :=
  the (ResizeState.originalBlocks resizing_pressed) [].

(** ** Zoom and marquee, in the words of the specification *)

Definition clamp (v lo hi : Q) : Q := Qmax lo (Qmin hi v).

(** The marquee and a block are not strictly apart on either axis. *)
Definition rect_intersects (b : Block.t) (box : SelectionBoxState.t) : Prop :=
  let minX := Qmin (SelectionBoxState.startX box) (SelectionBoxState.currentX box) in
  let maxX := Qmax (SelectionBoxState.startX box) (SelectionBoxState.currentX box) in
  let minY := Qmin (SelectionBoxState.startY box) (SelectionBoxState.currentY box) in
  let maxY := Qmax (SelectionBoxState.startY box) (SelectionBoxState.currentY box) in
  ~ (maxX < Block.x b \/ Block.x b + Block.width b < minX
     \/ maxY < Block.y b \/ Block.y b + Block.height b < minY).

(** A page with the one block [{x:10, y:10, w:20, h:20}]. *)
Definition block10 : Block.t := Block.mk 7 20 20 10 10 1 "c.png" "C".

Definition state10 (shift : bool) (selected : list Z) : State.t :=
  State.mk [Page.mk "p" "Page" [block10] 0 0 1 0 0 "pointer"
              false false false selected [] None None None None None EmptyString EmptyString]
           "p" createMementoManager false true 300 None EmptyString None false None shift false.

(** A marquee given as [{x, y, w, h}]. *)
Definition marquee (x y w h : Q) : SelectionBoxState.t :=
  SelectionBoxState.mk x y (x + w) (y + h).

(** A wheel event with cmd held, ctrl not, and a small [deltaY]. *)
Definition cmd_wheel : WheelEvent := mkWheelEvent 0 10 false true.

(** ** The commit at pointer-up, in the words of the amended claim *)

(** Pushing a memento: onto [undoStack], the oldest entries beyond
    [maxHistorySize] dropped, [redoStack] emptied. *)
Definition push_memento (mm : MementoManager.t) (m : Memento.t) : MementoManager.t :=
  MementoManager.mk
    (slice (MementoManager.undoStack mm ++ [m]) (- MementoManager.maxHistorySize mm) None)
    [] (MementoManager.maxHistorySize mm).

(** [b] has the position and the size of [b0]. *)
Definition same_geometry (b0 b : Block.t) : Prop :=
  geometry_is b (Block.x b0) (Block.y b0) (Block.width b0) (Block.height b0).

(** [b] is more than [eps] away from [b0] in x, y, width or height. *)
Definition differs_over (eps : Q) (b0 b : Block.t) : Prop :=
  eps < Qabs (Block.x b - Block.x b0) \/ eps < Qabs (Block.y b - Block.y b0)
  \/ eps < Qabs (Block.width b - Block.width b0)
  \/ eps < Qabs (Block.height b - Block.height b0).

(** The gesture of [page] is the resize of a group. *)
Definition resizing_group (page : Page.t) : bool :=
  match Page.dragStart page, Page.resizing page with
  | None, Some r =>
      match ResizeState.id r with
      | SelectionBoundingBox => true
      | BlockId _ => false
      end
  | _, _ => false
  end.

(** The net change of a gesture that went down on the blocks [blocks0] and
    has brought the page to [page]: some block of [blocks0], looked up on
    the page by its id, is not where or what it was.  While a group is
    resized a block counts when it is more than 0.1 away in x, y, width or
    height; in a drag and in the resize of one block any difference
    counts. *)
Definition net_change (blocks0 : list Block.t) (page : Page.t) : Prop :=
  exists b0 b,
    In b0 blocks0
    /\ find_block (Page.blocks page) (Block.id b0) = Some b
    /\ if resizing_group page then differs_over 0.1 b0 b else ~ same_geometry b0 b.

(** [b'] is [b] but for its position and size. *)
Definition same_block (b b' : Block.t) : Prop :=
  Block.id b' = Block.id b /\ Block.zIndex b' = Block.zIndex b
  /\ Block.imageSrc b' = Block.imageSrc b /\ Block.pageSrc b' = Block.pageSrc b.

(** [blocks] are the blocks [blocks0], as many and in their order, each at
    the position and the size it has in [blocks0]. *)
Definition restored (blocks0 blocks : list Block.t) : Prop :=
  Forall2 (fun b0 b => same_block b0 b /\ same_geometry b0 b) blocks0 blocks.


(** A gesture up to the pointer-up: a pointer-down, then pointer-moves. *)
Definition gesture (target : PointerTarget) (event : PointerEvent) (canvasRect : DOMRect)
    (moves : list (PointerEvent * DOMRect)) : list PointerEv :=
  Down target event canvasRect :: map (fun m => Move (fst m) (snd m)) moves.

(** The target of a pointer-down is part of the view of [st]: a block
    pressed is a block of the current page. *)
Definition rendered (st : State.t) (target : PointerTarget) : Prop :=
  match target with
  | OnBlock _ block => In block (getCurrentBlocks st)
  | _ => True
  end.


(** A drag of A by a twentieth of a pixel. *)
Definition state_nudged : State.t :=
  run_pointer [Move (click 10 10) origin;
               Down (OnBlock false blockA) (click 10 10) origin;
               Move (click 10.05 10) origin;
               Up] state1.

(** The same drag before the pointer goes up. *)
Definition state_nudging : State.t :=
  run_pointer [Move (click 10 10) origin;
               Down (OnBlock false blockA) (click 10 10) origin;
               Move (click 10.05 10) origin] state1.

Definition page_nudging : Page.t := the (getCurrentPage state_nudging) page1.

(** ** Snapshots *)

(** [m] is [p] with [selectedIds] emptied and [dragStart] and [resizing]
    nulled, every other field as in [p]. *)
Definition snapshot_of (p m : Page.t) : Prop :=
  Page.selectedIds m = [] /\ Page.dragStart m = None /\ Page.resizing m = None
  /\ Page.id m = Page.id p /\ Page.name m = Page.name p
  /\ Page.blocks m = Page.blocks p
  /\ Page.offsetX m = Page.offsetX p /\ Page.offsetY m = Page.offsetY p
  /\ Page.zoom m = Page.zoom p
  /\ Page.mouseX m = Page.mouseX p /\ Page.mouseY m = Page.mouseY p
  /\ Page.cursorStyle m = Page.cursorStyle p
  /\ Page.isViewportDragging m = Page.isViewportDragging p
  /\ Page.isTextEditorFocused m = Page.isTextEditorFocused p
  /\ Page.isInteractMode m = Page.isInteractMode p
  /\ Page.previewSelectedIds m = Page.previewSelectedIds p
  /\ Page.editingId m = Page.editingId p /\ Page.hoveringId m = Page.hoveringId p
  /\ Page.selectionBox m = Page.selectionBox p
  /\ Page.state m = Page.state p /\ Page.css m = Page.css p.

(** ** Invariants and summaries used in the proofs *)

Definition clean_memento (m : Memento.t) : Prop :=
  cleanPages (Memento.pages m) = Memento.pages m.

Definition bounded_history (st : State.t) : Prop :=
  MementoManager.maxHistorySize (State.mementoManager st) = 50%Z
  /\ (length (MementoManager.undoStack (State.mementoManager st))
      + length (MementoManager.redoStack (State.mementoManager st)) <= 50)%nat.

Definition keeps_id (d : PageData) : bool :=
  forallb (fun f => match f with id_ _ => false | _ => true end) d.

(** Which of [resizing], [dragStart], [selectionBox] are set. *)
Definition gs (p : Page.t) : bool * bool * bool :=
  (is_some (Page.resizing p), is_some (Page.dragStart p), is_some (Page.selectionBox p)).

Definition field_gs (g : bool * bool * bool) (f : PageField) : bool * bool * bool :=
  let '(r, d, b) := g in
  match f with
  | resizing_ v => (is_some v, d, b)
  | dragStart_ v => (r, is_some v, b)
  | selectionBox_ v => (r, d, is_some v)
  | _ => g
  end.

Definition patch_gs (d : PageData) (g : bool * bool * bool) : bool * bool * bool :=
  fold_left field_gs d g.

Definition cur_gs (st : State.t) : option (bool * bool * bool) :=
  option_map gs (getCurrentPage st).

Definition count_gs (g : bool * bool * bool) : nat :=
  let '(r, d, b) := g in
  ((if r then 1 else 0) + (if d then 1 else 0) + (if b then 1 else 0))%nat.

(** [gs_rel R st st']: the handler that took [st] to [st'] kept the current
    page in place and changed its gesture records as [R] says. *)
Definition gs_rel (R : bool * bool * bool -> bool * bool * bool -> Prop)
    (st st' : State.t) : Prop :=
  match cur_gs st with
  | None => cur_gs st' = None
  | Some g => exists g', cur_gs st' = Some g' /\ R g g'
  end.

Definition starts_one (g g' : bool * bool * bool) : Prop :=
  g = (false, false, false) -> (count_gs g' <= 1)%nat.

(** The invariant of a well-bracketed run: nothing is set while the pointer
    is up, at most one record while it is down. *)
Definition gesture_inv (pressed : bool) (st : State.t) : Prop :=
  if pressed then at_most_one_gesture st else no_gesture st.

(** What a pointer-down in an idle state on the blocks [blocks0] leaves on
    the current page: no drag and no resize record; or the drag record of a
    selected block of [blocks0]; or the resize record of a block of
    [blocks0]; or the resize record of a group of blocks of [blocks0]. *)
Definition down_shape (blocks0 : list Block.t) (page1 : Page.t) : Prop :=
  (Page.dragStart page1 = None /\ Page.resizing page1 = None)
  \/ (Page.resizing page1 = None
      /\ exists ref,
           In ref blocks0
           /\ includes (Page.selectedIds page1) (Block.id ref) = true
           /\ Page.dragStart page1
              = Some (DragState.mk (Block.id ref) (Block.x ref) (Block.y ref)))
  \/ (Page.dragStart page1 = None
      /\ exists i h block,
           find_block blocks0 i = Some block
           /\ Page.resizing page1
              = Some (ResizeState.mk (BlockId i) h (Block.width block) (Block.height block)
                        (Block.x block) (Block.y block) None))
  \/ (Page.dragStart page1 = None
      /\ exists h sw sh sx sy sel,
           incl sel blocks0
           /\ Page.resizing page1
              = Some (ResizeState.mk SelectionBoundingBox h sw sh sx sy
                        (Some (map (fun block =>
                                      OriginalBlockState.mk (Block.id block)
                                        (Block.x block) (Block.y block)
                                        (Block.width block) (Block.height block))
                                   sel)))).

(** [d] has none of the keys [id], [blocks], [selectedIds], [dragStart],
    [resizing]. *)
Definition keeps_gesture (d : PageData) : bool :=
  forallb (fun f => match f with
                    | id_ _ | blocks_ _ | selectedIds_ _ | dragStart_ _ | resizing_ _ => false
                    | _ => true
                    end) d.

(** The records and the selection of [page] are those of [page1]. *)
Definition records_kept (page1 page : Page.t) : Prop :=
  Page.dragStart page = Page.dragStart page1
  /\ Page.resizing page = Page.resizing page1
  /\ Page.selectedIds page = Page.selectedIds page1.

(** What the moves of a drag, of the resize of block [i] and of the resize
    of the group [obs] make of a block [b0]. *)
Definition dragged_by (sel : list Z) (dx dy : Q) (b0 b : Block.t) : Prop :=
  if includes sel (Block.id b0)
  then same_block b0 b
       /\ geometry_is b (Block.x b0 + dx) (Block.y b0 + dy)
                        (Block.width b0) (Block.height b0)
  else b = b0.

Definition resized_at (i : Z) (b0 b : Block.t) : Prop :=
  if Z.eqb (Block.id b0) i then same_block b0 b else b = b0.

Definition resized_in (obs : list OriginalBlockState.t) (b0 b : Block.t) : Prop :=
  match find_original obs (Block.id b0) with
  | Some _ => same_block b0 b
  | None => b = b0
  end.

(** What pointer-moves can have made of the blocks of [page1], the page
    right after the pointer-down; the resize record is looked at first, as
    in [onpointermove]. *)
Definition moved_blocks (page1 : Page.t) (blocks : list Block.t) : Prop :=
  match Page.resizing page1 with
  | Some r =>
      match ResizeState.id r with
      | BlockId i => Forall2 (resized_at i) (Page.blocks page1) blocks
      | SelectionBoundingBox =>
          match ResizeState.originalBlocks r with
          | Some obs => Forall2 (resized_in obs) (Page.blocks page1) blocks
          | None => blocks = Page.blocks page1
          end
      end
  | None =>
      match Page.dragStart page1 with
      | Some _ =>
          exists dx dy,
            Forall2 (dragged_by (Page.selectedIds page1) dx dy) (Page.blocks page1) blocks
      | None => blocks = Page.blocks page1
      end
  end.

(** The invariant of the moves that follow a pointer-down. *)
Definition moving (page1 : Page.t) (st : State.t) : Prop :=
  exists page,
    getCurrentPage st = Some page
    /\ records_kept page1 page
    /\ moved_blocks page1 (Page.blocks page).

(** The pointer-down went on a resize handle. *)
Definition on_handle (target : PointerTarget) : bool :=
  match target with
  | OnBlockHandle _ _ | OnMultiHandle _ => true
  | _ => false
  end.

(** ** More of [pages.js] *)

(** [{ ...state, currentPageId }]. *)
Definition with_currentPageId (st : State.t) (cp : string) : State.t :=
  restore st (State.pages st) cp (State.mementoManager st).

Definition switchPage (st : State.t) (pageId : string) : State.t :=
  match find (fun page => String.eqb (Page.id page) pageId) (State.pages st) with
  | None => st
  | Some _ => with_currentPageId st pageId
  end.

(** [None] stands for the [TypeError] of [updatedPages[0].id] when the
    filter leaves no page. *)
Definition deletePage (st : State.t) (pageId : string) : option State.t :=
  if (length (State.pages st) <=? 1)%nat then Some st
  else
    let updatedPages :=
      filter (fun page => negb (String.eqb (Page.id page) pageId)) (State.pages st) in
    if String.eqb (State.currentPageId st) pageId then
      match updatedPages with
      | [] => None
      | first :: _ =>
          Some (saveMementoAndReturn st
                  (restore st updatedPages (Page.id first) (State.mementoManager st)))
      end
    else
      Some (saveMementoAndReturn st
              (restore st updatedPages (State.currentPageId st) (State.mementoManager st))).

(** [defaultPage] is the module's template page and [uuid] the value of
    [crypto.randomUUID()]; a missing or empty [name] becomes ["new page"]. *)
Definition createPage (defaultPage : Page.t) (uuid : string) (st : State.t)
    (name : option string) : State.t :=
  let name :=
    match name with
    | Some nm => if String.eqb nm EmptyString then "new page"%string else nm
    | None => "new page"%string
    end in
  let newPage := spread defaultPage [id_ uuid; name_ name; state_ "{}"] in
  let newState :=
    restore st (State.pages st ++ [newPage]) (Page.id newPage) (State.mementoManager st) in
  saveMementoAndReturn st newState.

Definition getGlobalBlocks (st : State.t) : list Block.t :=
  flat_map Page.blocks (State.pages st).

(** ** More of [block.js] *)

(** [Math.max(...l)]; [None] stands for the [-Infinity] of an empty list. *)
Definition Math_max (l : list Z) : option Z :=
  match l with
  | [] => None
  | z :: r => Some (fold_left Z.max r z)
  end.

Definition Math_min (l : list Z) : option Z :=
  match l with
  | [] => None
  | z :: r => Some (fold_left Z.min r z)
  end.

(** [{ ...b, zIndex }]. *)
Definition with_zIndex (b : Block.t) (z : Z) : Block.t :=
  Block.mk (Block.id b) (Block.width b) (Block.height b) (Block.x b) (Block.y b) z
           (Block.imageSrc b) (Block.pageSrc b).

(** The block found, the list of z-indices is not empty: the [None] branch
    of [Math_max] is never taken. *)
Definition sendToFront (currentState : State.t) (blockId : Z) : State.t :=
  let blocks := getCurrentBlocks currentState in
  match find_block blocks blockId with
  | None => currentState
  | Some _ =>
      match Math_max (map Block.zIndex blocks) with
      | None => currentState
      | Some maxZIndex =>
          let newState :=
            updateCurrentPage currentState
              [blocks_ (map (fun b => if Z.eqb (Block.id b) blockId
                                      then with_zIndex b (maxZIndex + 1) else b)
                            blocks)] in
          saveMementoAndReturn currentState newState
      end
  end.

Definition sendToBack (currentState : State.t) (blockId : Z) : State.t :=
  let blocks := getCurrentBlocks currentState in
  match find_block blocks blockId with
  | None => currentState
  | Some _ =>
      match Math_min (map Block.zIndex blocks) with
      | None => currentState
      | Some minZIndex =>
          let newState :=
            updateCurrentPage currentState
              [blocks_ (map (fun b => if Z.eqb (Block.id b) blockId
                                      then with_zIndex b (minZIndex - 1) else b)
                            blocks)] in
          saveMementoAndReturn currentState newState
      end
  end.

(** [window.innerWidth] and [window.innerHeight]. *)
Record Window := mkWindow { innerWidth : Q; innerHeight : Q }.

Definition getViewportCenterCoordinates (window : Window) (st : State.t) : Q * Q :=
  let viewportWidth :=
    innerWidth window
    - (if State.panelsVisible st then State.programsPanelWidth st else 0) in
  let viewportHeight := innerHeight window in
  let viewportCenterX := viewportWidth / 2 in
  let viewportCenterY := viewportHeight / 2 in
  let viewport := getCurrentViewport st in
  ((viewportCenterX - vp_offsetX viewport) / vp_zoom viewport,
   (viewportCenterY - vp_offsetY viewport) / vp_zoom viewport).

(** [Math.max(...l, 0)]. *)
Definition Math_max_0 (l : list Z) : Z := fold_left Z.max l 0%Z.

(** [addBlock]; [x] and [y] are [None] for [null].  The [viewportPosition]
    the source also stores on the new block is a payload outside the
    [Block] type of [types.js] and is not part of the model. *)
Definition addBlock (window : Window) (st : State.t) (imageSrc pageSrc : string)
    (x y : option Q) (width height : Q) : State.t :=
  let viewportCenter := getViewportCenterCoordinates window st in
  let x' := match x with Some v => v | None => fst viewportCenter - width / 2 end in
  let y' := match y with Some v => v | None => snd viewportCenter - height / 2 end in
  match getCurrentPage st with
  | None => st
  | Some _ =>
      let globalBlocks := getGlobalBlocks st in
      let newBlock :=
        Block.mk (Math_max_0 (map Block.id globalBlocks) + 1) width height x' y'
                 (Math_max_0 (map Block.zIndex globalBlocks) + 1) imageSrc pageSrc in
      let currentBlocks := getCurrentBlocks st in
      let newState := updateCurrentPage st [blocks_ (currentBlocks ++ [newBlock])] in
      let selectedState := selectBlock newState (Block.id newBlock) in
      saveMementoAndReturn st selectedState
  end.

(** ** More of [block.js]: double click, copy and paste *)

Definition PASTE_OFFSET_X : Q := 20.
Definition PASTE_OFFSET_Y : Q := 20.

(** [ondblclick] of a rendered block; [block] is the block the view closed
    over.  The handler always stops the event's propagation. *)
Definition ondblclick (block : Block.t) (st : State.t) : State.t :=
  match getCurrentPage st with
  | None => st
  | Some currentPage =>
      if Page.isInteractMode currentPage || Page.isTextEditorFocused currentPage then st
      else
        let selectedState := selectBlock st (Block.id block) in
        updateCurrentPage selectedState
          [editingId_ (Some (Block.id block)); dragStart_ None]
  end.

(** An entry of [blockConfigs]; [None] is a key left out, for which the
    destructuring takes the default. *)
Record BlockConfig := mkBlockConfig {
  cfg_imageSrc : string; cfg_pageSrc : string;
  cfg_x : option Q; cfg_y : option Q;
  cfg_width : option Q; cfg_height : option Q }.

(** The body of the [for] loop of [addBlocks] on the pair
    [(currentState, newBlockIds)]. *)
Definition addBlocks_step (window : Window) (acc : State.t * list Z)
    (config : BlockConfig) : State.t * list Z :=
  let '(currentState, newBlockIds) := acc in
  let currentState :=
    addBlock window currentState (cfg_imageSrc config) (cfg_pageSrc config)
      (cfg_x config) (cfg_y config)
      (match cfg_width config with Some v => v | None => 200 end)
      (match cfg_height config with Some v => v | None => 200 end) in
  let currentBlocks := getCurrentBlocks currentState in
  match last_entry currentBlocks with
  | Some lastBlock => (currentState, newBlockIds ++ [Block.id lastBlock])
  | None => (currentState, newBlockIds)
  end.

(** [{ state, blockIds }] as a pair.  The early return for an empty array
    gives what the loop over no configuration gives. *)
Definition addBlocks (window : Window) (st : State.t) (blockConfigs : list BlockConfig)
    : State.t * list Z :=
  fold_left (addBlocks_step window) blockConfigs (st, []).

Definition pasteClipboardBlocks (window : Window) (st : State.t) : State.t :=
  match State.clipboard st with
  | None => st
  | Some clipboardData =>
      let blockConfigs :=
        map (fun blockData =>
               mkBlockConfig (Block.imageSrc blockData) (Block.pageSrc blockData)
                 (Some (Block.x blockData + PASTE_OFFSET_X))
                 (Some (Block.y blockData + PASTE_OFFSET_Y))
                 (Some (Block.width blockData)) (Some (Block.height blockData)))
            clipboardData in
      let '(newState, blockIds) := addBlocks window st blockConfigs in
      if (0 <? length blockIds)%nat
      then updateCurrentPage newState [selectedIds_ blockIds]
      else newState
  end.

(** [Array.prototype.sort] with the comparator [a.zIndex - b.zIndex]: the
    sort is stable, so each block goes behind the blocks already placed
    whose z-index is not greater. *)
Fixpoint insert_by_zIndex (b : Block.t) (l : list Block.t) : list Block.t :=
  match l with
  | [] => [b]
  | a :: r =>
      if (Block.zIndex b <? Block.zIndex a)%Z then b :: a :: r
      else a :: insert_by_zIndex b r
  end.

Definition sort_by_zIndex (l : list Block.t) : list Block.t :=
  fold_left (fun sorted b => insert_by_zIndex b sorted) l [].

(** [{ ...block, id }]. *)
Definition with_id (b : Block.t) (i : Z) : Block.t :=
  Block.mk i (Block.width b) (Block.height b) (Block.x b) (Block.y b) (Block.zIndex b)
           (Block.imageSrc b) (Block.pageSrc b).

(** [{ ...state, clipboard }]. *)
Definition with_clipboard (st : State.t) (cb : option (list Block.t)) : State.t :=
  let '(State.mk ps cp mm dm pv pw _ pf nt nv ep sh op) := st in
  State.mk ps cp mm dm pv pw cb pf nt nv ep sh op.

(** The state of the pair [copySelectedBlocks] returns; the effect that
    comes with it clears the system clipboard. *)
Definition copySelectedBlocks (st : State.t) : State.t :=
  let selectedBlocks := getSelectedBlocks st in
  if (length selectedBlocks =? 0)%nat then st
  else
    let blocksData :=
      map (fun block => with_id block (-1)) (sort_by_zIndex selectedBlocks) in
    with_clipboard st (Some blocksData).

(** What a pasted block takes from the clipboard entry it comes from. *)
Definition pasted_from (c b : Block.t) : Prop :=
  Block.x b = Block.x c + PASTE_OFFSET_X
  /\ Block.y b = Block.y c + PASTE_OFFSET_Y
  /\ Block.width b = Block.width c /\ Block.height b = Block.height c
  /\ Block.imageSrc b = Block.imageSrc c /\ Block.pageSrc b = Block.pageSrc c.

(** ** More of [viewport.js]: the Escape and Delete keys *)

Definition onkeydown_Escape (st : State.t) : State.t :=
  match getCurrentPage st with
  | None => st
  | Some currentPage =>
      if Page.isTextEditorFocused currentPage then st
      else if is_some (Page.editingId currentPage)
      then updateCurrentPage st [editingId_ None]
      else if hasSelection st then deselectAllBlocks st
      else st
  end.

(** The cases ["Delete"] and ["Backspace"]. *)
Definition onkeydown_Delete (st : State.t) : State.t :=
  match getCurrentPage st with
  | None => st
  | Some currentPage =>
      if Page.isTextEditorFocused currentPage then st
      else if is_some (getFirstSelectedBlockId st)
              && negb (is_some (Page.editingId currentPage))
      then deleteSelectedBlocks st
      else st
  end.

(** A state whose pages together have distinct block ids. *)
Definition state10_ids : State.t :=
  State.mk [page1; Page.mk "p9" "Other" [block10] 0 0 1 0 0 "pointer"
                     false false false [] [] None None None None None
                     EmptyString EmptyString]
           "p1" createMementoManager false true 300 None EmptyString None false None
           false false.

(** The north-west handle of block A pressed. *)
Definition state_resizing_nw : State.t :=
  run_pointer [Down (OnBlockHandle ResizeString.nw 1) (click 0 0) origin] state1.

(** Both blocks selected and block A in edit mode. *)
Definition state_editing : State.t :=
  updateCurrentPage state_selected [editingId_ (Some 1%Z)].

(** ** What the pointer and the wheel leave alone *)

(** [d] has no [blocks] key. *)
Definition keeps_blocks_field (d : PageData) : bool :=
  forallb (fun f => match f with blocks_ _ => false | _ => true end) d.

(** The current page of [st'] has the blocks of the current page of [st],
    as many and in the same order, each with its id, z-index, image and
    source: only positions and sizes may differ. *)
Definition same_blocks (st st' : State.t) : Prop :=
  Forall2 same_block (getCurrentBlocks st) (getCurrentBlocks st').

(** The middle button pressed on the canvas. *)
Definition state_panning : State.t :=
  run_pointer [Down OnCanvas (mkPointerEvent 40 40 1 false) origin] state1.

(** A state whose [currentPageId] is the id of no page. *)
Definition state_no_page : State.t := with_currentPageId state1 "gone".

(** [d] has no [zoom] key. *)
Definition keeps_zoom_field (d : PageData) : bool :=
  forallb (fun f => match f with zoom_ _ => false | _ => true end) d.

(** Every page has a zoom between 0.1 and 5. *)
Definition zoom_in_range (st : State.t) : Prop :=
  Forall (fun p => 0.1 <= Page.zoom p /\ Page.zoom p <= 5) (State.pages st).

(** The events of the canvas: those of the pointer, and the wheel. *)
Inductive CanvasEv :=
| Pointer (ev : PointerEv)
| Wheel (event : WheelEvent) (rect : DOMRect).

Definition canvas_step (st : State.t) (ev : CanvasEv) : State.t :=
  match ev with
  | Pointer ev => pointer_step st ev
  | Wheel event rect => onwheel st event rect
  end.

Definition run_canvas (evs : list CanvasEv) (st : State.t) : State.t :=
  fold_left canvas_step evs st.

(** [currentPageId] is the id of a page. *)
Definition has_current (st : State.t) : Prop := getCurrentPage st <> None.

(** * Properties *)

(** ** Arrays *)

Lemma slice_from (A : Type) (l : list A) (start : Z) :
  slice l start None = skipn (Z.to_nat (rel_index (Z.of_nat (length l)) start)) l.
Proof.
  unfold slice. apply firstn_all2. rewrite length_skipn.
  unfold rel_index. destruct (start <? 0)%Z; lia.
Qed.

Lemma slice_drop_last (A : Type) (l : list A) (x : A) :
  slice (l ++ [x]) 0 (Some (-1)%Z) = l.
Proof.
  unfold slice, rel_index. rewrite length_app. cbn [length Z.ltb Z.compare].
  replace (Z.to_nat (Z.min 0 (Z.of_nat (length l + 1)))) with 0%nat by lia.
  replace (Z.to_nat (Z.max (Z.of_nat (length l + 1) + -1) 0
                     - Z.min 0 (Z.of_nat (length l + 1)))) with (length l) by lia.
  cbn [skipn]. rewrite firstn_app, firstn_all, Nat.sub_diag. cbn [firstn].
  apply app_nil_r.
Qed.

Lemma last_entry_app (A : Type) (l : list A) (x : A) :
  last_entry (l ++ [x]) = Some x.
Proof.
  unfold last_entry. rewrite length_app. cbn [length].
  rewrite nth_error_app2 by lia.
  replace (length l + 1 - 1 - length l)%nat with 0%nat by lia. reflexivity.
Qed.

Lemma includes_In (l : list Z) (i : Z) : includes l i = true <-> In i l.
Proof.
  unfold includes. rewrite existsb_exists. split.
  - intros [j [Hj Heq]]. apply Z.eqb_eq in Heq. now subst.
  - intros Hin. exists i. split; [assumption | apply Z.eqb_refl].
Qed.

(** ** Mementos *)

Lemma cleanPages_idem (ps : list Page.t) : cleanPages (cleanPages ps) = cleanPages ps.
Proof.
  unfold cleanPages. rewrite map_map. apply map_ext.
  intros p. destruct p. reflexivity.
Qed.

Lemma createMemento_clean (st : State.t) : clean_memento (createMemento st).
Proof. unfold clean_memento. cbn. apply cleanPages_idem. Qed.

Lemma undoState_empty (st : State.t) :
  MementoManager.undoStack (State.mementoManager st) = [] -> undoState st = st.
Proof. unfold undoState. intros ->. reflexivity. Qed.

Lemma redoState_empty (st : State.t) :
  MementoManager.redoStack (State.mementoManager st) = [] -> redoState st = st.
Proof. unfold redoState. intros ->. reflexivity. Qed.

Lemma undoState_push (st : State.t) (l : list Memento.t) (m : Memento.t) :
  MementoManager.undoStack (State.mementoManager st) = l ++ [m] ->
  undoState st =
  restore st (Memento.pages m) (Memento.currentPageId m)
    (MementoManager.mk l
       (MementoManager.redoStack (State.mementoManager st) ++ [createMemento st])
       (MementoManager.maxHistorySize (State.mementoManager st))).
Proof.
  unfold undoState. intros ->.
  rewrite last_entry_app, slice_drop_last, length_app.
  cbn [length]. replace (length l + 1 =? 0)%nat with false; [reflexivity|].
  symmetry. apply Nat.eqb_neq. lia.
Qed.

Lemma redoState_push (st : State.t) (l : list Memento.t) (m : Memento.t) :
  MementoManager.redoStack (State.mementoManager st) = l ++ [m] ->
  redoState st =
  restore st (Memento.pages m) (Memento.currentPageId m)
    (MementoManager.mk
       (MementoManager.undoStack (State.mementoManager st) ++ [createMemento st])
       l
       (MementoManager.maxHistorySize (State.mementoManager st))).
Proof.
  unfold redoState. intros ->.
  rewrite last_entry_app, slice_drop_last, length_app.
  cbn [length]. replace (length l + 1 =? 0)%nat with false; [reflexivity|].
  symmetry. apply Nat.eqb_neq. lia.
Qed.

Lemma iter_undo_empty (k : nat) (st : State.t) :
  MementoManager.undoStack (State.mementoManager st) = [] ->
  Nat.iter k undoState st = st.
Proof.
  intros H. induction k as [|k IH]; [reflexivity|].
  rewrite Nat.iter_succ, IH. now apply undoState_empty.
Qed.

Lemma iter_redo_empty (k : nat) (st : State.t) :
  MementoManager.redoStack (State.mementoManager st) = [] ->
  Nat.iter k redoState st = st.
Proof.
  intros H. induction k as [|k IH]; [reflexivity|].
  rewrite Nat.iter_succ, IH. now apply redoState_empty.
Qed.

(** Undoing through [ms] and redoing as often gives back a state whose
    pages are already clean. *)
Lemma round_trip_clean (ms : list Memento.t) :
  Forall clean_memento ms ->
  forall (base : list Memento.t) (st : State.t),
    MementoManager.undoStack (State.mementoManager st) = base ++ ms ->
    cleanPages (State.pages st) = State.pages st ->
    Nat.iter (length ms) redoState (Nat.iter (length ms) undoState st) = st
    /\ MementoManager.undoStack
         (State.mementoManager (Nat.iter (length ms) undoState st)) = base.
Proof.
  induction ms as [|m ms IH] using rev_ind; intros Hclean base st Hundo Hst.
  - cbn. rewrite app_nil_r in Hundo. now split.
  - apply Forall_app in Hclean. destruct Hclean as [Hms Hm].
    inversion Hm as [|? ? Hm' _]; subst.
    rewrite length_app. cbn [length]. rewrite Nat.add_1_r.
    rewrite app_assoc in Hundo.
    rewrite (Nat.iter_succ _ _ redoState), (Nat.iter_succ_r _ _ undoState).
    rewrite (undoState_push _ _ _ Hundo).
    set (st1 := restore st _ _ _).
    assert (H1 : MementoManager.undoStack (State.mementoManager st1) = base ++ ms)
      by (subst st1; destruct st; reflexivity).
    assert (H2 : cleanPages (State.pages st1) = State.pages st1)
      by (subst st1; destruct st; exact Hm').
    destruct (IH Hms base st1 H1 H2) as [Hrt Hbase].
    split; [|exact Hbase].
    rewrite Hrt.
    assert (H3 : MementoManager.redoStack (State.mementoManager st1)
                 = MementoManager.redoStack (State.mementoManager st) ++ [createMemento st])
      by (subst st1; destruct st; reflexivity).
    rewrite (redoState_push _ _ _ H3).
    subst st1. destruct st as [ps cp mm ? ? ? ? ? ? ? ? ? ?]. destruct m as [mps mcp].
    cbn in *. unfold createMemento. cbn. rewrite Hm', Hst.
    destruct mm as [u r mx]. cbn in *. subst u. rewrite <- app_assoc. reflexivity.
Qed.

Lemma with_pages_clean_memento (st : State.t) :
  createMemento (with_pages st (cleanPages (State.pages st))) = createMemento st.
Proof. destruct st. unfold createMemento. cbn. now rewrite cleanPages_idem. Qed.

(** The same from any state, through a stack that is not empty: the pages
    come back cleaned, everything else as it was. *)
Lemma round_trip (ms : list Memento.t) (m : Memento.t) (base : list Memento.t)
    (st : State.t) :
  Forall clean_memento (ms ++ [m]) ->
  MementoManager.undoStack (State.mementoManager st) = base ++ ms ++ [m] ->
  Nat.iter (S (length ms)) redoState (Nat.iter (S (length ms)) undoState st)
  = with_pages st (cleanPages (State.pages st))
  /\ MementoManager.undoStack
       (State.mementoManager (Nat.iter (S (length ms)) undoState st)) = base.
Proof.
  intros Hclean Hundo.
  apply Forall_app in Hclean. destruct Hclean as [Hms Hm].
  inversion Hm as [|? ? Hm' _]; subst.
  rewrite app_assoc in Hundo.
  rewrite (Nat.iter_succ _ _ redoState), (Nat.iter_succ_r _ _ undoState).
  rewrite (undoState_push _ _ _ Hundo).
  set (st1 := restore st _ _ _).
  assert (H1 : MementoManager.undoStack (State.mementoManager st1) = base ++ ms)
    by (subst st1; destruct st; reflexivity).
  assert (H2 : cleanPages (State.pages st1) = State.pages st1)
    by (subst st1; destruct st; exact Hm').
  destruct (round_trip_clean ms Hms base st1 H1 H2) as [Hrt Hbase].
  split; [|exact Hbase].
  rewrite Hrt.
  assert (H3 : MementoManager.redoStack (State.mementoManager st1)
               = MementoManager.redoStack (State.mementoManager st) ++ [createMemento st])
    by (subst st1; destruct st; reflexivity).
  rewrite (redoState_push _ _ _ H3).
  subst st1. destruct st as [ps cp mm ? ? ? ? ? ? ? ? ? ?]. destruct m as [mps mcp].
  cbn in *. unfold createMemento. cbn. rewrite Hm'.
  destruct mm as [u r mx]. cbn in *. subst u. rewrite <- app_assoc. reflexivity.
Qed.

Lemma saveMementoAndReturn_undoStack (prevState newState : State.t) :
  MementoManager.undoStack (State.mementoManager (saveMementoAndReturn prevState newState))
  = slice (MementoManager.undoStack (State.mementoManager prevState)
           ++ [createMemento prevState])
          (- MementoManager.maxHistorySize (State.mementoManager prevState)) None.
Proof. destruct newState. reflexivity. Qed.

Lemma saveMementoAndReturn_redoStack (prevState newState : State.t) :
  MementoManager.redoStack (State.mementoManager (saveMementoAndReturn prevState newState))
  = [].
Proof. destruct newState. reflexivity. Qed.

Lemma saveMementoAndReturn_maxHistorySize (prevState newState : State.t) :
  MementoManager.maxHistorySize
    (State.mementoManager (saveMementoAndReturn prevState newState))
  = MementoManager.maxHistorySize (State.mementoManager prevState).
Proof. destruct newState. reflexivity. Qed.

Lemma saveMementoAndReturn_pages (prevState newState : State.t) :
  State.pages (saveMementoAndReturn prevState newState) = State.pages newState
  /\ State.currentPageId (saveMementoAndReturn prevState newState)
     = State.currentPageId newState.
Proof. destruct newState. split; reflexivity. Qed.

Lemma skipn_snoc (A : Type) (j : nat) (l : list A) (x : A) :
  exists j', skipn j l ++ [x] = skipn j' (l ++ [x]).
Proof.
  destruct (Nat.le_gt_cases j (length l)) as [Hle|Hgt].
  - exists j. rewrite skipn_app.
    replace (j - length l)%nat with 0%nat by lia. reflexivity.
  - exists (length l). rewrite skipn_all2 by lia.
    rewrite skipn_app, skipn_all, Nat.sub_diag. reflexivity.
Qed.

(** After commits the undo stack is a suffix of the initial stack followed
    by the snapshots taken. *)
Lemma commits_undoStack (st0 st : State.t) (ms : list Memento.t) :
  commits st0 ms st ->
  exists j, MementoManager.undoStack (State.mementoManager st)
            = skipn j (MementoManager.undoStack (State.mementoManager st0) ++ ms).
Proof.
  induction 1 as [st|st0 ms st prevState newState _ [j IH] Hmm].
  - exists 0%nat. now rewrite app_nil_r.
  - rewrite saveMementoAndReturn_undoStack, slice_from, Hmm, IH.
    destruct (skipn_snoc _ j (MementoManager.undoStack (State.mementoManager st0) ++ ms)
                (createMemento prevState)) as [j' ->].
    rewrite skipn_skipn, <- app_assoc. eexists. reflexivity.
Qed.

Lemma commits_redoStack (st0 st : State.t) (ms : list Memento.t) :
  commits st0 ms st -> ms <> [] ->
  MementoManager.redoStack (State.mementoManager st) = [].
Proof.
  destruct 1; intros Hne; [congruence|]. apply saveMementoAndReturn_redoStack.
Qed.

Lemma commits_clean (st0 st : State.t) (ms : list Memento.t) :
  commits st0 ms st -> Forall clean_memento ms.
Proof.
  induction 1; [constructor|].
  apply Forall_app. split; [assumption|].
  constructor; [apply createMemento_clean | constructor].
Qed.

Lemma Forall_skipn_clean (j : nat) (ms : list Memento.t) :
  Forall clean_memento ms -> Forall clean_memento (skipn j ms).
Proof.
  intros H. rewrite <- (firstn_skipn j ms) in H. now apply Forall_app in H.
Qed.

(** [k] undos and [k] redos through a clean top of the stack. *)
Lemma round_trip_top (ms : list Memento.t) (base : list Memento.t) (st : State.t) :
  Forall clean_memento ms ->
  MementoManager.undoStack (State.mementoManager st) = base ++ ms ->
  let st' := Nat.iter (length ms) redoState (Nat.iter (length ms) undoState st) in
  (st' = st \/ st' = with_pages st (cleanPages (State.pages st)))
  /\ MementoManager.undoStack
       (State.mementoManager (Nat.iter (length ms) undoState st)) = base.
Proof.
  intros Hclean Hundo.
  induction ms as [|m ms' _] using rev_ind.
  - cbn. rewrite app_nil_r in Hundo. split; [now left | assumption].
  - rewrite length_app. cbn [length]. rewrite Nat.add_1_r.
    destruct (round_trip ms' m base st Hclean Hundo) as [H1 H2].
    split; [now right | assumption].
Qed.

Lemma round_trip_n (n : nat) (ms : list Memento.t) (base : list Memento.t)
    (st : State.t) :
  Forall clean_memento ms ->
  MementoManager.undoStack (State.mementoManager st) = base ++ ms ->
  (length ms = n
   \/ (base = [] /\ (length ms <= n)%nat
       /\ MementoManager.redoStack (State.mementoManager st) = [])) ->
  let st' := Nat.iter n redoState (Nat.iter n undoState st) in
  st' = st \/ st' = with_pages st (cleanPages (State.pages st)).
Proof.
  intros Hclean Hundo [<-|[-> [Hle Hredo]]].
  - apply (round_trip_top ms base st Hclean Hundo).
  - destruct (round_trip_top ms [] st Hclean Hundo) as [Hrt Hbase].
    cbn zeta in *.
    replace n with ((n - length ms) + length ms)%nat by lia.
    rewrite (Nat.iter_add _ _ _ undoState), (iter_undo_empty _ _ Hbase).
    rewrite (Nat.iter_add _ _ _ redoState).
    assert (Hr : MementoManager.redoStack
                   (State.mementoManager
                      (Nat.iter (length ms) redoState (Nat.iter (length ms) undoState st)))
                 = []).
    { destruct Hrt as [->| ->]; [assumption|]. destruct st; exact Hredo. }
    rewrite (iter_redo_empty _ _ Hr). exact Hrt.
Qed.

(** ** C1: undo/redo round trip *)

(** C1.  After any sequence of [n] committed mutations, [n] undos followed
    by [n] redos give a state with the same [currentPageId] and the same
    pages up to the fields a snapshot resets ([selectedIds], [dragStart],
    [resizing]): the snapshots of the two states are equal. *)
Theorem undo_redo_round_trip (st0 st : State.t) (ms : list Memento.t) :
  commits st0 ms st ->
  let n := length ms in
  let st' := Nat.iter n redoState (Nat.iter n undoState st) in
  createMemento st' = createMemento st
  /\ State.currentPageId st' = State.currentPageId st
  /\ cleanPages (State.pages st') = cleanPages (State.pages st).
Proof.
  intros Hc n st'.
  assert (Hor : st' = st \/ st' = with_pages st (cleanPages (State.pages st))).
  { destruct ms as [|m0 ms0].
    - now left.
    - destruct (commits_undoStack _ _ _ Hc) as [j Hj].
      rewrite skipn_app in Hj.
      apply (round_trip_n n (skipn (j - length (MementoManager.undoStack
                                                  (State.mementoManager st0)))
                               (m0 :: ms0))
               (skipn j (MementoManager.undoStack (State.mementoManager st0)))).
      + apply Forall_skipn_clean. apply (commits_clean _ _ _ Hc).
      + exact Hj.
      + destruct (Nat.le_gt_cases j (length (MementoManager.undoStack
                                               (State.mementoManager st0)))) as [Hle|Hgt].
        * left. replace (j - _)%nat with 0%nat by lia. reflexivity.
        * right. split; [apply skipn_all2; lia|]. split.
          -- rewrite length_skipn. subst n. lia.
          -- apply (commits_redoStack _ _ _ Hc). discriminate. }
  assert (Hm : createMemento st' = createMemento st).
  { destruct Hor as [->| ->]; [reflexivity | apply with_pages_clean_memento]. }
  split; [exact Hm|]. split.
  - exact (f_equal Memento.currentPageId Hm).
  - exact (f_equal Memento.pages Hm).
Qed.

Lemma commits_touch (k : nat) (st : State.t) :
  commits st (snapshots k st) (Nat.iter k touch st).
Proof.
  induction k as [|k IH]; [constructor|].
  rewrite Nat.iter_succ. cbn [snapshots]. unfold touch at 1, renamePage.
  now apply commits_snoc with (st := Nat.iter k touch st).
Qed.

Lemma undo_redo_round_trip_witness :
  createMemento (Nat.iter 3 redoState (Nat.iter 3 undoState (Nat.iter 3 touch state1)))
  = createMemento (Nat.iter 3 touch state1)
  /\ State.currentPageId
       (Nat.iter 3 redoState (Nat.iter 3 undoState (Nat.iter 3 touch state1)))
     = State.currentPageId (Nat.iter 3 touch state1)
  /\ cleanPages (State.pages
                   (Nat.iter 3 redoState (Nat.iter 3 undoState (Nat.iter 3 touch state1))))
     = cleanPages (State.pages (Nat.iter 3 touch state1)).
Proof.
  exact (undo_redo_round_trip state1 (Nat.iter 3 touch state1) (snapshots 3 state1)
           (commits_touch 3 state1)).
Defined.

(** ** C2: what a snapshot resets *)

Lemma createMemento_resets (st : State.t) (p : Page.t) :
  In p (Memento.pages (createMemento st)) ->
  Page.selectedIds p = [] /\ Page.dragStart p = None /\ Page.resizing p = None.
Proof.
  cbn. unfold cleanPages. rewrite in_map_iff. intros [q [<- _]].
  destruct q. cbn. auto.
Qed.

(** A snapshot keeps [currentPageId] and holds, for every page and in the
    same order, a copy with [selectedIds] empty and [dragStart] and
    [resizing] null; every other field of the page is copied as it is. *)
Lemma createMemento_snapshot_of (st : State.t) :
  Memento.currentPageId (createMemento st) = State.currentPageId st
  /\ Forall2 snapshot_of (State.pages st) (Memento.pages (createMemento st)).
Proof.
  split; [reflexivity|]. cbn. unfold cleanPages.
  induction (State.pages st) as [|p ps IH]; constructor; [|exact IH].
  destruct p. unfold snapshot_of. cbn. repeat split; reflexivity.
Qed.

(** C2.  Where the code departs from the claim: the snapshot of a state with
    a marquee in progress holds the page's [selectionBox] and
    [previewSelectedIds]; [createMemento] resets [selectedIds], [dragStart]
    and [resizing] only.  Taken by an undo during the marquee, such a
    snapshot comes back with the redo: the page then has a marquee and a
    preview selection while the pointer is up. *)
Theorem createMemento_keeps_marquee :
  (Page.resizing (nth 0 (Memento.pages (createMemento state_marquee)) page2) = None
   /\ Page.dragStart (nth 0 (Memento.pages (createMemento state_marquee)) page2) = None
   /\ Page.selectedIds (nth 0 (Memento.pages (createMemento state_marquee)) page2) = []
   /\ Page.selectionBox (nth 0 (Memento.pages (createMemento state_marquee)) page2)
      = Some (SelectionBoxState.mk 300 300 50 50)
   /\ Page.previewSelectedIds (nth 0 (Memento.pages (createMemento state_marquee)) page2)
      = [1; 2]%Z)
  /\ (Page.selectionBox (the (getCurrentPage state_redone) page2)
      = Some (SelectionBoxState.mk 300 300 50 50)
      /\ Page.previewSelectedIds (the (getCurrentPage state_redone) page2) = [1; 2]%Z).
Proof. repeat split; reflexivity. Qed.

(** ** C4: the bound of the undo stack *)

Lemma slice_last_50 (A : Type) (l : list A) :
  slice l (-50) None = skipn (length l - 50) l.
Proof.
  rewrite slice_from. f_equal. unfold rel_index. cbn [Z.ltb Z.compare]. lia.
Qed.

Lemma saveMementoAndReturn_push (prevState newState : State.t) :
  MementoManager.maxHistorySize (State.mementoManager prevState) = 50%Z ->
  MementoManager.undoStack (State.mementoManager (saveMementoAndReturn prevState newState))
  = skipn (length (MementoManager.undoStack (State.mementoManager prevState)) + 1 - 50)
          (MementoManager.undoStack (State.mementoManager prevState)
           ++ [createMemento prevState]).
Proof.
  intros Hmax. rewrite saveMementoAndReturn_undoStack, Hmax.
  change (- (50))%Z with (-50)%Z. rewrite slice_last_50, length_app. reflexivity.
Qed.

Lemma rev_cases (A : Type) (l : list A) : l = [] \/ exists l' x, l = l' ++ [x].
Proof.
  induction l as [|x l' _] using rev_ind; [now left | right; eauto].
Qed.

Lemma history_step_bounded (st st' : State.t) :
  history_step st st' -> bounded_history st -> bounded_history st'.
Proof.
  unfold bounded_history.
  intros Hstep [Hmax Hlen]. destruct Hstep as [st prevState newState Hmm|st|st].
  - rewrite saveMementoAndReturn_maxHistorySize, saveMementoAndReturn_redoStack.
    rewrite saveMementoAndReturn_push by (now rewrite Hmm).
    rewrite Hmm. split; [assumption|].
    rewrite length_skipn, length_app. cbn [length]. lia.
  - destruct (rev_cases _ (MementoManager.undoStack (State.mementoManager st)))
      as [Hnil|[l [m Hl]]].
    + rewrite (undoState_empty _ Hnil). now split.
    + rewrite (undoState_push _ _ _ Hl). rewrite Hl, length_app in Hlen.
      destruct st. cbn in *. rewrite length_app. cbn [length]. split; [assumption | lia].
  - destruct (rev_cases _ (MementoManager.redoStack (State.mementoManager st)))
      as [Hnil|[l [m Hl]]].
    + rewrite (redoState_empty _ Hnil). now split.
    + rewrite (redoState_push _ _ _ Hl). rewrite Hl, length_app in Hlen.
      destruct st. cbn in *. rewrite length_app. cbn [length]. split; [assumption | lia].
Qed.

Lemma history_steps_bounded (st0 st : State.t) :
  history_steps st0 st -> bounded_history st0 -> bounded_history st.
Proof.
  induction 1 as [|st0 st st' _ IH Hstep]; [auto|].
  intros H0. apply (history_step_bounded _ _ Hstep). now apply IH.
Qed.

Lemma commits_history_steps (st0 st : State.t) (ms : list Memento.t) :
  commits st0 ms st -> history_steps st0 st.
Proof.
  induction 1 as [|st0 ms st prevState newState _ IH Hmm]; [constructor|].
  apply steps_snoc with (st := st); [assumption | now constructor].
Qed.

Lemma commits_maxHistorySize (st0 st : State.t) (ms : list Memento.t) :
  commits st0 ms st ->
  MementoManager.maxHistorySize (State.mementoManager st)
  = MementoManager.maxHistorySize (State.mementoManager st0).
Proof.
  induction 1 as [|st0 ms st prevState newState _ IH Hmm]; [reflexivity|].
  now rewrite saveMementoAndReturn_maxHistorySize, Hmm.
Qed.

(** From an empty stack, the stack holds the last 50 snapshots. *)
Lemma commits_last_50 (st0 st : State.t) (ms : list Memento.t) :
  commits st0 ms st ->
  MementoManager.undoStack (State.mementoManager st0) = [] ->
  MementoManager.maxHistorySize (State.mementoManager st0) = 50%Z ->
  MementoManager.undoStack (State.mementoManager st) = skipn (length ms - 50) ms.
Proof.
  induction 1 as [st|st0 ms st prevState newState Hc IH Hmm]; intros Hnil Hmax.
  - rewrite Hnil. now rewrite skipn_nil.
  - rewrite saveMementoAndReturn_push
      by (now rewrite Hmm, (commits_maxHistorySize _ _ _ Hc)).
    rewrite Hmm, (IH Hnil Hmax), length_skipn, length_app. cbn [length].
    destruct (Nat.le_gt_cases (length ms) 50) as [Hle|Hgt].
    + replace (length ms - 50)%nat with 0%nat by lia. cbn [skipn].
      f_equal. lia.
    + replace (length ms - (length ms - 50) + 1 - 50)%nat with 1%nat by lia.
      replace (length ms + 1 - 50)%nat with (1 + (length ms - 50))%nat by lia.
      rewrite <- skipn_skipn. f_equal.
      rewrite skipn_app. replace (length ms - 50 - length ms)%nat with 0%nat by lia.
      reflexivity.
Qed.

(** C4.  From the empty manager of a fresh session: in every state reached
    by commits, undos and redos in any order the undo stack holds at most
    50 mementos; a commit from such a state pushes the snapshot of its
    [prevState], keeps the last 50 entries and empties the redo stack; and
    after 51 commits the stack holds the last 50 snapshots, the oldest one
    gone. *)
Theorem undo_stack_bound (st0 st st51 prevState newState : State.t)
    (ms : list Memento.t) :
  State.mementoManager st0 = createMementoManager ->
  history_steps st0 st ->
  State.mementoManager prevState = State.mementoManager st ->
  commits st0 ms st51 ->
  length ms = 51%nat ->
  (length (MementoManager.undoStack (State.mementoManager st)) <= 50)%nat
  /\ (MementoManager.undoStack
        (State.mementoManager (saveMementoAndReturn prevState newState))
      = skipn (length (MementoManager.undoStack (State.mementoManager st)) + 1 - 50)
              (MementoManager.undoStack (State.mementoManager st)
               ++ [createMemento prevState])
      /\ MementoManager.redoStack
           (State.mementoManager (saveMementoAndReturn prevState newState)) = []
      /\ (length (MementoManager.undoStack
                    (State.mementoManager (saveMementoAndReturn prevState newState)))
          <= 50)%nat)
  /\ (MementoManager.undoStack (State.mementoManager st51) = tl ms
      /\ length (MementoManager.undoStack (State.mementoManager st51)) = 50%nat).
Proof.
  intros H0 Hsteps Hprev Hc Hlen.
  assert (Hb0 : bounded_history st0) by (unfold bounded_history; rewrite H0; cbn; split; [reflexivity | lia]).
  destruct (history_steps_bounded _ _ Hsteps Hb0) as [Hmax Hsum].
  split; [lia|]. split.
  - assert (Hb : bounded_history (saveMementoAndReturn prevState newState)).
    { apply (history_step_bounded st); [now constructor | now split]. }
    split; [|split].
    + rewrite <- Hprev. apply saveMementoAndReturn_push. now rewrite Hprev.
    + apply saveMementoAndReturn_redoStack.
    + destruct Hb as [_ Hb]. lia.
  - assert (Hu : MementoManager.undoStack (State.mementoManager st51) = tl ms).
    { rewrite (commits_last_50 _ _ _ Hc) by (rewrite H0; reflexivity).
      rewrite Hlen. destruct ms; reflexivity. }
    split; [exact Hu|]. rewrite Hu. destruct ms; cbn in *; lia.
Qed.

Lemma undo_stack_bound_witness :
  (length (MementoManager.undoStack
             (State.mementoManager (undoState (Nat.iter 51 touch state1)))) <= 50)%nat
  /\ (MementoManager.undoStack
        (State.mementoManager
           (saveMementoAndReturn (undoState (Nat.iter 51 touch state1)) state1))
      = skipn (length (MementoManager.undoStack
                         (State.mementoManager (undoState (Nat.iter 51 touch state1))))
               + 1 - 50)
              (MementoManager.undoStack
                 (State.mementoManager (undoState (Nat.iter 51 touch state1)))
               ++ [createMemento (undoState (Nat.iter 51 touch state1))])
      /\ MementoManager.redoStack
           (State.mementoManager
              (saveMementoAndReturn (undoState (Nat.iter 51 touch state1)) state1)) = []
      /\ (length (MementoManager.undoStack
                    (State.mementoManager
                       (saveMementoAndReturn (undoState (Nat.iter 51 touch state1)) state1)))
          <= 50)%nat)
  /\ (MementoManager.undoStack (State.mementoManager (Nat.iter 51 touch state1))
      = tl (snapshots 51 state1)
      /\ length (MementoManager.undoStack (State.mementoManager (Nat.iter 51 touch state1)))
         = 50%nat).
Proof.
  apply (undo_stack_bound state1 (undoState (Nat.iter 51 touch state1))
           (Nat.iter 51 touch state1) (undoState (Nat.iter 51 touch state1)) state1
           (snapshots 51 state1)).
  - reflexivity.
  - apply steps_snoc with (st := Nat.iter 51 touch state1).
    + apply (commits_history_steps _ _ _ (commits_touch 51 state1)).
    + apply step_undo.
  - reflexivity.
  - apply commits_touch.
  - reflexivity.
Defined.

(** ** The current page under [updateCurrentPage] *)

Lemma spread_id (d : PageData) (p : Page.t) :
  keeps_id d = true -> Page.id (spread p d) = Page.id p.
Proof.
  unfold spread. revert p. induction d as [|f d IH]; intros p H; [reflexivity|].
  cbn in H. apply andb_prop in H. destruct H as [Hf Hd].
  cbn [fold_left]. rewrite (IH _ Hd). destruct p, f; try reflexivity; discriminate.
Qed.

Lemma updateCurrentPage_currentPageId (st : State.t) (d : PageData) :
  State.currentPageId (updateCurrentPage st d) = State.currentPageId st.
Proof. destruct st. reflexivity. Qed.

Lemma updateCurrentPage_mementoManager (st : State.t) (d : PageData) :
  State.mementoManager (updateCurrentPage st d) = State.mementoManager st.
Proof. destruct st. reflexivity. Qed.

Lemma updateCurrentPage_isShiftPressed (st : State.t) (d : PageData) :
  State.isShiftPressed (updateCurrentPage st d) = State.isShiftPressed st.
Proof. destruct st. reflexivity. Qed.

Lemma getCurrentPage_update (st : State.t) (d : PageData) :
  keeps_id d = true ->
  getCurrentPage (updateCurrentPage st d)
  = option_map (fun p => spread p d) (getCurrentPage st).
Proof.
  intros Hd. unfold getCurrentPage. rewrite updateCurrentPage_currentPageId.
  destruct st as [ps cp ? ? ? ? ? ? ? ? ? ? ?]. cbn.
  induction ps as [|p ps IH]; [reflexivity|].
  cbn. destruct (String.eqb (Page.id p) cp) eqn:E.
  - rewrite (spread_id _ _ Hd), E. reflexivity.
  - rewrite E. exact IH.
Qed.

Lemma getCurrentPage_saveMementoAndReturn (prevState newState : State.t) :
  getCurrentPage (saveMementoAndReturn prevState newState) = getCurrentPage newState.
Proof. destruct newState. reflexivity. Qed.

(** ** C3: the gesture records *)

Lemma gs_spread (d : PageData) (p : Page.t) : gs (spread p d) = patch_gs d (gs p).
Proof.
  unfold spread, patch_gs. revert p. induction d as [|f d IH]; intros p; [reflexivity|].
  cbn [fold_left]. rewrite IH. f_equal. destruct p, f; reflexivity.
Qed.

Lemma cur_gs_update (st : State.t) (d : PageData) :
  keeps_id d = true ->
  cur_gs (updateCurrentPage st d) = option_map (patch_gs d) (cur_gs st).
Proof.
  intros Hd. unfold cur_gs. rewrite (getCurrentPage_update _ _ Hd).
  destruct (getCurrentPage st); [cbn; now rewrite gs_spread | reflexivity].
Qed.

Lemma cur_gs_saveMementoAndReturn (prevState newState : State.t) :
  cur_gs (saveMementoAndReturn prevState newState) = cur_gs newState.
Proof. unfold cur_gs. now rewrite getCurrentPage_saveMementoAndReturn. Qed.

Lemma at_most_one_gesture_gs (st : State.t) :
  at_most_one_gesture st <->
  match cur_gs st with Some g => (count_gs g <= 1)%nat | None => True end.
Proof.
  unfold at_most_one_gesture, cur_gs. destruct (getCurrentPage st); reflexivity.
Qed.

Lemma no_gesture_gs (st : State.t) :
  no_gesture st <->
  match cur_gs st with Some g => g = (false, false, false) | None => True end.
Proof.
  unfold no_gesture, cur_gs, gesture_count, gs. destruct (getCurrentPage st) as [p|]; [|reflexivity].
  cbn. destruct (is_some (Page.resizing p)), (is_some (Page.dragStart p)),
         (is_some (Page.selectionBox p)); cbn; split; intros H; try reflexivity;
    try discriminate; try lia.
Qed.

(** What a state is after a handler, as far as the gesture records go. *)
Ltac gs_updates :=
  repeat first
    [ rewrite cur_gs_saveMementoAndReturn
    | rewrite cur_gs_update by reflexivity ].

Lemma cur_gs_Some (st : State.t) (p : Page.t) :
  getCurrentPage st = Some p -> cur_gs st = Some (gs p).
Proof. unfold cur_gs. now intros ->. Qed.

Lemma cur_gs_None (st : State.t) :
  getCurrentPage st = None -> cur_gs st = None.
Proof. unfold cur_gs. now intros ->. Qed.

Ltac gs_start st p Hp Hg :=
  unfold gs_rel;
  destruct (getCurrentPage st) as [p|] eqn:Hp;
  [ pose proof (cur_gs_Some st p Hp) as Hg | pose proof (cur_gs_None st Hp) as Hg ];
  rewrite Hg.

Ltac gs_finish Hg :=
  gs_updates; rewrite ?Hg; cbn [option_map];
  try reflexivity;
  try (eexists; split; [reflexivity|]).

Ltac starts_one_tac :=
  unfold starts_one, gs;
  let H := fresh in
  intros H; injection H as -> -> ->; cbn; lia.

Lemma onpointerdown_gs (st : State.t) (event : PointerEvent) (canvasRect : DOMRect) :
  gs_rel starts_one st (onpointerdown st event canvasRect).
Proof.
  gs_start st p Hp Hg; unfold onpointerdown;
    destruct (button event =? 1)%Z;
    try (unfold handleMiddleMouseDown, deselectAllBlocks; gs_finish Hg; starts_one_tac);
    destruct (getCanvasCoordinates event st canvasRect) as [canvasX canvasY];
    unfold handleDragStart;
    destruct (isPointInSelectionBounds st canvasX canvasY && negb (shiftKey event));
    try destruct (getSelectedBlocks st) as [|referenceBlock rest];
    try destruct (button event =? 0)%Z;
    unfold handleSelectionBoxStart; gs_finish Hg; try starts_one_tac.
Qed.

Lemma toggleBlockSelection_gs (st : State.t) (blockId : Z) :
  gs_rel (fun g g' => g' = g) st (toggleBlockSelection st blockId).
Proof.
  gs_start st p Hp Hg;
    unfold toggleBlockSelection, removeBlockFromSelection, addBlockToSelection;
    rewrite Hp; destruct (isBlockSelected st blockId);
    try destruct (includes (Page.selectedIds p) blockId);
    gs_finish Hg; try (unfold gs; reflexivity).
  all: exists (gs p); split; [assumption | reflexivity].
Qed.

Lemma gs_rel_weaken (R R' : bool * bool * bool -> bool * bool * bool -> Prop)
    (st st' : State.t) :
  (forall g g', R g g' -> R' g g') -> gs_rel R st st' -> gs_rel R' st st'.
Proof.
  unfold gs_rel. intros HR. destruct (cur_gs st); [|auto].
  intros [g' [H1 H2]]. eauto.
Qed.

Lemma gs_rel_refl (R : bool * bool * bool -> bool * bool * bool -> Prop) (st : State.t) :
  (forall g, R g g) -> gs_rel R st st.
Proof. unfold gs_rel. intros HR. destruct (cur_gs st); eauto. Qed.

Lemma same_starts_one (g g' : bool * bool * bool) : g' = g -> starts_one g g'.
Proof. intros -> ->. cbn. lia. Qed.

Lemma pointerdown_gs (target : PointerTarget) (st : State.t) (event : PointerEvent)
    (canvasRect : DOMRect) :
  gs_rel starts_one st (pointerdown target st event canvasRect).
Proof.
  destruct target as [|multi block|handle blockId|handle]; cbn [pointerdown].
  - apply onpointerdown_gs.
  - unfold block_onpointerdown.
    destruct (getCurrentPage st) as [p|] eqn:Hp; [|apply onpointerdown_gs].
    destruct multi; [apply onpointerdown_gs|].
    destruct (_ || _).
    { apply gs_rel_refl. intros g. now apply same_starts_one. }
    destruct (shiftKey event).
    { apply gs_rel_weaken with (R := fun g g' => g' = g);
        [exact same_starts_one | apply toggleBlockSelection_gs]. }
    unfold gs_rel. rewrite (cur_gs_Some st p Hp). unfold selectBlock.
    gs_finish (cur_gs_Some st p Hp). starts_one_tac.
  - unfold ResizeHandle_block_onpointerdown.
    destruct (find_block (getCurrentBlocks st) blockId).
    + gs_start st p Hp Hg; unfold selectBlock; gs_finish Hg. starts_one_tac.
    + apply gs_rel_refl. intros g. now apply same_starts_one.
  - unfold ResizeHandle_multi_onpointerdown.
    destruct (getSelectionBoundingBox st);
      [|apply gs_rel_refl; intros g; now apply same_starts_one].
    destruct (length (getSelectedBlocks st) <=? 1)%nat;
      [apply gs_rel_refl; intros g; now apply same_starts_one|].
    gs_start st p Hp Hg; gs_finish Hg. starts_one_tac.
Qed.

Lemma handleResizePointerMove_gs (st : State.t) (event : PointerEvent)
    (canvasRect : DOMRect) :
  cur_gs (handleResizePointerMove st event canvasRect) = cur_gs st.
Proof.
  unfold handleResizePointerMove.
  destruct (getCurrentPage st) as [page|]; [|reflexivity].
  destruct (Page.resizing page) as [resizing|]; [|reflexivity].
  destruct (ResizeState.id resizing).
  - destruct (find_block _ _); [|reflexivity].
    gs_updates. destruct (cur_gs st) as [[[? ?] ?]|]; reflexivity.
  - destruct (ResizeState.originalBlocks resizing); [|reflexivity].
    gs_updates. destruct (cur_gs st) as [[[? ?] ?]|]; reflexivity.
Qed.

Lemma onpointermove_gs (st : State.t) (event : PointerEvent) (canvasRect : DOMRect) :
  gs_rel (fun g g' => g' = g) st (onpointermove st event canvasRect).
Proof.
  unfold onpointermove.
  destruct (getCurrentPage st) as [p|] eqn:Hp; [|now apply gs_rel_refl].
  set (st1 := updateCurrentPage st [mouseX_ (clientX event); mouseY_ (clientY event)]).
  assert (Hp1 : getCurrentPage st1
                = Some (spread p [mouseX_ (clientX event); mouseY_ (clientY event)])).
  { subst st1. rewrite getCurrentPage_update by reflexivity. now rewrite Hp. }
  assert (Hg1 : cur_gs st1 = Some (gs p)).
  { rewrite (cur_gs_Some _ _ Hp1), gs_spread. unfold gs.
    destruct (is_some (Page.resizing p)), (is_some (Page.dragStart p)),
      (is_some (Page.selectionBox p)); reflexivity. }
  unfold gs_rel. rewrite (cur_gs_Some st p Hp).
  exists (gs p). split; [|reflexivity].
  destruct (is_some (Page.resizing p)).
  { now rewrite handleResizePointerMove_gs. }
  destruct (_ && _).
  { unfold handleBlockDrag. gs_updates. rewrite Hg1. cbn. unfold gs.
    destruct (is_some (Page.resizing p)), (is_some (Page.dragStart p)),
      (is_some (Page.selectionBox p)); reflexivity. }
  destruct (Page.isViewportDragging p).
  { unfold handleViewportDrag. gs_updates. rewrite Hg1. cbn. unfold gs.
    destruct (is_some (Page.resizing p)), (is_some (Page.dragStart p)),
      (is_some (Page.selectionBox p)); reflexivity. }
  destruct (is_some (Page.selectionBox p)) eqn:Hsb; [|exact Hg1].
  unfold handleSelectionBoxMove. rewrite Hp1.
  replace (Page.selectionBox (spread p [mouseX_ (clientX event); mouseY_ (clientY event)]))
    with (Page.selectionBox p) by (destruct p; reflexivity).
  destruct (Page.selectionBox p) as [selectionBox|] eqn:Hsel; [|discriminate].
  destruct (getCanvasCoordinates event st1 canvasRect) as [canvasX canvasY].
  gs_updates. rewrite Hg1. cbn. unfold gs. rewrite Hsel.
  destruct (is_some (Page.resizing p)), (is_some (Page.dragStart p)); reflexivity.
Qed.

Lemma handleDragCompletion_gs (st newState : State.t) :
  cur_gs (handleDragCompletion st newState) = cur_gs newState.
Proof.
  unfold handleDragCompletion.
  destruct (getCurrentPage st) as [p|]; [|reflexivity].
  destruct (Page.dragStart p); [|reflexivity].
  destruct (find_block _ _); [|reflexivity].
  destruct (existsb _ _); [|reflexivity].
  apply cur_gs_saveMementoAndReturn.
Qed.

Lemma handleResizeCompletion_gs (st newState : State.t) :
  cur_gs (handleResizeCompletion st newState) = cur_gs newState.
Proof.
  unfold handleResizeCompletion.
  destruct (getCurrentPage st) as [p|]; [|reflexivity].
  destruct (Page.resizing p) as [resizing|]; [|reflexivity].
  destruct (ResizeState.id resizing).
  - destruct (find_block _ _); [|reflexivity].
    destruct (_ || _); [|reflexivity].
    apply cur_gs_saveMementoAndReturn.
  - destruct (ResizeState.originalBlocks resizing); [|reflexivity].
    destruct (existsb _ _); [|reflexivity].
    apply cur_gs_saveMementoAndReturn.
Qed.

Lemma onpointerup_gs (st : State.t) :
  gs_rel (fun _ g' => g' = (false, false, false)) st (onpointerup st).
Proof.
  unfold onpointerup.
  destruct (getCurrentPage st) as [p|] eqn:Hp;
    [|unfold gs_rel; now rewrite (cur_gs_None st Hp)].
  unfold gs_rel. rewrite (cur_gs_Some st p Hp).
  exists (false, false, false). split; [|reflexivity].
  assert (Hnew :
    cur_gs match Page.selectionBox p with
           | Some selectionBox =>
               updateCurrentPage
                 (handleSelectionBoxComplete
                    (updateCurrentPage st
                       [isViewportDragging_ false; resizing_ None; dragStart_ None;
                        cursorStyle_ "default"]) selectionBox)
                 [selectionBox_ None]
           | None =>
               updateCurrentPage st
                 [isViewportDragging_ false; resizing_ None; dragStart_ None;
                  cursorStyle_ "default"]
           end = Some (false, false, false)).
  { destruct (Page.selectionBox p) eqn:Hsb; unfold handleSelectionBoxComplete;
      gs_updates; rewrite (cur_gs_Some st p Hp); cbn; unfold gs; rewrite ?Hsb;
      destruct (is_some (Page.resizing p)), (is_some (Page.dragStart p)); reflexivity. }
  destruct (is_some (Page.dragStart p)).
  { now rewrite handleDragCompletion_gs. }
  destruct (is_some (Page.resizing p)).
  { now rewrite handleResizeCompletion_gs. }
  exact Hnew.
Qed.

Lemma no_gesture_at_most_one (st : State.t) : no_gesture st -> at_most_one_gesture st.
Proof.
  unfold no_gesture, at_most_one_gesture. destruct (getCurrentPage st); [lia | auto].
Qed.

Lemma gesture_inv_run (evs : list PointerEv) :
  forall (pressed : bool) (st : State.t),
    gesture_inv pressed st ->
    well_bracketed pressed evs = true ->
    at_most_one_gesture (run_pointer evs st).
Proof.
  induction evs as [|ev evs IH]; intros pressed st Hinv Hwb.
  - destruct pressed; [exact Hinv | now apply no_gesture_at_most_one].
  - cbn [run_pointer fold_left]. destruct ev as [target event rect|event rect|].
    + cbn in Hwb. apply andb_prop in Hwb. destruct Hwb as [Hp Hwb].
      destruct pressed; [discriminate|].
      apply (IH true); [|exact Hwb].
      cbn. apply at_most_one_gesture_gs.
      pose proof (pointerdown_gs target st event rect) as Hd.
      apply no_gesture_gs in Hinv. unfold gs_rel in Hd.
      destruct (cur_gs st) as [g|].
      * destruct Hd as [g' [-> Hg']]. now apply Hg'.
      * now rewrite Hd.
    + cbn in Hwb. apply (IH pressed); [|exact Hwb].
      pose proof (onpointermove_gs st event rect) as Hm. unfold gs_rel in Hm.
      cbn [pointer_step].
      destruct pressed; cbn in *.
      * apply at_most_one_gesture_gs. apply at_most_one_gesture_gs in Hinv.
        destruct (cur_gs st) as [g|]; [destruct Hm as [g' [-> ->]]; exact Hinv | now rewrite Hm].
      * apply no_gesture_gs. apply no_gesture_gs in Hinv.
        destruct (cur_gs st) as [g|]; [destruct Hm as [g' [-> ->]]; exact Hinv | now rewrite Hm].
    + cbn in Hwb. apply (IH false); [|exact Hwb].
      cbn. apply no_gesture_gs.
      pose proof (onpointerup_gs st) as Hu. unfold gs_rel in Hu.
      destruct (cur_gs st) as [g|]; [destruct Hu as [g' [-> ->]]; reflexivity | now rewrite Hu].
Qed.

(** C3 (amended).  From a state whose current page has no gesture record
    set, every run of pointer events in which no pointer-down comes while
    the pointer is already down leaves at most one of [resizing],
    [dragStart], [selectionBox] of the current page set. *)
Theorem gesture_exclusion (st : State.t) (evs : list PointerEv) :
  no_gesture st ->
  well_bracketed false evs = true ->
  at_most_one_gesture (run_pointer evs st).
Proof. intros H Hwb. now apply (gesture_inv_run evs false st). Qed.

Lemma gesture_exclusion_witness :
  at_most_one_gesture
    (run_pointer [Down (OnBlock false blockA) (click 10 10) origin;
                  Move (click 30 40) origin; Up;
                  Down OnCanvas (click 300 300) origin;
                  Move (click 50 50) origin] state1).
Proof.
  apply (gesture_exclusion state1); [cbn; reflexivity | reflexivity].
Defined.

(** C3 as stated fails: a pointer-down on a block followed by a pointer-down
    on the empty canvas leaves [dragStart] and [selectionBox] both set. *)
Lemma gesture_exclusion_counterexample :
  no_gesture state1
  /\ ~ at_most_one_gesture
         (run_pointer [Down (OnBlock false blockA) (click 10 10) origin;
                       Down OnCanvas (click 300 300) origin] state1).
Proof.
  split; [reflexivity|]. cbn. lia.
Qed.

(** ** C10: page isolation *)

Lemma ou_refl (st : State.t) : others_unchanged st st.
Proof.
  split; [reflexivity|]. induction (State.pages st); constructor; auto.
Qed.

Lemma ou_trans (st st' st'' : State.t) :
  others_unchanged st st' -> others_unchanged st' st'' -> others_unchanged st st''.
Proof.
  intros [Hc1 H1] [Hc2 H2]. split; [congruence|].
  rewrite Hc1 in H2. clear Hc1 Hc2.
  revert H2. generalize (State.pages st''). 
  induction H1 as [|p p' ps ps' Hp _ IH]; intros qs H2; inversion H2; subst; constructor.
  - intros Hne. specialize (Hp Hne). subst p'. auto.
  - now apply IH.
Qed.

Lemma updateCurrentPage_others (st : State.t) (d : PageData) :
  others_unchanged st (updateCurrentPage st d).
Proof.
  split; [apply updateCurrentPage_currentPageId|].
  destruct st as [ps cp ? ? ? ? ? ? ? ? ? ? ?]. cbn.
  induction ps as [|p ps IH]; constructor; [|exact IH].
  intros Hne. destruct (String.eqb (Page.id p) cp) eqn:E; [|reflexivity].
  apply String.eqb_eq in E. contradiction.
Qed.

Lemma ou_update (st0 st : State.t) (d : PageData) :
  others_unchanged st0 st -> others_unchanged st0 (updateCurrentPage st d).
Proof. intros H. apply (ou_trans _ _ _ H). apply updateCurrentPage_others. Qed.

Lemma ou_save (st0 prevState newState : State.t) :
  others_unchanged st0 newState ->
  others_unchanged st0 (saveMementoAndReturn prevState newState).
Proof. destruct newState. exact (fun H => H). Qed.

(** One step through the body of a handler. *)
Ltac scrutinee x :=
  lazymatch x with
  | match ?y with _ => _ end => scrutinee y
  | _ => constr:(x)
  end.

Ltac ou_step :=
  cbv beta iota zeta;
  match goal with
  | H : others_unchanged ?a ?b |- others_unchanged ?a ?b => exact H
  | |- others_unchanged _ (updateCurrentPage _ _) => apply ou_update
  | |- others_unchanged _ (saveMementoAndReturn _ _) => apply ou_save
  | |- others_unchanged _ (match ?x with _ => _ end) =>
      let y := scrutinee x in destruct y
  end.

Ltac ou_solve := repeat ou_step.

Lemma ou_handleResizePointerMove (st0 st : State.t) (event : PointerEvent)
    (canvasRect : DOMRect) :
  others_unchanged st0 st ->
  others_unchanged st0 (handleResizePointerMove st event canvasRect).
Proof. intros H. unfold handleResizePointerMove. ou_solve. Qed.

Lemma ou_toggleBlockSelection (st0 st : State.t) (blockId : Z) :
  others_unchanged st0 st -> others_unchanged st0 (toggleBlockSelection st blockId).
Proof.
  intros H. unfold toggleBlockSelection, removeBlockFromSelection, addBlockToSelection.
  ou_solve.
Qed.

Lemma ou_onpointerdown (st0 st : State.t) (event : PointerEvent) (canvasRect : DOMRect) :
  others_unchanged st0 st -> others_unchanged st0 (onpointerdown st event canvasRect).
Proof.
  intros H. unfold onpointerdown, handleMiddleMouseDown, deselectAllBlocks,
    handleDragStart, handleSelectionBoxStart.
  ou_solve.
Qed.

Lemma ou_pointerdown (st0 st : State.t) (target : PointerTarget) (event : PointerEvent)
    (canvasRect : DOMRect) :
  others_unchanged st0 st -> others_unchanged st0 (pointerdown target st event canvasRect).
Proof.
  intros H. destruct target; cbn [pointerdown].
  - now apply ou_onpointerdown.
  - unfold block_onpointerdown, selectBlock.
    repeat first [ apply ou_onpointerdown | apply ou_toggleBlockSelection | ou_step ].
  - unfold ResizeHandle_block_onpointerdown, selectBlock. ou_solve.
  - unfold ResizeHandle_multi_onpointerdown. ou_solve.
Qed.

Lemma ou_onpointermove (st0 st : State.t) (event : PointerEvent) (canvasRect : DOMRect) :
  others_unchanged st0 st -> others_unchanged st0 (onpointermove st event canvasRect).
Proof.
  intros H. unfold onpointermove, handleBlockDrag, handleViewportDrag, handleSelectionBoxMove.
  repeat first [ apply ou_handleResizePointerMove | ou_step ].
Qed.

Lemma ou_onpointerup (st0 st : State.t) :
  others_unchanged st0 st -> others_unchanged st0 (onpointerup st).
Proof.
  intros H. unfold onpointerup.
  destruct (getCurrentPage st) as [p|]; [|exact H].
  assert (Hnew : others_unchanged st0
    match Page.selectionBox p with
    | Some selectionBox =>
        updateCurrentPage
          (handleSelectionBoxComplete
             (updateCurrentPage st
                [isViewportDragging_ false; resizing_ None; dragStart_ None;
                 cursorStyle_ "default"]) selectionBox)
          [selectionBox_ None]
    | None =>
        updateCurrentPage st
          [isViewportDragging_ false; resizing_ None; dragStart_ None;
           cursorStyle_ "default"]
    end).
  { unfold handleSelectionBoxComplete. ou_solve. }
  unfold handleDragCompletion, handleResizeCompletion. ou_solve.
Qed.

Lemma ou_onwheel (st0 st : State.t) (event : WheelEvent) (rect : DOMRect) :
  others_unchanged st0 st -> others_unchanged st0 (onwheel st event rect).
Proof. intros H. unfold onwheel. ou_solve. Qed.

Lemma ou_run_pointer (evs : list PointerEv) (st0 st : State.t) :
  others_unchanged st0 st -> others_unchanged st0 (run_pointer evs st).
Proof.
  revert st. induction evs as [|ev evs IH]; intros st H; [exact H|].
  cbn [run_pointer fold_left]. apply IH.
  destruct ev; cbn [pointer_step].
  - now apply ou_pointerdown.
  - now apply ou_onpointermove.
  - now apply ou_onpointerup.
Qed.

(** C10.  [updateCurrentPage], whatever the data, and with it every
    operation of the canvas that goes through it (selection changes, the
    drag translation, resize updates, viewport pan and zoom, the marquee,
    and so every pointer and wheel event and every run of them) keeps
    [currentPageId] and leaves every page whose id is not [currentPageId]
    in place with all its fields unchanged. *)
Theorem page_isolation (st : State.t) :
  (forall d, others_unchanged st (updateCurrentPage st d))
  /\ (forall i, others_unchanged st (selectBlock st i))
  /\ others_unchanged st (deselectAllBlocks st)
  /\ (forall i, others_unchanged st (toggleBlockSelection st i))
  /\ (forall dx dy, others_unchanged st (handleBlockDrag st dx dy))
  /\ (forall event rect, others_unchanged st (handleResizePointerMove st event rect))
  /\ (forall dx dy, others_unchanged st (handleViewportDrag st dx dy))
  /\ (forall event rect, others_unchanged st (onwheel st event rect))
  /\ (forall x y shift, others_unchanged st (handleSelectionBoxStart st x y shift))
  /\ (forall event rect, others_unchanged st (handleSelectionBoxMove st event rect))
  /\ (forall box, others_unchanged st (handleSelectionBoxComplete st box))
  /\ (forall ev, others_unchanged st (pointer_step st ev))
  /\ (forall evs, others_unchanged st (run_pointer evs st)).
Proof.
  pose proof (ou_refl st) as H.
  repeat match goal with |- _ /\ _ => split end.
  - intros d. apply updateCurrentPage_others.
  - intros i. apply updateCurrentPage_others.
  - apply updateCurrentPage_others.
  - intros i. now apply ou_toggleBlockSelection.
  - intros dx dy. apply updateCurrentPage_others.
  - intros event rect. now apply ou_handleResizePointerMove.
  - intros dx dy. apply updateCurrentPage_others.
  - intros event rect. now apply ou_onwheel.
  - intros x y shift. apply updateCurrentPage_others.
  - intros event rect. unfold handleSelectionBoxMove. ou_solve.
  - intros box. apply updateCurrentPage_others.
  - intros ev. apply (ou_run_pointer [ev] st st H).
  - intros evs. now apply ou_run_pointer.
Qed.

(** ** C5: the minimum size of resized blocks *)

Lemma getCurrentBlocks_update_blocks (st : State.t) (page : Page.t) (bs : list Block.t) :
  getCurrentPage st = Some page ->
  getCurrentBlocks (updateCurrentPage st [blocks_ bs]) = bs.
Proof.
  intros Hp. unfold getCurrentBlocks.
  rewrite getCurrentPage_update by reflexivity. rewrite Hp. destruct page. reflexivity.
Qed.

Lemma find_block_none (blocks : list Block.t) (i : Z) (b : Block.t) :
  find_block blocks i = None -> In b blocks -> Block.id b <> i.
Proof.
  unfold find_block. intros Hf Hin Heq.
  pose proof (find_none _ _ Hf b Hin) as H. cbn in H.
  apply Z.eqb_neq in H. contradiction.
Qed.

(** C5.  After a resize pointer-move, with any handle, pointer position and
    state of the shift key, every block the gesture acts on (the resized
    block, or every block recorded at the start of a group resize) has its
    width and its height given by a final [Math.max(MIN_SIZE, ...)], hence
    at least [MIN_SIZE]. *)
Theorem resize_min_size (st : State.t) (event : PointerEvent) (canvasRect : DOMRect)
    (page : Page.t) (resizing : ResizeState.t) (b' : Block.t) :
  getCurrentPage st = Some page ->
  Page.resizing page = Some resizing ->
  In b' (getCurrentBlocks (handleResizePointerMove st event canvasRect)) ->
  resize_targets resizing (Block.id b') = true ->
  (exists w h, Block.width b' = Qmax MIN_SIZE w /\ Block.height b' = Qmax MIN_SIZE h)
  /\ MIN_SIZE <= Block.width b' /\ MIN_SIZE <= Block.height b'.
Proof.
  intros Hp Hr Hin Ht.
  assert (Hex : exists w h, Block.width b' = Qmax MIN_SIZE w
                            /\ Block.height b' = Qmax MIN_SIZE h).
  { unfold handleResizePointerMove in Hin. rewrite Hp, Hr in Hin.
    unfold resize_targets in Ht.
    destruct (ResizeState.id resizing) as [i|].
    - apply Z.eqb_eq in Ht.
      destruct (find_block (getCurrentBlocks st) i) as [block|] eqn:Hf.
      + rewrite (getCurrentBlocks_update_blocks _ _ _ Hp) in Hin.
        apply in_map_iff in Hin. destruct Hin as [b [Hb _]].
        destruct (Z.eqb (Block.id b) i) eqn:E.
        * subst b'. cbn. unfold single_resize_rect. cbn. eauto.
        * subst b'. apply Z.eqb_neq in E. contradiction.
      + exfalso. exact (find_block_none _ _ _ Hf Hin Ht).
    - destruct (ResizeState.originalBlocks resizing) as [obs|]; [|discriminate].
      rewrite (getCurrentBlocks_update_blocks _ _ _ Hp) in Hin.
      apply in_map_iff in Hin. destruct Hin as [b [Hb _]].
      unfold group_resize_block in Hb.
      destruct (find_original obs (Block.id b)) as [o|] eqn:Ho.
      + subst b'. cbn. eauto.
      + subst b'. rewrite Ho in Ht. discriminate. }
  split; [exact Hex|].
  destruct Hex as [w0 [h0 [-> ->]]]. split; apply Q.le_max_l.
Qed.

Lemma resize_min_size_witness :
  (exists w h,
      Block.width (nth 1 (getCurrentBlocks (group_se_to true 30 20)) blockB)
      = Qmax MIN_SIZE w
      /\ Block.height (nth 1 (getCurrentBlocks (group_se_to true 30 20)) blockB)
         = Qmax MIN_SIZE h)
  /\ MIN_SIZE <= Block.width (nth 1 (getCurrentBlocks (group_se_to true 30 20)) blockB)
  /\ MIN_SIZE <= Block.height (nth 1 (getCurrentBlocks (group_se_to true 30 20)) blockB).
Proof.
  eapply (resize_min_size (state_pressed true) (click 30 20) origin).
  - reflexivity.
  - reflexivity.
  - vm_compute. right. left. reflexivity.
  - reflexivity.
Defined.

(** ** C6: group resize *)

Ltac qeq := unfold Qeq; vm_compute; reflexivity.

(** C6 (amended).  A group resize pointer-move applies the handle's function
    (and, with shift held, the aspect-ratio constraint) to the bounding box
    recorded at the start of the gesture, and gives every recorded block
    its fraction of the new box, the two sizes floored at [MIN_SIZE].  With
    A [{0,0,100,100}] and B [{100,0,50,50}] selected and the [se] handle
    taken from width 150 to width 300, A becomes [{0,0,200,200}] and B
    [{200,0,100,100}]. *)
Theorem group_resize_proportional (st : State.t) (event : PointerEvent)
    (canvasRect : DOMRect) (page : Page.t) (resizing : ResizeState.t)
    (originalBlocks : list OriginalBlockState.t) :
  getCurrentPage st = Some page ->
  Page.resizing page = Some resizing ->
  ResizeState.id resizing = SelectionBoundingBox ->
  ResizeState.originalBlocks resizing = Some originalBlocks ->
  let origBBox :=
    Rect.mk (ResizeState.startWidth resizing) (ResizeState.startHeight resizing)
            (ResizeState.startX resizing) (ResizeState.startY resizing) in
  let pointer :=
    mkPercent ((clientX event - left canvasRect) / Page.zoom page)
              ((clientY event - top canvasRect) / Page.zoom page) in
  let proposed := RESIZE_HANDLERS (ResizeState.handle resizing) origBBox pointer in
  let newBBox :=
    if State.isShiftPressed st
    then applyAspectRatioConstraint proposed origBBox (ResizeState.handle resizing)
    else proposed in
  getCurrentBlocks (handleResizePointerMove st event canvasRect)
  = map (fun block =>
           match find_original originalBlocks (Block.id block) with
           | Some orig => amended_group_block origBBox newBBox orig block
           | None => block
           end)
        (Page.blocks page)
  /\ (map Block.id (getCurrentBlocks (group_se_to false 300 200)) = [1; 2]%Z
      /\ geometry_is (nth 0 (getCurrentBlocks (group_se_to false 300 200)) blockA)
                      0 0 200 200
      /\ geometry_is (nth 1 (getCurrentBlocks (group_se_to false 300 200)) blockA)
                      200 0 100 100).
Proof.
  intros Hp Hr Hid Hobs origBBox pointer proposed newBBox. split.
  - unfold handleResizePointerMove. rewrite Hp, Hr, Hid, Hobs.
    rewrite (getCurrentBlocks_update_blocks _ _ _ Hp).
    unfold getCurrentBlocks, getCurrentViewport, group_newBBox. rewrite Hp.
    apply map_ext. intros block. unfold group_resize_block.
    destruct (find_original originalBlocks (Block.id block)); reflexivity.
  - split; [reflexivity|]. unfold geometry_is. repeat split; qeq.
Qed.

Lemma group_resize_proportional_witness :
  getCurrentBlocks (handleResizePointerMove (state_pressed true) (click 300 200) origin)
  = map (fun block =>
           match find_original originals_pressed (Block.id block) with
           | Some orig =>
               amended_group_block
                 (Rect.mk (ResizeState.startWidth resizing_pressed)
                          (ResizeState.startHeight resizing_pressed)
                          (ResizeState.startX resizing_pressed)
                          (ResizeState.startY resizing_pressed))
                 (applyAspectRatioConstraint
                    (RESIZE_HANDLERS (ResizeState.handle resizing_pressed)
                       (Rect.mk (ResizeState.startWidth resizing_pressed)
                                (ResizeState.startHeight resizing_pressed)
                                (ResizeState.startX resizing_pressed)
                                (ResizeState.startY resizing_pressed))
                       (mkPercent ((300 - 0) / Page.zoom page_pressed)
                                  ((200 - 0) / Page.zoom page_pressed)))
                    (Rect.mk (ResizeState.startWidth resizing_pressed)
                             (ResizeState.startHeight resizing_pressed)
                             (ResizeState.startX resizing_pressed)
                             (ResizeState.startY resizing_pressed))
                    (ResizeState.handle resizing_pressed))
                 orig block
           | None => block
           end)
        (Page.blocks page_pressed)
  /\ (map Block.id (getCurrentBlocks (group_se_to false 300 200)) = [1; 2]%Z
      /\ geometry_is (nth 0 (getCurrentBlocks (group_se_to false 300 200)) blockA)
                      0 0 200 200
      /\ geometry_is (nth 1 (getCurrentBlocks (group_se_to false 300 200)) blockA)
                      200 0 100 100).
Proof.
  exact (group_resize_proportional (state_pressed true) (click 300 200) origin
           page_pressed resizing_pressed originals_pressed
           eq_refl eq_refl eq_refl eq_refl).
Defined.

(** C6 as stated fails where a scaled size falls under [MIN_SIZE]: taking
    the [se] handle from width 150 to width 30 leaves B 20 wide, not
    [50 * (30 / 150)]. *)
Lemma group_resize_counterexample :
  Block.width (nth 1 (getCurrentBlocks (group_se_to false 30 20)) blockB) == 20
  /\ ~ Block.width (nth 1 (getCurrentBlocks (group_se_to false 30 20)) blockB)
       == Block.width (claimed_group_block (Rect.mk 150 100 0 0) (Rect.mk 30 20 0 0)
                         (OriginalBlockState.mk 2 100 0 50 50) blockB).
Proof.
  split; [qeq|]. unfold Qeq. vm_compute. discriminate.
Qed.

(** ** C7: zoom *)

Lemma gtb_lt (a b : Q) : gtb a b = true <-> b < a.
Proof.
  unfold gtb. rewrite negb_true_iff, <- not_true_iff_false, Qle_bool_iff.
  split; [apply Qnot_le_lt | apply Qlt_not_le].
Qed.

Lemma ltb_lt (a b : Q) : ltb a b = true <-> a < b.
Proof. apply gtb_lt. Qed.

Lemma gtb_false (a b : Q) : gtb a b = false <-> a <= b.
Proof.
  unfold gtb. rewrite negb_false_iff. apply Qle_bool_iff.
Qed.

Lemma getCurrentViewport_Some (st : State.t) (page : Page.t) :
  getCurrentPage st = Some page ->
  getCurrentViewport st
  = mkViewport (Page.offsetX page) (Page.offsetY page) (Page.zoom page).
Proof. unfold getCurrentViewport. now intros ->. Qed.

Lemma zoom_anchor (p o z nz : Q) :
  0 < z -> 0 < nz -> (p - (p - (p - o) * (nz / z))) / nz == (p - o) / z.
Proof. intros Hz Hnz. field. split; lra. Qed.

Lemma onwheel_zoom_branch (st : State.t) (event : WheelEvent) (rect : DOMRect)
    (page : Page.t) :
  getCurrentPage st = Some page ->
  ctrlKey event = true \/ (metaKey event = true /\ 50 <= Qabs (deltaY event)) ->
  0 < Page.zoom page ->
  let newZoom := clamp (Page.zoom page + (- deltaY event * 0.01)) 0.1 5 in
  let px := Page.mouseX page - left rect in
  let py := Page.mouseY page - top rect in
  let st' := onwheel st event rect in
  getCurrentViewport st'
  = mkViewport (px - (px - Page.offsetX page) * (newZoom / Page.zoom page))
               (py - (py - Page.offsetY page) * (newZoom / Page.zoom page))
               newZoom
  /\ 0.1 <= newZoom /\ newZoom <= 5
  /\ fst (screenToCanvas px py (getCurrentViewport st'))
     == fst (screenToCanvas px py (getCurrentViewport st))
  /\ snd (screenToCanvas px py (getCurrentViewport st'))
     == snd (screenToCanvas px py (getCurrentViewport st)).
Proof.
  intros Hp Hkeys Hz newZoom px py st'.
  assert (Hnz : 0.1 <= newZoom) by apply Q.le_max_l.
  assert (Hv : getCurrentViewport st'
               = mkViewport (px - (px - Page.offsetX page) * (newZoom / Page.zoom page))
                            (py - (py - Page.offsetY page) * (newZoom / Page.zoom page))
                            newZoom).
  { subst st'. unfold onwheel. rewrite Hp.
    assert (Htp : ltb (Qabs (deltaY event)) 50 && negb (ctrlKey event) = false).
    { destruct Hkeys as [->|[_ Hbig]]; [apply andb_false_r|].
      apply andb_false_intro1. apply gtb_false. exact Hbig. }
    assert (Hk : ctrlKey event || metaKey event = true).
    { destruct Hkeys as [->|[-> _]]; [reflexivity | apply orb_true_r]. }
    rewrite Htp, Hk. unfold getCurrentViewport.
    rewrite getCurrentPage_update by reflexivity. rewrite Hp.
    destruct page. reflexivity. }
  split; [exact Hv|]. split; [exact Hnz|]. split.
  { unfold newZoom, clamp. apply Q.max_lub; [lra|apply Q.le_min_l]. }
  rewrite Hv, (getCurrentViewport_Some _ _ Hp). cbn.
  split; apply zoom_anchor; lra.
Qed.

Lemma onwheel_pan_branch (st : State.t) (event : WheelEvent) (rect : DOMRect)
    (page : Page.t) :
  getCurrentPage st = Some page ->
  ctrlKey event = false ->
  Qabs (deltaY event) < 50 ->
  onwheel st event rect
  = updateCurrentPage st
      [offsetX_ (Page.offsetX page - deltaX event);
       offsetY_ (Page.offsetY page - deltaY event)]
  /\ getCurrentViewport (onwheel st event rect)
     = mkViewport (Page.offsetX page - deltaX event) (Page.offsetY page - deltaY event)
                  (Page.zoom page).
Proof.
  intros Hp Hc Hsmall.
  assert (Hw : onwheel st event rect
               = updateCurrentPage st
                   [offsetX_ (Page.offsetX page - deltaX event);
                    offsetY_ (Page.offsetY page - deltaY event)]).
  { unfold onwheel. rewrite Hp, Hc.
    replace (ltb (Qabs (deltaY event)) 50) with true
      by (symmetry; now apply ltb_lt).
    reflexivity. }
  split; [exact Hw|]. rewrite Hw. unfold getCurrentViewport.
  rewrite getCurrentPage_update, Hp by reflexivity. destruct page. reflexivity.
Qed.

(** C7.  Where the code departs from the claim.  [onwheel] asks first
    whether the event is a trackpad pan, [|deltaY| < 50] with ctrl not
    held, and only then whether ctrl or cmd is held: a wheel event with cmd
    held, ctrl not and a small [deltaY] pans.  With [deltaY = 10] on a page
    of zoom 1 and offset (0, 0) the offset becomes (0, -10) and the zoom
    stays 1, where the claim gives the zoom [clamp(1 - 0.1, 0.1, 5) = 0.9].
    So does every wheel event with ctrl not held and [|deltaY| < 50],
    whatever cmd is; a wheel event with neither key and [|deltaY| >= 50]
    changes nothing.  On the events that reach the zoom branch, ctrl held or
    cmd held with [|deltaY| >= 50], on a page of positive zoom, the claim
    holds: the zoom is the clamped sum, the offset is recomputed around the
    pointer, and the canvas point under the pointer stays. *)
Theorem wheel_zoom :
  metaKey cmd_wheel = true
  /\ getCurrentViewport state1 = mkViewport 0 0 1
  /\ getCurrentViewport (onwheel state1 cmd_wheel origin) = mkViewport (0 - 0) (0 - 10) 1
  /\ clamp (1 + (- deltaY cmd_wheel * 0.01)) 0.1 5 == 0.9
  /\ ~ vp_zoom (getCurrentViewport (onwheel state1 cmd_wheel origin))
       == clamp (vp_zoom (getCurrentViewport state1) + (- deltaY cmd_wheel * 0.01)) 0.1 5
  /\ (forall st event rect page,
        getCurrentPage st = Some page ->
        ctrlKey event = false ->
        Qabs (deltaY event) < 50 ->
        getCurrentViewport (onwheel st event rect)
        = mkViewport (Page.offsetX page - deltaX event)
                     (Page.offsetY page - deltaY event) (Page.zoom page))
  /\ (forall st event rect,
        ctrlKey event = false -> metaKey event = false ->
        50 <= Qabs (deltaY event) ->
        onwheel st event rect = st)
  /\ (forall st event rect page,
        getCurrentPage st = Some page ->
        ctrlKey event = true \/ (metaKey event = true /\ 50 <= Qabs (deltaY event)) ->
        0 < Page.zoom page ->
        getCurrentViewport (onwheel st event rect)
        = mkViewport
            ((Page.mouseX page - left rect)
             - ((Page.mouseX page - left rect) - Page.offsetX page)
               * (clamp (Page.zoom page + (- deltaY event * 0.01)) 0.1 5 / Page.zoom page))
            ((Page.mouseY page - top rect)
             - ((Page.mouseY page - top rect) - Page.offsetY page)
               * (clamp (Page.zoom page + (- deltaY event * 0.01)) 0.1 5 / Page.zoom page))
            (clamp (Page.zoom page + (- deltaY event * 0.01)) 0.1 5)
        /\ fst (screenToCanvas (Page.mouseX page - left rect) (Page.mouseY page - top rect)
                  (getCurrentViewport (onwheel st event rect)))
           == fst (screenToCanvas (Page.mouseX page - left rect)
                     (Page.mouseY page - top rect) (getCurrentViewport st))
        /\ snd (screenToCanvas (Page.mouseX page - left rect) (Page.mouseY page - top rect)
                  (getCurrentViewport (onwheel st event rect)))
           == snd (screenToCanvas (Page.mouseX page - left rect)
                     (Page.mouseY page - top rect) (getCurrentViewport st))).
Proof.
  split; [reflexivity|]. split; [reflexivity|]. split; [reflexivity|].
  split; [qeq|]. split; [unfold Qeq; vm_compute; discriminate|].
  split; [|split].
  - intros st event rect page Hp Hc Hsmall.
    exact (proj2 (onwheel_pan_branch st event rect page Hp Hc Hsmall)).
  - intros st event rect Hc Hm Hbig. unfold onwheel.
    destruct (getCurrentPage st); [|reflexivity].
    rewrite Hc, Hm.
    replace (ltb (Qabs (deltaY event)) 50) with false; [reflexivity|].
    symmetry. apply not_true_iff_false. intros H. apply ltb_lt in H. lra.
  - intros st event rect page Hp Hkeys Hz.
    destruct (onwheel_zoom_branch st event rect page Hp Hkeys Hz)
      as (Hv & _ & _ & Hx & Hy).
    split; [exact Hv|]. split; [exact Hx | exact Hy].
Qed.

(** ** C8: marquee selection *)

Lemma intersects_spec (b : Block.t) (box : SelectionBoxState.t) :
  intersects (Qmin (SelectionBoxState.startX box) (SelectionBoxState.currentX box))
             (Qmax (SelectionBoxState.startX box) (SelectionBoxState.currentX box))
             (Qmin (SelectionBoxState.startY box) (SelectionBoxState.currentY box))
             (Qmax (SelectionBoxState.startY box) (SelectionBoxState.currentY box)) b
  = true
  <-> rect_intersects b box.
Proof.
  unfold intersects, rect_intersects. cbv zeta.
  rewrite negb_true_iff, <- not_true_iff_false, !orb_true_iff, !gtb_lt, !ltb_lt.
  tauto.
Qed.

Lemma dedup_acc_In (l seen : list Z) (i : Z) :
  In i (dedup_acc seen l) <-> In i l /\ ~ In i seen.
Proof.
  revert seen. induction l as [|j l IH]; intros seen; cbn; [tauto|].
  destruct (includes seen j) eqn:E.
  - apply includes_In in E. rewrite IH. split.
    + intros [H1 H2]. auto.
    + intros [[->|H1] H2]; [contradiction | auto].
  - assert (Hn : ~ In j seen) by (rewrite <- includes_In, E; discriminate).
    cbn. rewrite IH. cbn. split.
    + intros [->|[H1 H2]]; [auto|]. split; [auto|]. intros H. apply H2. now right.
    + intros [[->|H1] H2]; [now left|].
      destruct (Z.eq_dec j i) as [->|Hne]; [now left|]. right. split; [assumption|].
      intros [H|H]; [contradiction | contradiction].
Qed.

Lemma new_Set_In (l : list Z) (i : Z) : In i (new_Set l) <-> In i l.
Proof. unfold new_Set. rewrite dedup_acc_In. cbn. tauto. Qed.

(** C8.  An id is in the preview selection exactly when it is the id of a
    block of the current page whose rectangle is not strictly apart from
    the marquee (touching edges count), or, with shift held, when it is
    already selected.  The block [{x:10, y:10, w:20, h:20}] is selected by
    the marquee [{x:0, y:0, w:15, h:15}], by the marquee [{0,0,10,10}] that
    only touches its corner, and not by [{x:100, y:100, w:10, h:10}]; with
    shift the ids found are added to the selection, without it they replace
    it. *)
Theorem marquee_selection :
  (forall (st : State.t) (box : SelectionBoxState.t) (i : Z),
      In i (calculatePreviewSelection st box)
      <-> (State.isShiftPressed st = true /\ In i (getSelectedBlockIds st))
          \/ exists b, In b (getCurrentBlocks st) /\ Block.id b = i
                       /\ rect_intersects b box)
  /\ calculatePreviewSelection (state10 false []) (marquee 0 0 15 15) = [7%Z]
  /\ calculatePreviewSelection (state10 false []) (marquee 0 0 10 10) = [7%Z]
  /\ calculatePreviewSelection (state10 false []) (marquee 100 100 10 10) = []
  /\ calculatePreviewSelection (state10 false [3%Z]) (marquee 0 0 15 15) = [7%Z]
  /\ calculatePreviewSelection (state10 true [3%Z]) (marquee 0 0 15 15) = [3%Z; 7%Z]
  /\ calculatePreviewSelection (state10 true [3%Z; 7%Z]) (marquee 0 0 15 15) = [3%Z; 7%Z]
  /\ calculatePreviewSelection (state10 true [3%Z]) (marquee 100 100 10 10) = [3%Z].
Proof.
  split; [|repeat split; reflexivity].
  intros st box i. unfold calculatePreviewSelection, getSelectedBlockIds.
  destruct (getCurrentPage st) as [page|] eqn:Hp.
  - assert (Hids : In i (map Block.id
                           (filter (intersects
                                      (Qmin (SelectionBoxState.startX box)
                                            (SelectionBoxState.currentX box))
                                      (Qmax (SelectionBoxState.startX box)
                                            (SelectionBoxState.currentX box))
                                      (Qmin (SelectionBoxState.startY box)
                                            (SelectionBoxState.currentY box))
                                      (Qmax (SelectionBoxState.startY box)
                                            (SelectionBoxState.currentY box)))
                                   (getCurrentBlocks st)))
                   <-> exists b, In b (getCurrentBlocks st) /\ Block.id b = i
                                 /\ rect_intersects b box).
    { rewrite in_map_iff. split.
      - intros [b [Hid Hin]]. apply filter_In in Hin. destruct Hin as [Hin Hi].
        exists b. rewrite <- intersects_spec. auto.
      - intros [b [Hin [Hid Hi]]]. exists b. split; [assumption|].
        apply filter_In. rewrite intersects_spec. auto. }
    cbv zeta. destruct (State.isShiftPressed st).
    + rewrite new_Set_In, in_app_iff, Hids. tauto.
    + rewrite Hids. split; [auto|]. intros [[H _]|H]; [discriminate | assumption].
  - unfold getCurrentBlocks. rewrite Hp. cbn. split; [tauto|].
    intros [[_ []]|[b [[] _]]].
Qed.

(** ** C9: the commit at pointer-up *)

Lemma or_zero_eq (v : Q) : or_zero v == v.
Proof.
  unfold or_zero. destruct (Qeq_bool v 0) eqn:E; [|reflexivity].
  apply Qeq_bool_iff in E. now symmetry.
Qed.

Lemma neqb_true (a b : Q) : neqb a b = true <-> ~ a == b.
Proof.
  unfold neqb. rewrite negb_true_iff, <- not_true_iff_false, Qeq_bool_iff. reflexivity.
Qed.

Lemma neqb_false (a b : Q) : neqb a b = false <-> a == b.
Proof. unfold neqb. rewrite negb_false_iff. apply Qeq_bool_iff. Qed.

Lemma moved_other (bx sx rx : Q) :
  gtb (Qabs (bx - (bx + (or_zero sx - or_zero rx)))) 0.1 = true
  <-> 0.1 < Qabs (rx - sx).
Proof.
  rewrite gtb_lt.
  assert (H : bx - (bx + (or_zero sx - or_zero rx)) == rx - sx)
    by (rewrite !or_zero_eq; ring).
  now rewrite H.
Qed.

Lemma Qabs_diag (a : Q) : ~ 0.1 < Qabs (a - a).
Proof.
  assert (H : a - a == 0) by ring. rewrite H. cbn. intros Hlt. discriminate Hlt.
Qed.

Lemma block_moved_spec (blocks : list Block.t) (ds : DragState.t) (ref : Block.t) (i : Z) :
  block_moved blocks ds (Some ref) i = true
  <-> exists b,
        find_block blocks i = Some b
        /\ ((i = DragState.id ds
             /\ ~ (Block.x b == DragState.startX ds /\ Block.y b == DragState.startY ds))
            \/ (i <> DragState.id ds
                /\ (0.1 < Qabs (Block.x ref - DragState.startX ds)
                    \/ 0.1 < Qabs (Block.y ref - DragState.startY ds)))).
Proof.
  unfold block_moved. destruct (find_block blocks i) as [b|].
  - destruct (Z.eqb i (DragState.id ds)) eqn:E.
    + apply Z.eqb_eq in E. rewrite orb_true_iff, !neqb_true. split.
      * intros H. exists b. split; [reflexivity|]. left. split; [assumption|]. tauto.
      * intros [b' [Hb [[_ H]|[Hne _]]]]; [|contradiction].
        injection Hb as <-.
        destruct (Qeq_dec (Block.x b) (DragState.startX ds)); [|now left].
        right. intros Hy. apply H. now split.
    + apply Z.eqb_neq in E. rewrite orb_true_iff, !moved_other. split.
      * intros H. exists b. split; [reflexivity|]. right. now split.
      * intros [b' [_ [[Heq _]|[_ H]]]]; [contradiction | assumption].
  - split; [discriminate|]. intros [b [Hb _]]. discriminate.
Qed.

Lemma resized_spec (b : Block.t) (r : ResizeState.t) :
  neqb (Block.width b) (ResizeState.startWidth r)
  || neqb (Block.height b) (ResizeState.startHeight r)
  || neqb (Block.x b) (ResizeState.startX r)
  || neqb (Block.y b) (ResizeState.startY r) = true
  <-> ~ (Block.width b == ResizeState.startWidth r
         /\ Block.height b == ResizeState.startHeight r
         /\ Block.x b == ResizeState.startX r
         /\ Block.y b == ResizeState.startY r).
Proof.
  rewrite !orb_true_iff, !neqb_true.
  destruct (Qeq_dec (Block.width b) (ResizeState.startWidth r)),
    (Qeq_dec (Block.height b) (ResizeState.startHeight r)),
    (Qeq_dec (Block.x b) (ResizeState.startX r)),
    (Qeq_dec (Block.y b) (ResizeState.startY r)); tauto.
Qed.

Lemma original_changed_spec (blocks : list Block.t) (o : OriginalBlockState.t) :
  original_changed blocks o = true
  <-> exists b,
        find_block blocks (OriginalBlockState.id o) = Some b
        /\ (0.1 < Qabs (Block.x b - OriginalBlockState.x o)
            \/ 0.1 < Qabs (Block.y b - OriginalBlockState.y o)
            \/ 0.1 < Qabs (Block.width b - OriginalBlockState.width o)
            \/ 0.1 < Qabs (Block.height b - OriginalBlockState.height o)).
Proof.
  unfold original_changed.
  destruct (find_block blocks (OriginalBlockState.id o)) as [b|].
  - rewrite !orb_true_iff, !gtb_lt. split.
    + intros H. exists b. split; [reflexivity | tauto].
    + intros [b' [Hb H]]. injection Hb as <-. tauto.
  - split; [discriminate|]. intros [b [Hb _]]. discriminate.
Qed.

Lemma mementoManager_saveMementoAndReturn (prevState newState : State.t) :
  State.mementoManager (saveMementoAndReturn prevState newState)
  = push_memento (State.mementoManager prevState) (createMemento prevState).
Proof. destruct newState. reflexivity. Qed.

Lemma Forall2_map_self (A : Type) (R : A -> A -> Prop) (f : A -> A) (l : list A) :
  (forall a, R a (f a)) -> Forall2 R l (map f l).
Proof. intros H. induction l; constructor; auto. Qed.

Lemma Forall2_map_step (A B : Type) (R R' : A -> B -> Prop) (f : B -> B)
    (l : list A) (l' : list B) :
  Forall2 R l l' ->
  (forall a b, In a l -> R a b -> R' a (f b)) ->
  Forall2 R' l (map f l').
Proof.
  intros H Hf. induction H as [|a b l l' Hab H IH]; cbn; constructor.
  - apply Hf; [now left | exact Hab].
  - apply IH. intros a' b' Hin. apply Hf. now right.
Qed.

Lemma Forall2_diag (A : Type) (R : A -> A -> Prop) (l : list A) :
  (forall a, R a a) -> Forall2 R l l.
Proof. intros H. induction l; constructor; auto. Qed.

Lemma same_block_with_geometry (b : Block.t) (x y width height : Q) :
  same_block b (with_geometry b x y width height).
Proof. unfold same_block. cbn. auto. Qed.

Lemma same_block_refl (b : Block.t) : same_block b b.
Proof. unfold same_block. auto. Qed.

Lemma same_block_trans (a b c : Block.t) :
  same_block a b -> same_block b c -> same_block a c.
Proof. unfold same_block. intuition congruence. Qed.

Lemma same_geometry_refl (b : Block.t) : same_geometry b b.
Proof. unfold same_geometry, geometry_is. repeat split; reflexivity. Qed.

Lemma differs_over_diag (b : Block.t) : ~ differs_over 0.1 b b.
Proof. intros [H|[H|[H|H]]]; exact (Qabs_diag _ H). Qed.

Lemma find_block_NoDup (blocks : list Block.t) (b : Block.t) :
  NoDup (map Block.id blocks) -> In b blocks -> find_block blocks (Block.id b) = Some b.
Proof.
  unfold find_block. induction blocks as [|a blocks IH]; intros Hnd Hin; [contradiction|].
  cbn in Hnd. inversion Hnd as [|? ? Hnotin Hnd']; subst. cbn.
  destruct Hin as [->|Hin].
  - now rewrite Z.eqb_refl.
  - destruct (Z.eqb (Block.id a) (Block.id b)) eqn:E; [|now apply IH].
    apply Z.eqb_eq in E. exfalso. apply Hnotin. rewrite E. now apply in_map.
Qed.

Lemma find_block_In (blocks : list Block.t) (i : Z) (b : Block.t) :
  find_block blocks i = Some b -> In b blocks /\ Block.id b = i.
Proof.
  unfold find_block. intros H. apply find_some in H. destruct H as [H1 H2].
  apply Z.eqb_eq in H2. auto.
Qed.

Lemma NoDup_id_eq (blocks : list Block.t) (a b : Block.t) :
  NoDup (map Block.id blocks) -> In a blocks -> In b blocks ->
  Block.id a = Block.id b -> a = b.
Proof.
  intros Hnd Ha Hb Hid.
  pose proof (find_block_NoDup _ _ Hnd Ha) as H1.
  pose proof (find_block_NoDup _ _ Hnd Hb) as H2.
  rewrite Hid in H1. congruence.
Qed.

Lemma Forall2_find_block (R : Block.t -> Block.t -> Prop) (blocks0 blocks : list Block.t)
    (b0 : Block.t) :
  Forall2 R blocks0 blocks ->
  (forall a b, R a b -> Block.id b = Block.id a) ->
  NoDup (map Block.id blocks0) ->
  In b0 blocks0 ->
  exists b, find_block blocks (Block.id b0) = Some b /\ R b0 b.
Proof.
  intros HF Hid. induction HF as [|a b l l' Hab HF IH]; intros Hnd Hin; [contradiction|].
  cbn in Hnd. inversion Hnd as [|? ? Hnotin Hnd']; subst.
  unfold find_block. cbn [find]. rewrite (Hid _ _ Hab).
  destruct Hin as [->|Hin].
  - rewrite Z.eqb_refl. eauto.
  - destruct (Z.eqb (Block.id a) (Block.id b0)) eqn:E.
    + apply Z.eqb_eq in E. exfalso. apply Hnotin. rewrite E. now apply in_map.
    + apply IH; assumption.
Qed.

Lemma unchanged_no_net_change (blocks0 : list Block.t) (page : Page.t) :
  NoDup (map Block.id blocks0) ->
  Page.blocks page = blocks0 ->
  ~ net_change blocks0 page.
Proof.
  intros Hnd Hb (b0 & b & Hin & Hf & Hc).
  rewrite Hb, (find_block_NoDup _ _ Hnd Hin) in Hf. injection Hf as <-.
  destruct (resizing_group page);
    [exact (differs_over_diag _ Hc) | apply Hc, same_geometry_refl].
Qed.

Lemma getCurrentBlocks_Some (st : State.t) (page : Page.t) :
  getCurrentPage st = Some page -> getCurrentBlocks st = Page.blocks page.
Proof. unfold getCurrentBlocks. now intros ->. Qed.

Lemma gesture_count_0 (page : Page.t) :
  gesture_count page = 0%nat ->
  Page.resizing page = None /\ Page.dragStart page = None /\ Page.selectionBox page = None.
Proof.
  unfold gesture_count.
  destruct (Page.resizing page), (Page.dragStart page), (Page.selectionBox page);
    cbn; intros H; try discriminate; auto.
Qed.

Lemma getSelectedBlocks_incl (st : State.t) (page : Page.t) :
  getCurrentPage st = Some page -> incl (getSelectedBlocks st) (Page.blocks page).
Proof.
  intros Hp. unfold getSelectedBlocks, getCurrentBlocks. rewrite Hp.
  destruct (length (Page.selectedIds page) =? 0)%nat; [intros b []|].
  intros b Hin. now apply filter_In in Hin.
Qed.

(** The current page after a chain of [updateCurrentPage]. *)
Ltac page_after Hp :=
  repeat (rewrite getCurrentPage_update by reflexivity); rewrite Hp; cbn [option_map].

(** *** The pointer-down *)

Lemma onpointerdown_page (st : State.t) (event : PointerEvent) (canvasRect : DOMRect)
    (page : Page.t) :
  getCurrentPage st = Some page ->
  gesture_count page = 0%nat ->
  exists page1,
    getCurrentPage (onpointerdown st event canvasRect) = Some page1
    /\ Page.blocks page1 = Page.blocks page
    /\ down_shape (Page.blocks page) page1.
Proof.
  intros Hp Hg. apply gesture_count_0 in Hg. destruct Hg as [Hr [Hd Hs]].
  unfold onpointerdown.
  destruct (button event =? 1)%Z.
  { unfold handleMiddleMouseDown, deselectAllBlocks. eexists. split; [page_after Hp; reflexivity|].
    destruct page; cbn in *. split; [reflexivity|]. left. auto. }
  destruct (getCanvasCoordinates event st canvasRect) as [canvasX canvasY].
  assert (Hbox : forall shift,
    exists page1,
      getCurrentPage (handleSelectionBoxStart st canvasX canvasY shift) = Some page1
      /\ Page.blocks page1 = Page.blocks page /\ down_shape (Page.blocks page) page1).
  { intros shift. unfold handleSelectionBoxStart.
    eexists. split; [page_after Hp; reflexivity|].
    destruct page; cbn in *. split; [reflexivity|]. left. auto. }
  assert (Hsame : exists page1,
    getCurrentPage st = Some page1
    /\ Page.blocks page1 = Page.blocks page /\ down_shape (Page.blocks page) page1).
  { exists page. split; [assumption|]. split; [reflexivity|]. left. auto. }
  destruct (isPointInSelectionBounds st canvasX canvasY && negb (shiftKey event)) eqn:Hin.
  - unfold handleDragStart. rewrite Hin.
    destruct (getSelectedBlocks st) as [|referenceBlock rest] eqn:Hsel.
    + destruct (button event =? 0)%Z; [apply Hbox | exact Hsame].
    + eexists. split; [page_after Hp; reflexivity|].
      assert (Href : In referenceBlock (Page.blocks page)
                     /\ includes (Page.selectedIds page) (Block.id referenceBlock) = true).
      { assert (Hmem : In referenceBlock (getSelectedBlocks st))
          by (rewrite Hsel; now left).
        unfold getSelectedBlocks in Hmem. rewrite Hp in Hmem.
        rewrite (getCurrentBlocks_Some _ _ Hp) in Hmem.
        destruct (length (Page.selectedIds page) =? 0)%nat; [contradiction|].
        now apply filter_In in Hmem. }
      destruct Href as [Href Hsel'].
      destruct page; cbn in *. split; [reflexivity|].
      right. left. split; [assumption|]. exists referenceBlock. auto.
  - destruct (button event =? 0)%Z; [apply Hbox | exact Hsame].
Qed.

Lemma toggleBlockSelection_page (st : State.t) (blockId : Z) (page : Page.t) :
  getCurrentPage st = Some page ->
  exists page1,
    getCurrentPage (toggleBlockSelection st blockId) = Some page1
    /\ Page.blocks page1 = Page.blocks page
    /\ Page.dragStart page1 = Page.dragStart page
    /\ Page.resizing page1 = Page.resizing page.
Proof.
  intros Hp. unfold toggleBlockSelection, removeBlockFromSelection, addBlockToSelection.
  rewrite Hp.
  destruct (isBlockSelected st blockId); [|destruct (includes _ _)];
    first [ solve [exists page; auto]
          | eexists; split; [page_after Hp; reflexivity|]; destruct page; cbn; auto ].
Qed.

Lemma pointerdown_page (target : PointerTarget) (st : State.t) (event : PointerEvent)
    (canvasRect : DOMRect) (page : Page.t) :
  getCurrentPage st = Some page ->
  gesture_count page = 0%nat ->
  rendered st target ->
  exists page1,
    getCurrentPage (pointerdown target st event canvasRect) = Some page1
    /\ Page.blocks page1 = Page.blocks page
    /\ down_shape (Page.blocks page) page1.
Proof.
  intros Hp Hg Hrend.
  pose proof (gesture_count_0 page Hg) as [Hr [Hd Hs]].
  assert (Hsame : exists page1,
    getCurrentPage st = Some page1
    /\ Page.blocks page1 = Page.blocks page /\ down_shape (Page.blocks page) page1).
  { exists page. split; [assumption|]. split; [reflexivity|]. left. auto. }
  destruct target as [|multi block|handle blockId|handle]; cbn [pointerdown].
  - now apply onpointerdown_page.
  - unfold block_onpointerdown. rewrite Hp.
    destruct multi; [now apply onpointerdown_page|].
    destruct (_ || _); [exact Hsame|].
    destruct (shiftKey event).
    + destruct (toggleBlockSelection_page st (Block.id block) page Hp)
        as [page1 [H1 [H2 [H3 H4]]]].
      exists page1. split; [assumption|]. split; [assumption|]. left.
      now rewrite H3, H4.
    + unfold selectBlock. eexists. split; [page_after Hp; reflexivity|].
      cbn in Hrend. unfold getCurrentBlocks in Hrend. rewrite Hp in Hrend.
      destruct page; cbn in *. split; [reflexivity|].
      right. left. split; [assumption|]. exists block.
      split; [assumption|]. split; [|reflexivity].
      unfold includes. cbn. now rewrite Z.eqb_refl.
  - unfold ResizeHandle_block_onpointerdown, getCurrentBlocks. rewrite Hp.
    destruct (find_block (Page.blocks page) blockId) as [block|] eqn:Hf; [|exact Hsame].
    unfold selectBlock. eexists. split; [page_after Hp; reflexivity|].
    destruct page; cbn in *. split; [reflexivity|].
    right. right. left. split; [assumption|]. exists blockId, handle, block. auto.
  - unfold ResizeHandle_multi_onpointerdown.
    destruct (getSelectionBoundingBox st) as [bbox|]; [|exact Hsame].
    destruct (length (getSelectedBlocks st) <=? 1)%nat; [exact Hsame|].
    eexists. split; [page_after Hp; reflexivity|].
    pose proof (getSelectedBlocks_incl st page Hp) as Hincl.
    destruct page; cbn in *. split; [reflexivity|].
    right. right. right. split; [assumption|].
    exists handle, (Rect.width bbox), (Rect.height bbox), (Rect.x bbox), (Rect.y bbox),
      (getSelectedBlocks st). auto.
Qed.

Lemma pointerdown_mementoManager (target : PointerTarget) (st : State.t)
    (event : PointerEvent) (canvasRect : DOMRect) :
  State.mementoManager (pointerdown target st event canvasRect) = State.mementoManager st.
Proof.
  destruct target; cbn [pointerdown];
    unfold block_onpointerdown, onpointerdown, handleMiddleMouseDown, deselectAllBlocks,
      handleDragStart, handleSelectionBoxStart, toggleBlockSelection,
      removeBlockFromSelection, addBlockToSelection,
      ResizeHandle_block_onpointerdown, ResizeHandle_multi_onpointerdown, selectBlock;
    repeat match goal with
           | |- State.mementoManager (updateCurrentPage _ _) = _ =>
               rewrite updateCurrentPage_mementoManager
           | |- State.mementoManager match ?x with _ => _ end = _ =>
               let y := scrutinee x in destruct y
           | |- _ => progress cbv beta iota zeta
           end; reflexivity.
Qed.

(** *** The pointer-moves *)

Lemma keeps_gesture_id (d : PageData) : keeps_gesture d = true -> keeps_id d = true.
Proof.
  unfold keeps_gesture, keeps_id. rewrite !forallb_forall. intros H f Hf.
  specialize (H f Hf). destruct f; try reflexivity; discriminate.
Qed.

Lemma spread_keeps_gesture (d : PageData) (p : Page.t) :
  keeps_gesture d = true ->
  records_kept p (spread p d) /\ Page.blocks (spread p d) = Page.blocks p.
Proof.
  unfold spread, records_kept. revert p.
  induction d as [|f d IH]; intros p H; [repeat split|].
  cbn in H. apply andb_prop in H. destruct H as [Hf Hd].
  cbn [fold_left]. destruct (IH (set_field p f) Hd) as ((H1 & H2 & H3) & H4).
  rewrite H1, H2, H3, H4. destruct p, f; try discriminate; repeat split; reflexivity.
Qed.

Lemma moved_blocks_refl (page1 : Page.t) : moved_blocks page1 (Page.blocks page1).
Proof.
  unfold moved_blocks.
  destruct (Page.resizing page1) as [r|].
  - destruct (ResizeState.id r) as [i|].
    + apply Forall2_diag. intros b. unfold resized_at.
      destruct (Z.eqb _ _); [apply same_block_refl | reflexivity].
    + destruct (ResizeState.originalBlocks r) as [obs|]; [|reflexivity].
      apply Forall2_diag. intros b. unfold resized_in.
      destruct (find_original _ _); [apply same_block_refl | reflexivity].
  - destruct (Page.dragStart page1); [|reflexivity].
    exists 0, 0. apply Forall2_diag. intros b. unfold dragged_by.
    destruct (includes _ _); [|reflexivity].
    split; [apply same_block_refl|]. unfold geometry_is.
    repeat split; try reflexivity; ring.
Qed.

Lemma moving_update (page1 : Page.t) (st : State.t) (d : PageData) :
  keeps_gesture d = true -> moving page1 st -> moving page1 (updateCurrentPage st d).
Proof.
  intros Hd (page & Hp & (H1 & H2 & H3) & Hm).
  exists (spread page d). split.
  { rewrite getCurrentPage_update by (now apply keeps_gesture_id). now rewrite Hp. }
  destruct (spread_keeps_gesture d page Hd) as ((K1 & K2 & K3) & K4).
  unfold records_kept. rewrite K1, K2, K3, K4. auto.
Qed.

Lemma moving_set_blocks (page1 : Page.t) (st : State.t) (page : Page.t)
    (blocks' : list Block.t) :
  getCurrentPage st = Some page ->
  records_kept page1 page ->
  moved_blocks page1 blocks' ->
  moving page1 (updateCurrentPage st [blocks_ blocks']).
Proof.
  intros Hp Hk Hm. exists (spread page [blocks_ blocks']). split.
  { rewrite getCurrentPage_update, Hp by reflexivity. reflexivity. }
  unfold records_kept in *. destruct page; cbn in *. auto.
Qed.

Lemma moving_handleResizePointerMove (page1 : Page.t) (st : State.t)
    (event : PointerEvent) (canvasRect : DOMRect) :
  moving page1 st -> moving page1 (handleResizePointerMove st event canvasRect).
Proof.
  intros H. pose proof H as (page & Hp & Hk & Hm). pose proof Hk as (K1 & K2 & K3).
  unfold handleResizePointerMove. rewrite Hp.
  destruct (Page.resizing page) as [rs|] eqn:Hr; [|exact H].
  rewrite (getCurrentBlocks_Some _ _ Hp). cbv zeta.
  unfold moved_blocks in Hm. rewrite <- K2 in Hm. cbv beta iota in Hm.
  destruct (ResizeState.id rs) as [i|] eqn:Hid.
  - destruct (find_block (Page.blocks page) i); [|exact H].
    apply (moving_set_blocks page1 st page _ Hp Hk).
    unfold moved_blocks. rewrite <- K2. cbv beta iota. rewrite Hid.
    apply (Forall2_map_step _ _ _ _ _ _ _ Hm). intros a b _ Hab. unfold resized_at in *.
    destruct (Z.eqb (Block.id a) i) eqn:E.
    + rewrite (proj1 Hab), E.
      exact (same_block_trans _ _ _ Hab (same_block_with_geometry _ _ _ _ _)).
    + subst b. now rewrite E.
  - destruct (ResizeState.originalBlocks rs) as [obs|] eqn:Ho; [|exact H].
    apply (moving_set_blocks page1 st page _ Hp Hk).
    unfold moved_blocks. rewrite <- K2. cbv beta iota. rewrite Hid, Ho.
    apply (Forall2_map_step _ _ _ _ _ _ _ Hm). intros a b _ Hab.
    unfold resized_in, group_resize_block in *.
    destruct (find_original obs (Block.id a)) eqn:E.
    + rewrite (proj1 Hab), E.
      exact (same_block_trans _ _ _ Hab (same_block_with_geometry _ _ _ _ _)).
    + subst b. now rewrite E.
Qed.

Lemma moving_onpointermove (page1 : Page.t) (st : State.t) (event : PointerEvent)
    (canvasRect : DOMRect) :
  moving page1 st -> moving page1 (onpointermove st event canvasRect).
Proof.
  intros H. pose proof H as (page & Hp & Hk & Hm). pose proof Hk as (K1 & K2 & K3).
  unfold onpointermove. rewrite Hp. cbv zeta.
  set (st' := updateCurrentPage st _).
  assert (H' : moving page1 st') by (apply moving_update; [reflexivity | exact H]).
  destruct (Page.resizing page) as [rs|] eqn:Hr; cbn [is_some].
  { now apply moving_handleResizePointerMove. }
  assert (Hrest : moving page1
            (if Page.isViewportDragging page
             then handleViewportDrag st' (clientX event - Page.mouseX page)
                    (clientY event - Page.mouseY page)
             else if is_some (Page.selectionBox page)
                  then handleSelectionBoxMove st' event canvasRect
                  else st')).
  { destruct (Page.isViewportDragging page).
    { unfold handleViewportDrag. apply moving_update; [reflexivity | exact H']. }
    destruct (is_some (Page.selectionBox page)); [|exact H'].
    unfold handleSelectionBoxMove.
    destruct (getCurrentPage st') as [p|]; [|exact H'].
    destruct (Page.selectionBox p); [|exact H'].
    destruct (getCanvasCoordinates event st' canvasRect).
    apply moving_update; [reflexivity | exact H']. }
  destruct (Page.dragStart page) as [ds|] eqn:Hd; cbn [is_some andb]; [|exact Hrest].
  destruct (Page.editingId page); cbn [is_some negb]; [exact Hrest|].
  clear Hrest. destruct H' as (page' & Hp' & Hk' & Hm'). pose proof Hk' as (K1' & K2' & K3').
  unfold handleBlockDrag, getSelectedBlockIds.
  rewrite (getCurrentBlocks_Some _ _ Hp'), Hp'. cbv zeta.
  apply (moving_set_blocks page1 st' page' _ Hp' Hk').
  unfold moved_blocks in Hm' |- *. rewrite <- K2, <- K1 in Hm' |- *.
  cbv beta iota in Hm' |- *.
  destruct Hm' as (dx & dy & HF).
  exists (dx + (clientX event - Page.mouseX page) / vp_zoom (getCurrentViewport st')),
         (dy + (clientY event - Page.mouseY page) / vp_zoom (getCurrentViewport st')).
  apply (Forall2_map_step _ _ _ _ _ _ _ HF). intros a b _ Hab.
  unfold dragged_by in *. rewrite K3'.
  destruct (includes (Page.selectedIds page1) (Block.id a)) eqn:E.
  - destruct Hab as (Hs & Hx & Hy & Hw & Hh). rewrite (proj1 Hs), E. split.
    + unfold with_position.
      exact (same_block_trans _ _ _ Hs (same_block_with_geometry _ _ _ _ _)).
    + unfold geometry_is. cbn. rewrite Hx, Hy.
      repeat split; try assumption; ring.
  - subst b. now rewrite E.
Qed.

Lemma moving_moves (page1 : Page.t) (moves : list (PointerEvent * DOMRect))
    (st : State.t) :
  moving page1 st ->
  moving page1 (fold_left pointer_step (map (fun m => Move (fst m) (snd m)) moves) st).
Proof.
  revert st. induction moves as [|m moves IH]; intros st H; [exact H|].
  cbn [map fold_left pointer_step]. apply IH. now apply moving_onpointermove.
Qed.

Lemma onpointermove_mementoManager (st : State.t) (event : PointerEvent)
    (canvasRect : DOMRect) :
  State.mementoManager (onpointermove st event canvasRect) = State.mementoManager st.
Proof.
  unfold onpointermove, handleResizePointerMove, handleBlockDrag, handleViewportDrag,
    handleSelectionBoxMove;
    repeat match goal with
           | |- State.mementoManager (updateCurrentPage _ _) = _ =>
               rewrite updateCurrentPage_mementoManager
           | |- State.mementoManager match ?x with _ => _ end = _ =>
               let y := scrutinee x in destruct y
           | |- _ => progress cbv beta iota zeta
           end; reflexivity.
Qed.

Lemma moves_mementoManager (moves : list (PointerEvent * DOMRect)) (st : State.t) :
  State.mementoManager
    (fold_left pointer_step (map (fun m => Move (fst m) (snd m)) moves) st)
  = State.mementoManager st.
Proof.
  revert st. induction moves as [|m moves IH]; intros st; [reflexivity|].
  cbn [map fold_left pointer_step]. rewrite IH. apply onpointermove_mementoManager.
Qed.

(** *** The pointer-up *)

Lemma onpointerup_no_page (st : State.t) :
  getCurrentPage st = None -> onpointerup st = st.
Proof. unfold onpointerup. now intros ->. Qed.

Lemma dragged_by_id (sel : list Z) (dx dy : Q) (a b : Block.t) :
  dragged_by sel dx dy a b -> Block.id b = Block.id a.
Proof.
  unfold dragged_by. destruct (includes _ _); [intros [H _]; apply H | now intros ->].
Qed.

Lemma resized_at_id (i : Z) (a b : Block.t) : resized_at i a b -> Block.id b = Block.id a.
Proof.
  unfold resized_at. destruct (Z.eqb _ _); [intros H; apply H | now intros ->].
Qed.

Lemma resized_in_id (obs : list OriginalBlockState.t) (a b : Block.t) :
  resized_in obs a b -> Block.id b = Block.id a.
Proof.
  unfold resized_in. destruct (find_original _ _); [intros H; apply H | now intros ->].
Qed.

Lemma Qabs_small (a : Q) : a == 0 -> ~ 0.1 < Qabs a.
Proof. intros H. rewrite H. cbn. intros Hlt. discriminate Hlt. Qed.

Lemma drag_commit (st newState : State.t) (page : Page.t) (blocks0 : list Block.t)
    (ref : Block.t) (dx dy : Q) :
  getCurrentPage st = Some page ->
  State.mementoManager newState = State.mementoManager st ->
  NoDup (map Block.id blocks0) ->
  In ref blocks0 ->
  includes (Page.selectedIds page) (Block.id ref) = true ->
  Page.dragStart page = Some (DragState.mk (Block.id ref) (Block.x ref) (Block.y ref)) ->
  Forall2 (dragged_by (Page.selectedIds page) dx dy) blocks0 (Page.blocks page) ->
  (net_change blocks0 page ->
   exists blocks',
     restored blocks0 blocks'
     /\ State.mementoManager (handleDragCompletion st newState)
        = push_memento (State.mementoManager st)
            (createMemento (updateCurrentPage st [blocks_ blocks'])))
  /\ (~ net_change blocks0 page ->
      State.mementoManager (handleDragCompletion st newState) = State.mementoManager st).
Proof.
  intros Hp Hmm Hnd Hin Hsel Hd HF.
  destruct (Forall2_find_block _ _ _ ref HF (dragged_by_id _ _ _) Hnd Hin)
    as (bref & Hfref & Href).
  unfold dragged_by in Href. rewrite Hsel in Href.
  destruct Href as (Hsb & Hgx & Hgy & Hgw & Hgh).
  assert (Hnet : net_change blocks0 page <-> ~ (dx == 0 /\ dy == 0)).
  { unfold net_change.
    assert (Hg : resizing_group page = false)
      by (unfold resizing_group; now rewrite Hd).
    rewrite Hg. split.
    - intros (b0 & b & Hin0 & Hf0 & Hc) (Hx0 & Hy0). apply Hc.
      destruct (Forall2_find_block _ _ _ b0 HF (dragged_by_id _ _ _) Hnd Hin0)
        as (b' & Hf' & Hb').
      rewrite Hf0 in Hf'. injection Hf' as <-.
      unfold dragged_by in Hb'.
      destruct (includes (Page.selectedIds page) (Block.id b0));
        [|subst b; apply same_geometry_refl].
      destruct Hb' as (_ & Hx & Hy & Hw & Hh).
      unfold same_geometry, geometry_is. repeat split; try assumption; lra.
    - intros Hn. exists ref, bref. split; [assumption|]. split; [assumption|].
      intros (Hx & Hy & _ & _). apply Hn. split; lra. }
  assert (Hmoved : existsb (block_moved (Page.blocks page)
                              (DragState.mk (Block.id ref) (Block.x ref) (Block.y ref))
                              (Some bref))
                           (Page.selectedIds page) = true
                   <-> ~ (dx == 0 /\ dy == 0)).
  { rewrite existsb_exists. split.
    - intros (i & Hi & Hbm). apply block_moved_spec in Hbm.
      destruct Hbm as (b & Hfb & [(-> & Hne) | (Hne & Hfar)]);
        cbn [DragState.id DragState.startX DragState.startY] in *.
      + rewrite Hfref in Hfb. injection Hfb as <-.
        intros (Hx0 & Hy0). apply Hne. split; lra.
      + intros (Hx0 & Hy0).
        destruct Hfar as [H|H]; revert H; apply Qabs_small; lra.
    - intros Hn. exists (Block.id ref). split; [now apply includes_In|].
      apply block_moved_spec. exists bref. split; [exact Hfref|].
      left. split; [reflexivity|]. cbn. intros (Hx & Hy). apply Hn. split; lra. }
  unfold handleDragCompletion, getCurrentBlocks, getSelectedBlockIds.
  rewrite Hp, Hd. cbv zeta. cbn [DragState.id DragState.startX DragState.startY].
  rewrite Hfref.
  destruct (existsb _ (Page.selectedIds page)) eqn:E.
  - split; [|intros Hn; exfalso; apply Hn, Hnet, Hmoved; reflexivity].
    intros _. eexists. split.
    2:{ rewrite mementoManager_saveMementoAndReturn, updateCurrentPage_mementoManager.
        reflexivity. }
    unfold restored. apply (Forall2_map_step _ _ _ _ _ _ _ HF). intros a b _ Hab.
    unfold dragged_by in Hab.
    destruct (includes (Page.selectedIds page) (Block.id a)) eqn:Ea.
    + destruct Hab as (Hs & Hx & Hy & Hw & Hh). rewrite (proj1 Hs), Ea. split.
      * unfold with_position.
        exact (same_block_trans _ _ _ Hs (same_block_with_geometry _ _ _ _ _)).
      * unfold same_geometry, geometry_is. cbn. rewrite !or_zero_eq.
        repeat split; try assumption; lra.
    + subst b. rewrite Ea. split; [apply same_block_refl | apply same_geometry_refl].
  - split; [|intros _; exact Hmm].
    intros Hn. apply Hnet, Hmoved in Hn. discriminate.
Qed.

Lemma single_commit (st newState : State.t) (page : Page.t) (blocks0 : list Block.t)
    (i : Z) (h : ResizeString.t) (block : Block.t) :
  getCurrentPage st = Some page ->
  State.mementoManager newState = State.mementoManager st ->
  NoDup (map Block.id blocks0) ->
  find_block blocks0 i = Some block ->
  Page.dragStart page = None ->
  Page.resizing page
  = Some (ResizeState.mk (BlockId i) h (Block.width block) (Block.height block)
            (Block.x block) (Block.y block) None) ->
  Forall2 (resized_at i) blocks0 (Page.blocks page) ->
  (net_change blocks0 page ->
   exists blocks',
     restored blocks0 blocks'
     /\ State.mementoManager (handleResizeCompletion st newState)
        = push_memento (State.mementoManager st)
            (createMemento (updateCurrentPage st [blocks_ blocks'])))
  /\ (~ net_change blocks0 page ->
      State.mementoManager (handleResizeCompletion st newState) = State.mementoManager st).
Proof.
  intros Hp Hmm Hnd Hf Hd Hr HF.
  destruct (find_block_In _ _ _ Hf) as [Hin Hid].
  destruct (Forall2_find_block _ _ _ block HF (resized_at_id _) Hnd Hin)
    as (b & Hfb & Hb).
  rewrite Hid in Hfb.
  assert (Hnet : net_change blocks0 page <-> ~ same_geometry block b).
  { unfold net_change.
    assert (Hg : resizing_group page = false)
      by (unfold resizing_group; now rewrite Hd, Hr).
    rewrite Hg. split.
    - intros (b0 & b' & Hin0 & Hf0 & Hc) Hsame. apply Hc.
      destruct (Forall2_find_block _ _ _ b0 HF (resized_at_id _) Hnd Hin0)
        as (b'' & Hf'' & Hb'').
      rewrite Hf0 in Hf''. injection Hf'' as <-.
      unfold resized_at in Hb''.
      destruct (Z.eqb (Block.id b0) i) eqn:E; [|subst b'; apply same_geometry_refl].
      apply Z.eqb_eq in E.
      assert (b0 = block)
        by (apply (NoDup_id_eq blocks0); auto; congruence).
      subst b0. rewrite Hid, Hfb in Hf0. now injection Hf0 as <-.
    - intros Hn. exists block, b. rewrite Hid. auto. }
  pose proof (resized_spec b
                (ResizeState.mk (BlockId i) h (Block.width block) (Block.height block)
                   (Block.x block) (Block.y block) None)) as Hspec.
  cbn [ResizeState.startWidth ResizeState.startHeight ResizeState.startX
       ResizeState.startY] in Hspec.
  assert (Hsame : same_geometry block b
                  <-> (Block.width b == Block.width block
                       /\ Block.height b == Block.height block
                       /\ Block.x b == Block.x block /\ Block.y b == Block.y block))
    by (unfold same_geometry, geometry_is; tauto).
  unfold handleResizeCompletion, getCurrentBlocks. rewrite Hp, Hr.
  cbv zeta. cbn [ResizeState.id ResizeState.startWidth ResizeState.startHeight
                 ResizeState.startX ResizeState.startY].
  rewrite Hfb.
  destruct (_ || _) eqn:E.
  - split; [|intros Hn; exfalso; apply Hn, Hnet; rewrite Hsame; apply Hspec; reflexivity].
    intros _. eexists. split.
    2:{ rewrite mementoManager_saveMementoAndReturn, updateCurrentPage_mementoManager.
        reflexivity. }
    assert (Hidb : Block.id b = i).
    { unfold find_block in Hfb. apply find_some in Hfb. now apply Z.eqb_eq. }
    rewrite Hidb.
    unfold restored. apply (Forall2_map_step _ _ _ _ _ _ _ HF). intros a0 b0 Hin0 Hab.
    rewrite (resized_at_id _ _ _ Hab). unfold resized_at in Hab.
    destruct (Z.eqb (Block.id a0) i) eqn:Ea.
    + apply Z.eqb_eq in Ea.
      assert (a0 = block) by (apply (NoDup_id_eq blocks0); auto; congruence).
      subst a0. split.
      * exact (same_block_trans _ _ _ Hab (same_block_with_geometry _ _ _ _ _)).
      * unfold same_geometry, geometry_is. cbn. rewrite !or_zero_eq.
        repeat split; reflexivity.
    + subst b0. split; [apply same_block_refl | apply same_geometry_refl].
  - split; [|intros _; exact Hmm].
    intros Hn. apply Hnet in Hn. rewrite Hsame in Hn. apply Hspec in Hn. discriminate.
Qed.

Lemma find_original_record (blocks0 sel : list Block.t) (b0 : Block.t)
    (o : OriginalBlockState.t) :
  NoDup (map Block.id blocks0) ->
  incl sel blocks0 ->
  In b0 blocks0 ->
  find_original
    (map (fun block => OriginalBlockState.mk (Block.id block) (Block.x block)
                         (Block.y block) (Block.width block) (Block.height block)) sel)
    (Block.id b0) = Some o ->
  o = OriginalBlockState.mk (Block.id b0) (Block.x b0) (Block.y b0)
        (Block.width b0) (Block.height b0).
Proof.
  intros Hnd Hincl Hin Hf. unfold find_original in Hf. apply find_some in Hf.
  destruct Hf as [Ho Hid]. apply in_map_iff in Ho. destruct Ho as (s & <- & Hs).
  cbn in Hid. apply Z.eqb_eq in Hid.
  now rewrite (NoDup_id_eq blocks0 s b0 Hnd (Hincl _ Hs) Hin Hid).
Qed.

Lemma group_commit (st newState : State.t) (page : Page.t) (blocks0 sel : list Block.t)
    (h : ResizeString.t) (sw sh sx sy : Q) :
  getCurrentPage st = Some page ->
  State.mementoManager newState = State.mementoManager st ->
  NoDup (map Block.id blocks0) ->
  incl sel blocks0 ->
  Page.dragStart page = None ->
  Page.resizing page
  = Some (ResizeState.mk SelectionBoundingBox h sw sh sx sy
            (Some (map (fun block =>
                          OriginalBlockState.mk (Block.id block) (Block.x block)
                            (Block.y block) (Block.width block) (Block.height block))
                       sel))) ->
  Forall2 (resized_in
             (map (fun block =>
                     OriginalBlockState.mk (Block.id block) (Block.x block)
                       (Block.y block) (Block.width block) (Block.height block))
                  sel))
          blocks0 (Page.blocks page) ->
  (net_change blocks0 page ->
   exists blocks',
     restored blocks0 blocks'
     /\ State.mementoManager (handleResizeCompletion st newState)
        = push_memento (State.mementoManager st)
            (createMemento (updateCurrentPage st [blocks_ blocks'])))
  /\ (~ net_change blocks0 page ->
      State.mementoManager (handleResizeCompletion st newState) = State.mementoManager st).
Proof.
  intros Hp Hmm Hnd Hincl Hd Hr HF.
  set (obs := map _ sel) in *.
  assert (Hnet : net_change blocks0 page
                 <-> existsb (original_changed (Page.blocks page)) obs = true).
  { unfold net_change.
    assert (Hg : resizing_group page = true)
      by (unfold resizing_group; now rewrite Hd, Hr).
    rewrite Hg, existsb_exists. split.
    - intros (b0 & b & Hin0 & Hf0 & Hc).
      destruct (Forall2_find_block _ _ _ b0 HF (resized_in_id _) Hnd Hin0)
        as (b' & Hf' & Hb').
      rewrite Hf0 in Hf'. injection Hf' as <-.
      unfold resized_in in Hb'.
      destruct (find_original obs (Block.id b0)) as [o|] eqn:Eo;
        [|subst b; exfalso; exact (differs_over_diag _ Hc)].
      pose proof (find_original_record blocks0 sel b0 o Hnd Hincl Hin0 Eo) as ->.
      unfold find_original in Eo. apply find_some in Eo.
      eexists. split; [exact (proj1 Eo)|].
      apply original_changed_spec. exists b. split; [exact Hf0 | exact Hc].
    - intros (o & Ho & Hch). apply original_changed_spec in Hch.
      destruct Hch as (b & Hfb & Hc).
      subst obs. apply in_map_iff in Ho. destruct Ho as (s & <- & Hs). cbn in *.
      exists s, b. split; [now apply Hincl|]. split; [exact Hfb | exact Hc]. }
  unfold handleResizeCompletion, getCurrentBlocks. rewrite Hp, Hr.
  cbv zeta. cbn [ResizeState.id ResizeState.originalBlocks]. fold obs.
  destruct (existsb (original_changed (Page.blocks page)) obs) eqn:E.
  - split; [|intros Hn; exfalso; apply Hn, Hnet; reflexivity].
    intros _. eexists. split.
    2:{ rewrite mementoManager_saveMementoAndReturn, updateCurrentPage_mementoManager.
        reflexivity. }
    unfold restored. apply (Forall2_map_step _ _ _ _ _ _ _ HF). intros a b Hin0 Hab.
    rewrite (resized_in_id _ _ _ Hab). unfold resized_in in Hab.
    destruct (find_original obs (Block.id a)) as [o|] eqn:Eo.
    + pose proof (find_original_record blocks0 sel a o Hnd Hincl Hin0 Eo) as ->.
      split.
      * exact (same_block_trans _ _ _ Hab (same_block_with_geometry _ _ _ _ _)).
      * unfold same_geometry, geometry_is. cbn. repeat split; reflexivity.
    + subst b. split; [apply same_block_refl | apply same_geometry_refl].
  - split; [|intros _; exact Hmm].
    intros Hn. apply Hnet in Hn. discriminate.
Qed.

Lemma onpointerup_commit (st : State.t) (page1 page : Page.t) (blocks0 : list Block.t) :
  getCurrentPage st = Some page ->
  records_kept page1 page ->
  moved_blocks page1 (Page.blocks page) ->
  Page.blocks page1 = blocks0 ->
  NoDup (map Block.id blocks0) ->
  down_shape blocks0 page1 ->
  (net_change blocks0 page ->
   exists blocks',
     restored blocks0 blocks'
     /\ State.mementoManager (onpointerup st)
        = push_memento (State.mementoManager st)
            (createMemento (updateCurrentPage st [blocks_ blocks'])))
  /\ (~ net_change blocks0 page ->
      State.mementoManager (onpointerup st) = State.mementoManager st).
Proof.
  intros Hp (K1 & K2 & K3) Hm Hb Hnd Hshape. unfold onpointerup. rewrite Hp.
  match goal with
  | |- context [handleDragCompletion st ?ns] => set (newState := ns)
  end.
  assert (Hmm : State.mementoManager newState = State.mementoManager st).
  { subst newState. destruct (Page.selectionBox page); unfold handleSelectionBoxComplete;
      now rewrite ?updateCurrentPage_mementoManager. }
  unfold moved_blocks in Hm. rewrite Hb in Hm.
  destruct Hshape
    as [(Hd & Hr) | [(Hr & ref & Hin & Hsel & Hd)
                    | [(Hd & i & h & block & Hf & Hr)
                      | (Hd & h & sw & sh & sx & sy & sel & Hincl & Hr)]]];
    rewrite Hd in K1; rewrite Hr in K2; rewrite Hr in Hm; try rewrite Hd in Hm;
    rewrite K1, K2; cbn [is_some]; cbn [ResizeState.id ResizeState.originalBlocks] in Hm.
  - split; [|intros _; exact Hmm].
    intros Hn. exfalso. exact (unchanged_no_net_change blocks0 page Hnd Hm Hn).
  - destruct Hm as (dx & dy & HF). rewrite <- K3 in HF, Hsel.
    now apply (drag_commit st newState page blocks0 ref dx dy).
  - now apply (single_commit st newState page blocks0 i h block).
  - now apply (group_commit st newState page blocks0 sel h sw sh sx sy).
Qed.

Lemma find_map_same (A : Type) (f : A -> bool) (g : A -> A) (l : list A) :
  (forall a, f (g a) = f a) ->
  find f (map g l) = option_map g (find f l).
Proof.
  intros H. induction l as [|a l IH]; [reflexivity|].
  cbn. rewrite H. destruct (f a); [reflexivity | exact IH].
Qed.


(** *** The whole gesture *)

Lemma gesture_up (st0 : State.t) (page0 : Page.t) (target : PointerTarget)
    (event : PointerEvent) (canvasRect : DOMRect)
    (moves : list (PointerEvent * DOMRect)) :
  getCurrentPage st0 = Some page0 ->
  gesture_count page0 = 0%nat ->
  NoDup (map Block.id (Page.blocks page0)) ->
  rendered st0 target ->
  exists page,
    getCurrentPage (run_pointer (gesture target event canvasRect moves) st0) = Some page
    /\ (moves = [] -> Page.blocks page = Page.blocks page0)
    /\ (net_change (Page.blocks page0) page ->
        exists blocks',
          restored (Page.blocks page0) blocks'
          /\ State.mementoManager
               (onpointerup (run_pointer (gesture target event canvasRect moves) st0))
             = push_memento (State.mementoManager st0)
                 (createMemento
                    (updateCurrentPage
                       (run_pointer (gesture target event canvasRect moves) st0)
                       [blocks_ blocks'])))
    /\ (~ net_change (Page.blocks page0) page ->
        State.mementoManager
          (onpointerup (run_pointer (gesture target event canvasRect moves) st0))
        = State.mementoManager st0).
Proof.
  intros Hp Hg Hnd Hrend.
  destruct (pointerdown_page target st0 event canvasRect page0 Hp Hg Hrend)
    as (page1 & Hp1 & Hb1 & Hshape).
  assert (Hmov1 : moving page1 (pointerdown target st0 event canvasRect)).
  { exists page1. split; [exact Hp1|]. split; [repeat split | apply moved_blocks_refl]. }
  pose proof (moving_moves page1 moves _ Hmov1) as (page & Hpg & Hk & Hm).
  unfold run_pointer, gesture. cbn [fold_left pointer_step].
  set (st := fold_left pointer_step _ (pointerdown target st0 event canvasRect)) in *.
  exists page. split; [exact Hpg|]. split.
  { intros ->. subst st. cbn in Hpg. rewrite Hp1 in Hpg. injection Hpg as <-. exact Hb1. }
  assert (Hmm0 : State.mementoManager st = State.mementoManager st0).
  { subst st. rewrite moves_mementoManager. apply pointerdown_mementoManager. }
  rewrite <- Hmm0.
  now apply (onpointerup_commit st page1 page (Page.blocks page0)).
Qed.





(** * Further properties of the sources *)

(** ** Undo right after a commit *)

Lemma saveMementoAndReturn_top (prevState newState : State.t) :
  (0 <= MementoManager.maxHistorySize (State.mementoManager prevState))%Z ->
  exists l,
    MementoManager.undoStack
      (State.mementoManager (saveMementoAndReturn prevState newState))
    = l ++ [createMemento prevState].
Proof.
  intros Hmax. rewrite saveMementoAndReturn_undoStack, slice_from.
  set (u := MementoManager.undoStack (State.mementoManager prevState)).
  set (k := Z.to_nat _).
  assert (Hk : (k <= length u)%nat).
  { subst k. rewrite length_app. cbn [length]. unfold rel_index.
    destruct (_ <? 0)%Z eqn:E; [apply Z.ltb_lt in E|apply Z.ltb_ge in E]; lia. }
  exists (skipn k u). rewrite skipn_app.
  replace (k - length u)%nat with 0%nat by lia. reflexivity.
Qed.

Lemma commit_then_undo_pages (prevState newState : State.t) :
  (0 <= MementoManager.maxHistorySize (State.mementoManager prevState))%Z ->
  State.pages (undoState (saveMementoAndReturn prevState newState))
  = cleanPages (State.pages prevState)
  /\ State.currentPageId (undoState (saveMementoAndReturn prevState newState))
     = State.currentPageId prevState
  /\ State.pages (redoState (undoState (saveMementoAndReturn prevState newState)))
     = cleanPages (State.pages newState)
  /\ State.currentPageId
       (redoState (undoState (saveMementoAndReturn prevState newState)))
     = State.currentPageId newState.
Proof.
  intros Hmax. destruct (saveMementoAndReturn_top prevState newState Hmax) as [l Hl].
  rewrite (undoState_push _ _ _ Hl).
  set (st := saveMementoAndReturn prevState newState) in *.
  set (st1 := restore st _ _ _).
  assert (Hr : MementoManager.redoStack (State.mementoManager st1)
               = [] ++ [createMemento st]).
  { subst st1. unfold st at 2. rewrite saveMementoAndReturn_redoStack.
    destruct st. reflexivity. }
  rewrite (redoState_push _ _ _ Hr).
  assert (Hp : Memento.pages (createMemento st) = cleanPages (State.pages newState)
               /\ Memento.currentPageId (createMemento st) = State.currentPageId newState).
  { subst st. destruct newState. split; reflexivity. }
  destruct Hp as [Hp1 Hp2].
  subst st1. destruct st. cbn in *. auto.
Qed.

(** X1.  With a history size that is not negative, an undo right after a
    commit gives the pages of the commit's [prevState], selection and
    gesture fields reset, and its [currentPageId]; a redo right after that
    gives the pages of the committed state, reset the same way. *)
Theorem undo_after_commit (prevState newState : State.t) :
  (0 <= MementoManager.maxHistorySize (State.mementoManager prevState))%Z ->
  State.pages (undoState (saveMementoAndReturn prevState newState))
  = cleanPages (State.pages prevState)
  /\ State.currentPageId (undoState (saveMementoAndReturn prevState newState))
     = State.currentPageId prevState
  /\ State.pages (redoState (undoState (saveMementoAndReturn prevState newState)))
     = cleanPages (State.pages newState)
  /\ State.currentPageId
       (redoState (undoState (saveMementoAndReturn prevState newState)))
     = State.currentPageId newState.
Proof. exact (commit_then_undo_pages prevState newState). Qed.

Lemma undo_after_commit_witness :
  State.pages (undoState (saveMementoAndReturn state_selected state1))
  = cleanPages (State.pages state_selected)
  /\ State.currentPageId (undoState (saveMementoAndReturn state_selected state1))
     = State.currentPageId state_selected
  /\ State.pages (redoState (undoState (saveMementoAndReturn state_selected state1)))
     = cleanPages (State.pages state1)
  /\ State.currentPageId
       (redoState (undoState (saveMementoAndReturn state_selected state1)))
     = State.currentPageId state1.
Proof.
  refine (undo_after_commit state_selected state1 _). cbn. discriminate.
Defined.

(** ** Pages *)

Lemma find_filter_some (A : Type) (f g : A -> bool) (l : list A) (a : A) :
  In a l -> f a = true -> g a = true -> find f (filter g l) <> None.
Proof.
  intros Hin Hf Hg Hnone.
  assert (Hin' : In a (filter g l)) by (apply filter_In; auto).
  pose proof (find_none _ _ Hnone a Hin') as H. congruence.
Qed.

Lemma restore_pages (st : State.t) (ps : list Page.t) (cp : string)
    (mm : MementoManager.t) :
  State.pages (restore st ps cp mm) = ps
  /\ State.currentPageId (restore st ps cp mm) = cp
  /\ State.mementoManager (restore st ps cp mm) = mm.
Proof. destruct st. cbn. auto. Qed.

(** X2.  [switchPage] never touches the pages or the history.  Given an id
    that no page has it returns the state as it is; otherwise that id
    becomes [currentPageId].  A state with a current page still has one
    afterwards. *)
Theorem switchPage_current (st : State.t) (pageId : string) :
  has_current st ->
  has_current (switchPage st pageId)
  /\ State.pages (switchPage st pageId) = State.pages st
  /\ State.mementoManager (switchPage st pageId) = State.mementoManager st
  /\ (if existsb (fun page => String.eqb (Page.id page) pageId) (State.pages st)
      then State.currentPageId (switchPage st pageId) = pageId
      else switchPage st pageId = st).
Proof.
  intros Hcur. unfold switchPage.
  destruct (find (fun page => String.eqb (Page.id page) pageId) (State.pages st))
    as [p|] eqn:Hf.
  - assert (Hex : existsb (fun page => String.eqb (Page.id page) pageId) (State.pages st)
                  = true).
    { apply existsb_exists. apply find_some in Hf. exists p. exact Hf. }
    rewrite Hex. unfold with_currentPageId.
    destruct (restore_pages st (State.pages st) pageId (State.mementoManager st))
      as [H1 [H2 H3]].
    repeat split; try assumption.
    unfold has_current, getCurrentPage. rewrite H1, H2, Hf. discriminate.
  - assert (Hex : existsb (fun page => String.eqb (Page.id page) pageId) (State.pages st)
                  = false).
    { apply not_true_iff_false. intros H. apply existsb_exists in H.
      destruct H as [p [Hin Hp]]. pose proof (find_none _ _ Hf p Hin). congruence. }
    rewrite Hex. auto.
Qed.

Lemma switchPage_current_witness :
  has_current (switchPage state1 "p2")
  /\ State.pages (switchPage state1 "p2") = State.pages state1
  /\ State.mementoManager (switchPage state1 "p2") = State.mementoManager state1
  /\ (if existsb (fun page => String.eqb (Page.id page) "p2") (State.pages state1)
      then State.currentPageId (switchPage state1 "p2") = "p2"%string
      else switchPage state1 "p2" = state1).
Proof.
  refine (switchPage_current state1 "p2" _). cbn. discriminate.
Defined.

Lemma filter_other_nonempty (ps : list Page.t) (pageId : string) :
  NoDup (map Page.id ps) -> (1 < length ps)%nat ->
  filter (fun page => negb (String.eqb (Page.id page) pageId)) ps <> [].
Proof.
  intros Hnd Hlen. destruct ps as [|a [|b r]]; cbn in Hlen; try lia.
  cbn in Hnd. inversion Hnd as [|? ? Hnotin _]; subst.
  cbn [filter].
  destruct (String.eqb (Page.id a) pageId) eqn:Ea; cbn [negb]; [|discriminate].
  destruct (String.eqb (Page.id b) pageId) eqn:Eb; cbn [negb]; [|discriminate].
  apply String.eqb_eq in Ea, Eb. exfalso. apply Hnotin. left. congruence.
Qed.

(** X3.  On pages with distinct ids [deletePage] does not throw and leaves
    a current page.  With more than one page, the pages that remain are
    the pages of another id, in their order; with one page or none the
    state is returned as it is. *)
Theorem deletePage_current (st : State.t) (pageId : string) :
  NoDup (map Page.id (State.pages st)) ->
  has_current st ->
  exists st',
    deletePage st pageId = Some st'
    /\ has_current st'
    /\ (if (length (State.pages st) <=? 1)%nat then st' = st
        else State.pages st'
             = filter (fun page => negb (String.eqb (Page.id page) pageId))
                      (State.pages st)
             /\ (forall p, In p (State.pages st') -> Page.id p <> pageId)
             /\ State.mementoManager st'
                = push_memento (State.mementoManager st) (createMemento st)).
Proof.
  intros Hnd Hcur. unfold deletePage.
  destruct (length (State.pages st) <=? 1)%nat eqn:Hlen.
  { exists st. auto. }
  apply Nat.leb_gt in Hlen.
  set (updatedPages :=
         filter (fun page => negb (String.eqb (Page.id page) pageId)) (State.pages st)).
  assert (Hall : forall p, In p updatedPages -> Page.id p <> pageId).
  { intros p Hin. apply filter_In in Hin. destruct Hin as [_ H].
    apply negb_true_iff in H. now apply String.eqb_neq in H. }
  destruct (String.eqb (State.currentPageId st) pageId) eqn:Ecur.
  - pose proof (filter_other_nonempty _ pageId Hnd Hlen) as Hne. fold updatedPages in Hne.
    destruct updatedPages as [|first rest] eqn:Hup; [congruence|].
    eexists. split; [reflexivity|].
    destruct (restore_pages st (first :: rest) (Page.id first) (State.mementoManager st))
      as [H1 [H2 H3]].
    destruct (saveMementoAndReturn_pages st
                (restore st (first :: rest) (Page.id first) (State.mementoManager st)))
      as [H4 H5].
    split; [|split; [|split]].
    + unfold has_current. rewrite getCurrentPage_saveMementoAndReturn.
      unfold getCurrentPage. rewrite H1, H2. cbn. rewrite String.eqb_refl. discriminate.
    + now rewrite H4, H1.
    + rewrite H4, H1. exact Hall.
    + apply mementoManager_saveMementoAndReturn.
  - eexists. split; [reflexivity|].
    destruct (restore_pages st updatedPages (State.currentPageId st)
                (State.mementoManager st)) as [H1 [H2 H3]].
    destruct (saveMementoAndReturn_pages st
                (restore st updatedPages (State.currentPageId st)
                   (State.mementoManager st))) as [H4 H5].
    split; [|split; [|split]].
    + unfold has_current. rewrite getCurrentPage_saveMementoAndReturn.
      unfold getCurrentPage. rewrite H1, H2.
      unfold has_current, getCurrentPage in Hcur.
      destruct (find _ (State.pages st)) as [p|] eqn:Hf; [|congruence].
      apply find_some in Hf. destruct Hf as [Hin Hp].
      apply (find_filter_some _ _ _ _ p Hin Hp).
      apply negb_true_iff. apply String.eqb_neq. apply String.eqb_eq in Hp.
      apply String.eqb_neq in Ecur. congruence.
    + now rewrite H4, H1.
    + rewrite H4, H1. exact Hall.
    + apply mementoManager_saveMementoAndReturn.
Qed.

Lemma deletePage_current_witness :
  exists st',
    deletePage state1 "p1" = Some st'
    /\ has_current st'
    /\ (if (length (State.pages state1) <=? 1)%nat then st' = state1
        else State.pages st'
             = filter (fun page => negb (String.eqb (Page.id page) "p1"))
                      (State.pages state1)
             /\ (forall p, In p (State.pages st') -> Page.id p <> "p1"%string)
             /\ State.mementoManager st'
                = push_memento (State.mementoManager state1) (createMemento state1)).
Proof.
  refine (deletePage_current state1 "p1" _ _).
  - cbn. repeat constructor; cbn; intuition discriminate.
  - cbn. discriminate.
Defined.

Lemma find_app_none (A : Type) (f : A -> bool) (l : list A) (a : A) :
  (forall x, In x l -> f x = false) -> f a = true -> find f (l ++ [a]) = Some a.
Proof.
  intros Hl Ha. induction l as [|x l IH]; cbn.
  - now rewrite Ha.
  - rewrite (Hl x (or_introl eq_refl)). apply IH. intros y Hy. apply Hl. now right.
Qed.

(** X4.  [createPage] with an id that no page has yet appends the new page,
    a copy of the template with that id and the given name (["new page"]
    for a missing or empty one), makes it the current page, keeps the page
    ids distinct when they were, and takes one snapshot of the state it
    was called in. *)
Theorem createPage_current (defaultPage : Page.t) (uuid : string) (st : State.t)
    (name : option string) :
  (forall p, In p (State.pages st) -> Page.id p <> uuid) ->
  NoDup (map Page.id (State.pages st)) ->
  exists newPage,
    State.pages (createPage defaultPage uuid st name) = State.pages st ++ [newPage]
    /\ getCurrentPage (createPage defaultPage uuid st name) = Some newPage
    /\ Page.id newPage = uuid
    /\ Page.name newPage
       = match name with
         | Some nm => if String.eqb nm EmptyString then "new page"%string else nm
         | None => "new page"%string
         end
    /\ Page.blocks newPage = Page.blocks defaultPage
    /\ NoDup (map Page.id (State.pages (createPage defaultPage uuid st name)))
    /\ State.mementoManager (createPage defaultPage uuid st name)
       = push_memento (State.mementoManager st) (createMemento st).
Proof.
  intros Hfresh Hnd. unfold createPage.
  set (nm := match name with
             | Some nm => if String.eqb nm EmptyString then "new page"%string else nm
             | None => "new page"%string
             end).
  set (newPage := spread defaultPage [id_ uuid; name_ nm; state_ "{}"]).
  assert (Hid : Page.id newPage = uuid) by (subst newPage; destruct defaultPage; reflexivity).
  exists newPage.
  destruct (restore_pages st (State.pages st ++ [newPage]) (Page.id newPage)
              (State.mementoManager st)) as [H1 [H2 H3]].
  destruct (saveMementoAndReturn_pages st
              (restore st (State.pages st ++ [newPage]) (Page.id newPage)
                 (State.mementoManager st))) as [H4 H5].
  split; [now rewrite H4, H1|]. split.
  { rewrite getCurrentPage_saveMementoAndReturn. unfold getCurrentPage.
    rewrite H1, H2. apply find_app_none.
    - intros p Hin. apply String.eqb_neq. rewrite Hid. now apply Hfresh.
    - apply String.eqb_refl. }
  split; [exact Hid|].
  split; [subst newPage; destruct defaultPage; reflexivity|].
  split; [subst newPage; destruct defaultPage; reflexivity|].
  split; [|apply mementoManager_saveMementoAndReturn].
  rewrite H4, H1, map_app. cbn [map]. rewrite Hid.
  apply NoDup_app; [exact Hnd | repeat constructor; intros [] |].
  intros i Hin [<-|[]]. apply in_map_iff in Hin. destruct Hin as [p [Hp Hin]].
  exact (Hfresh p Hin Hp).
Qed.

Lemma createPage_current_witness :
  exists newPage,
    State.pages (createPage page1 "p3" state1 None) = State.pages state1 ++ [newPage]
    /\ getCurrentPage (createPage page1 "p3" state1 None) = Some newPage
    /\ Page.id newPage = "p3"%string
    /\ Page.name newPage = "new page"%string
    /\ Page.blocks newPage = Page.blocks page1
    /\ NoDup (map Page.id (State.pages (createPage page1 "p3" state1 None)))
    /\ State.mementoManager (createPage page1 "p3" state1 None)
       = push_memento (State.mementoManager state1) (createMemento state1).
Proof.
  refine (createPage_current page1 "p3" state1 None _ _).
  - cbn. intros p [<-|[<-|[]]]; discriminate.
  - cbn. repeat constructor; cbn; intuition discriminate.
Defined.

(** ** Z-order *)

Lemma fold_max_ge (l : list Z) (z : Z) :
  (z <= fold_left Z.max l z)%Z /\ forall x, In x l -> (x <= fold_left Z.max l z)%Z.
Proof.
  revert z. induction l as [|a l IH]; intros z; cbn; [split; [lia | intros x []]|].
  destruct (IH (Z.max z a)) as [H1 H2]. split; [lia|].
  intros x [->|Hin]; [lia | auto].
Qed.

Lemma fold_min_le (l : list Z) (z : Z) :
  (fold_left Z.min l z <= z)%Z /\ forall x, In x l -> (fold_left Z.min l z <= x)%Z.
Proof.
  revert z. induction l as [|a l IH]; intros z; cbn; [split; [lia | intros x []]|].
  destruct (IH (Z.min z a)) as [H1 H2]. split; [lia|].
  intros x [->|Hin]; [lia | auto].
Qed.

Lemma Math_max_ge (l : list Z) (m : Z) :
  Math_max l = Some m -> forall x, In x l -> (x <= m)%Z.
Proof.
  destruct l as [|z r]; [discriminate|]. cbn. intros [= <-] x [->|Hin];
    [exact (proj1 (fold_max_ge r x)) | exact (proj2 (fold_max_ge r z) x Hin)].
Qed.

Lemma Math_min_le (l : list Z) (m : Z) :
  Math_min l = Some m -> forall x, In x l -> (m <= x)%Z.
Proof.
  destruct l as [|z r]; [discriminate|]. cbn. intros [= <-] x [->|Hin];
    [exact (proj1 (fold_min_le r x)) | exact (proj2 (fold_min_le r z) x Hin)].
Qed.


Lemma getCurrentPage_blocks_update (st : State.t) (page : Page.t) (bs : list Block.t) :
  getCurrentPage st = Some page ->
  getCurrentPage (updateCurrentPage st [blocks_ bs]) = Some (spread page [blocks_ bs]).
Proof. intros Hp. rewrite getCurrentPage_update by reflexivity. now rewrite Hp. Qed.

(** X5.  [sendToFront] of an id that no block of the current page has
    returns the state as it is.  Otherwise every block of that id gets a
    z-index above the z-index every block of the page had, the other blocks
    and every position and size stay as they were, and one snapshot of the
    state before is taken. *)
Theorem sendToFront_top (st : State.t) (blockId : Z) (page : Page.t) :
  getCurrentPage st = Some page ->
  match find_block (Page.blocks page) blockId with
  | None => sendToFront st blockId = st
  | Some _ =>
      exists z,
        (forall o, In o (Page.blocks page) -> (Block.zIndex o < z)%Z)
        /\ getCurrentBlocks (sendToFront st blockId)
           = map (fun b => if Z.eqb (Block.id b) blockId then with_zIndex b z else b)
                 (Page.blocks page)
        /\ State.mementoManager (sendToFront st blockId)
           = push_memento (State.mementoManager st) (createMemento st)
  end.
Proof.
  intros Hp. unfold sendToFront. rewrite (getCurrentBlocks_Some _ _ Hp).
  destruct (find_block (Page.blocks page) blockId) as [b|] eqn:Hf; [|reflexivity].
  destruct (Math_max (map Block.zIndex (Page.blocks page))) as [m|] eqn:Hm.
  - exists (m + 1)%Z. split; [|split].
    + intros o Hin.
      pose proof (Math_max_ge _ _ Hm (Block.zIndex o) (in_map _ _ _ Hin)). lia.
    + unfold getCurrentBlocks. rewrite getCurrentPage_saveMementoAndReturn.
      rewrite (getCurrentPage_blocks_update _ _ _ Hp). destruct page. reflexivity.
    + apply mementoManager_saveMementoAndReturn.
  - apply find_block_In in Hf. destruct Hf as [Hin _].
    destruct (Page.blocks page); [contradiction | discriminate].
Qed.

Lemma sendToFront_top_witness :
  match find_block (Page.blocks page1) 1 with
  | None => sendToFront state1 1 = state1
  | Some _ =>
      exists z,
        (forall o, In o (Page.blocks page1) -> (Block.zIndex o < z)%Z)
        /\ getCurrentBlocks (sendToFront state1 1)
           = map (fun b => if Z.eqb (Block.id b) 1 then with_zIndex b z else b)
                 (Page.blocks page1)
        /\ State.mementoManager (sendToFront state1 1)
           = push_memento (State.mementoManager state1) (createMemento state1)
  end.
Proof. exact (sendToFront_top state1 1 page1 eq_refl). Defined.

(** X6.  [sendToBack] likewise: nothing happens for an id the page does not
    have; otherwise every block of that id gets a z-index below the z-index
    every block of the page had, and nothing else changes. *)
Theorem sendToBack_bottom (st : State.t) (blockId : Z) (page : Page.t) :
  getCurrentPage st = Some page ->
  match find_block (Page.blocks page) blockId with
  | None => sendToBack st blockId = st
  | Some _ =>
      exists z,
        (forall o, In o (Page.blocks page) -> (z < Block.zIndex o)%Z)
        /\ getCurrentBlocks (sendToBack st blockId)
           = map (fun b => if Z.eqb (Block.id b) blockId then with_zIndex b z else b)
                 (Page.blocks page)
        /\ State.mementoManager (sendToBack st blockId)
           = push_memento (State.mementoManager st) (createMemento st)
  end.
Proof.
  intros Hp. unfold sendToBack. rewrite (getCurrentBlocks_Some _ _ Hp).
  destruct (find_block (Page.blocks page) blockId) as [b|] eqn:Hf; [|reflexivity].
  destruct (Math_min (map Block.zIndex (Page.blocks page))) as [m|] eqn:Hm.
  - exists (m - 1)%Z. split; [|split].
    + intros o Hin.
      pose proof (Math_min_le _ _ Hm (Block.zIndex o) (in_map _ _ _ Hin)). lia.
    + unfold getCurrentBlocks. rewrite getCurrentPage_saveMementoAndReturn.
      rewrite (getCurrentPage_blocks_update _ _ _ Hp). destruct page. reflexivity.
    + apply mementoManager_saveMementoAndReturn.
  - apply find_block_In in Hf. destruct Hf as [Hin _].
    destruct (Page.blocks page); [contradiction | discriminate].
Qed.

Lemma sendToBack_bottom_witness :
  match find_block (Page.blocks page1) 2 with
  | None => sendToBack state1 2 = state1
  | Some _ =>
      exists z,
        (forall o, In o (Page.blocks page1) -> (z < Block.zIndex o)%Z)
        /\ getCurrentBlocks (sendToBack state1 2)
           = map (fun b => if Z.eqb (Block.id b) 2 then with_zIndex b z else b)
                 (Page.blocks page1)
        /\ State.mementoManager (sendToBack state1 2)
           = push_memento (State.mementoManager state1) (createMemento state1)
  end.
Proof. exact (sendToBack_bottom state1 2 page1 eq_refl). Defined.

(** ** New blocks *)

Lemma Math_max_0_ge (l : list Z) :
  (0 <= Math_max_0 l)%Z /\ forall x, In x l -> (x <= Math_max_0 l)%Z.
Proof. apply fold_max_ge. Qed.

(** X7.  On a state with a current page, [addBlock] appends one block to it,
    with an id and a z-index above those of every block of every page (and
    at least 1), the given size, and the given position or, for [null],
    the centre of the viewport less half the size; the new block becomes
    the whole selection, edit mode ends, and one snapshot of the state
    before is taken. *)
Theorem addBlock_fresh (window : Window) (st : State.t) (imageSrc pageSrc : string)
    (x y : option Q) (width height : Q) (page : Page.t) :
  getCurrentPage st = Some page ->
  exists newBlock page',
    getCurrentPage (addBlock window st imageSrc pageSrc x y width height) = Some page'
    /\ Page.blocks page' = Page.blocks page ++ [newBlock]
    /\ (forall b, In b (getGlobalBlocks st) ->
                  (Block.id b < Block.id newBlock)%Z
                  /\ (Block.zIndex b < Block.zIndex newBlock)%Z)
    /\ (1 <= Block.id newBlock)%Z
    /\ Block.width newBlock = width /\ Block.height newBlock = height
    /\ Block.x newBlock
       = match x with
         | Some v => v
         | None => fst (getViewportCenterCoordinates window st) - width / 2
         end
    /\ Block.y newBlock
       = match y with
         | Some v => v
         | None => snd (getViewportCenterCoordinates window st) - height / 2
         end
    /\ Page.selectedIds page' = [Block.id newBlock]
    /\ Page.editingId page' = None
    /\ State.mementoManager (addBlock window st imageSrc pageSrc x y width height)
       = push_memento (State.mementoManager st) (createMemento st).
Proof.
  intros Hp. unfold addBlock. rewrite Hp.
  eexists. eexists. split.
  { rewrite getCurrentPage_saveMementoAndReturn. unfold selectBlock.
    page_after Hp. reflexivity. }
  rewrite (getCurrentBlocks_Some _ _ Hp).
  split; [destruct page; reflexivity|].
  split.
  { intros b Hin. cbn.
    pose proof (proj2 (Math_max_0_ge (map Block.id (getGlobalBlocks st)))
                  (Block.id b) (in_map _ _ _ Hin)).
    pose proof (proj2 (Math_max_0_ge (map Block.zIndex (getGlobalBlocks st)))
                  (Block.zIndex b) (in_map _ _ _ Hin)).
    lia. }
  split.
  { cbn. pose proof (proj1 (Math_max_0_ge (map Block.id (getGlobalBlocks st)))). lia. }
  repeat (split; [try reflexivity; destruct page; reflexivity|]).
  apply mementoManager_saveMementoAndReturn.
Qed.

Lemma addBlock_fresh_witness :
  exists newBlock page',
    getCurrentPage (addBlock (mkWindow 1000 800) state1 "n.png" "N" None (Some 5) 200 200)
    = Some page'
    /\ Page.blocks page' = Page.blocks page1 ++ [newBlock]
    /\ (forall b, In b (getGlobalBlocks state1) ->
                  (Block.id b < Block.id newBlock)%Z
                  /\ (Block.zIndex b < Block.zIndex newBlock)%Z)
    /\ (1 <= Block.id newBlock)%Z
    /\ Block.width newBlock = 200 /\ Block.height newBlock = 200
    /\ Block.x newBlock
       = fst (getViewportCenterCoordinates (mkWindow 1000 800) state1) - 200 / 2
    /\ Block.y newBlock = 5
    /\ Page.selectedIds page' = [Block.id newBlock]
    /\ Page.editingId page' = None
    /\ State.mementoManager
         (addBlock (mkWindow 1000 800) state1 "n.png" "N" None (Some 5) 200 200)
       = push_memento (State.mementoManager state1) (createMemento state1).
Proof.
  exact (addBlock_fresh (mkWindow 1000 800) state1 "n.png" "N" None (Some 5) 200 200
           page1 eq_refl).
Defined.

Lemma updateCurrentPage_pages (st : State.t) (d : PageData) :
  State.pages (updateCurrentPage st d)
  = map (fun p => if String.eqb (Page.id p) (State.currentPageId st)
                  then spread p d else p)
        (State.pages st).
Proof. destruct st. reflexivity. Qed.

Lemma map_if_false (A : Type) (f : A -> bool) (g : A -> A) (l : list A) :
  (forall a, In a l -> f a = false) ->
  map (fun a => if f a then g a else a) l = l.
Proof.
  intros H. induction l as [|a l IH]; [reflexivity|].
  cbn. rewrite (H a (or_introl eq_refl)). f_equal. apply IH.
  intros b Hb. apply H. now right.
Qed.

Lemma flat_map_blocks_append (ps : list Page.t) (cp : string) (page : Page.t)
    (g : Page.t -> Page.t) (nb : Block.t) :
  NoDup (map Page.id ps) ->
  find (fun p => String.eqb (Page.id p) cp) ps = Some page ->
  (forall p, Page.blocks (g p) = Page.blocks p ++ [nb]) ->
  Permutation
    (flat_map Page.blocks
       (map (fun p => if String.eqb (Page.id p) cp then g p else p) ps))
    (nb :: flat_map Page.blocks ps).
Proof.
  intros Hnd Hf Hg. induction ps as [|a r IH]; [discriminate|].
  cbn in Hnd. inversion Hnd as [|? ? Hnotin Hnd']; subst.
  cbn in Hf |- *. destruct (String.eqb (Page.id a) cp) eqn:E.
  - apply String.eqb_eq in E.
    rewrite map_if_false.
    + rewrite Hg, <- app_assoc. cbn.
      apply Permutation_sym. apply Permutation_middle.
    + intros p Hin. apply String.eqb_neq. intros Hp. apply Hnotin.
      rewrite E, <- Hp. now apply in_map.
  - specialize (IH Hnd' Hf).
    rewrite (Permutation_app_head _ IH).
    apply Permutation_sym. apply Permutation_middle.
Qed.

Lemma flat_map_blocks_same (ps : list Page.t) (f : Page.t -> bool)
    (g : Page.t -> Page.t) :
  (forall p, Page.blocks (g p) = Page.blocks p) ->
  flat_map Page.blocks (map (fun p => if f p then g p else p) ps)
  = flat_map Page.blocks ps.
Proof.
  intros Hg. induction ps as [|a r IH]; [reflexivity|].
  cbn. rewrite IH. destruct (f a); [now rewrite Hg | reflexivity].
Qed.

(** X8.  On pages with distinct ids, [addBlock] keeps the block ids of all
    pages together distinct. *)
Theorem addBlock_ids_distinct (window : Window) (st : State.t)
    (imageSrc pageSrc : string) (x y : option Q) (width height : Q) :
  NoDup (map Page.id (State.pages st)) ->
  NoDup (map Block.id (getGlobalBlocks st)) ->
  NoDup (map Block.id
           (getGlobalBlocks (addBlock window st imageSrc pageSrc x y width height))).
Proof.
  intros Hpages Hblocks. unfold addBlock.
  destruct (getCurrentPage st) as [page|] eqn:Hp; [|exact Hblocks].
  set (nb := Block.mk _ _ _ _ _ _ _ _).
  unfold getGlobalBlocks.
  rewrite (proj1 (saveMementoAndReturn_pages _ _)).
  unfold selectBlock. rewrite updateCurrentPage_pages, updateCurrentPage_currentPageId.
  rewrite flat_map_blocks_same by (intros p; destruct p; reflexivity).
  rewrite updateCurrentPage_pages.
  assert (Hperm : Permutation
            (flat_map Page.blocks
               (map (fun p => if String.eqb (Page.id p) (State.currentPageId st)
                              then spread p [blocks_ (getCurrentBlocks st ++ [nb])]
                              else p)
                    (State.pages st)))
            (nb :: flat_map Page.blocks (State.pages st))).
  { unfold getCurrentPage in Hp.
    assert (Heq : map (fun p => if String.eqb (Page.id p) (State.currentPageId st)
                                then spread p [blocks_ (getCurrentBlocks st ++ [nb])]
                                else p) (State.pages st)
                  = map (fun p => if String.eqb (Page.id p) (State.currentPageId st)
                                  then spread p [blocks_ (Page.blocks p ++ [nb])]
                                  else p) (State.pages st)).
    { apply map_ext_in. intros p Hin.
      destruct (String.eqb (Page.id p) (State.currentPageId st)) eqn:E; [|reflexivity].
      assert (p = page).
      { clear - Hpages Hp Hin E. induction (State.pages st) as [|a r IH]; [contradiction|].
        cbn in Hpages. inversion Hpages as [|? ? Hnotin Hnd']; subst.
        cbn in Hp. destruct (String.eqb (Page.id a) (State.currentPageId st)) eqn:Ea.
        - injection Hp as <-. destruct Hin as [->|Hin]; [reflexivity|].
          exfalso. apply Hnotin. apply String.eqb_eq in E, Ea. rewrite Ea, <- E.
          now apply in_map.
        - destruct Hin as [->|Hin]; [congruence | now apply IH]. }
      subst p. unfold getCurrentBlocks, getCurrentPage. now rewrite Hp. }
    rewrite Heq.
    apply (flat_map_blocks_append _ _ page
             (fun p => spread p [blocks_ (Page.blocks p ++ [nb])]) nb Hpages Hp).
    intros p. destruct p. reflexivity. }
  apply (Permutation_NoDup (l := map Block.id (nb :: flat_map Page.blocks (State.pages st)))).
  { apply Permutation_map. now apply Permutation_sym. }
  cbn [map]. constructor; [|exact Hblocks].
  intros Hin. apply in_map_iff in Hin. destruct Hin as [b [Hid Hb]].
  subst nb. cbn in Hid.
  pose proof (proj2 (Math_max_0_ge (map Block.id (getGlobalBlocks st)))
                (Block.id b) (in_map _ _ _ Hb)).
  unfold getGlobalBlocks in *. lia.
Qed.

Lemma addBlock_ids_distinct_witness :
  NoDup (map Block.id
           (getGlobalBlocks
              (addBlock (mkWindow 1000 800) state10_ids "n.png" "N" None None 200 200))).
Proof.
  refine (addBlock_ids_distinct (mkWindow 1000 800) state10_ids "n.png" "N" None None
            200 200 _ _).
  - cbn. repeat constructor; cbn; intuition discriminate.
  - cbn. repeat constructor; cbn; intuition discriminate.
Defined.

(** ** Selection *)

Lemma includes_app (l1 l2 : list Z) (i : Z) :
  includes (l1 ++ l2) i = includes l1 i || includes l2 i.
Proof. unfold includes. apply existsb_app. Qed.

Lemma includes_filter_neq (l : list Z) (i j : Z) :
  includes (filter (fun k => negb (Z.eqb k i)) l) j
  = includes l j && negb (Z.eqb j i).
Proof.
  apply eq_iff_eq_true.
  rewrite andb_true_iff, !includes_In, filter_In, negb_true_iff. reflexivity.
Qed.

Lemma isBlockSelected_Some (st : State.t) (page : Page.t) (i : Z) :
  getCurrentPage st = Some page -> isBlockSelected st i = includes (Page.selectedIds page) i.
Proof. unfold isBlockSelected. now intros ->. Qed.

(** X9.  On a state with a current page, [toggleBlockSelection] flips
    whether the block is selected, leaves every other id selected or not as
    it was, and touches neither the blocks nor the history. *)
Theorem toggleBlockSelection_flips (st : State.t) (blockId : Z) (page : Page.t) :
  getCurrentPage st = Some page ->
  isBlockSelected (toggleBlockSelection st blockId) blockId
  = negb (isBlockSelected st blockId)
  /\ (forall j, j <> blockId ->
                isBlockSelected (toggleBlockSelection st blockId) j = isBlockSelected st j)
  /\ getCurrentBlocks (toggleBlockSelection st blockId) = getCurrentBlocks st
  /\ State.mementoManager (toggleBlockSelection st blockId) = State.mementoManager st.
Proof.
  intros Hp. unfold toggleBlockSelection.
  rewrite (isBlockSelected_Some _ _ _ Hp).
  destruct (includes (Page.selectedIds page) blockId) eqn:Hsel.
  - unfold removeBlockFromSelection. rewrite Hp.
    set (ids := filter _ (Page.selectedIds page)).
    set (d := [selectedIds_ ids; editingId_ None]).
    assert (Hp' : getCurrentPage (updateCurrentPage st d) = Some (spread page d))
      by (rewrite getCurrentPage_update by reflexivity; now rewrite Hp).
    assert (Hids : Page.selectedIds (spread page d) = ids)
      by (destruct page; reflexivity).
    split; [|split; [|split]].
    + rewrite (isBlockSelected_Some _ _ _ Hp'), Hids. subst ids.
      rewrite includes_filter_neq, Z.eqb_refl. apply andb_false_r.
    + intros j Hj. rewrite (isBlockSelected_Some _ _ _ Hp'), (isBlockSelected_Some _ _ _ Hp).
      rewrite Hids. subst ids. rewrite includes_filter_neq.
      apply Z.eqb_neq in Hj. rewrite Hj. apply andb_true_r.
    + rewrite (getCurrentBlocks_Some _ _ Hp'), (getCurrentBlocks_Some _ _ Hp).
      destruct page. reflexivity.
    + apply updateCurrentPage_mementoManager.
  - unfold addBlockToSelection. rewrite Hp, Hsel.
    set (d := [selectedIds_ (Page.selectedIds page ++ [blockId]); editingId_ None]).
    assert (Hp' : getCurrentPage (updateCurrentPage st d) = Some (spread page d))
      by (rewrite getCurrentPage_update by reflexivity; now rewrite Hp).
    assert (Hids : Page.selectedIds (spread page d) = Page.selectedIds page ++ [blockId])
      by (destruct page; reflexivity).
    split; [|split; [|split]].
    + rewrite (isBlockSelected_Some _ _ _ Hp'), Hids, includes_app.
      unfold includes at 2. cbn. rewrite Z.eqb_refl. cbn. apply orb_true_r.
    + intros j Hj. rewrite (isBlockSelected_Some _ _ _ Hp'), (isBlockSelected_Some _ _ _ Hp).
      rewrite Hids, includes_app. unfold includes at 2. cbn.
      apply Z.eqb_neq in Hj. rewrite Hj. cbn. apply orb_false_r.
    + rewrite (getCurrentBlocks_Some _ _ Hp'), (getCurrentBlocks_Some _ _ Hp).
      destruct page. reflexivity.
    + apply updateCurrentPage_mementoManager.
Qed.

Lemma toggleBlockSelection_flips_witness :
  isBlockSelected (toggleBlockSelection state_selected 2) 2
  = negb (isBlockSelected state_selected 2)
  /\ (forall j, j <> 2%Z ->
                isBlockSelected (toggleBlockSelection state_selected 2) j
                = isBlockSelected state_selected j)
  /\ getCurrentBlocks (toggleBlockSelection state_selected 2)
     = getCurrentBlocks state_selected
  /\ State.mementoManager (toggleBlockSelection state_selected 2)
     = State.mementoManager state_selected.
Proof.
  exact (toggleBlockSelection_flips state_selected 2
           (the (getCurrentPage state_selected) page1) eq_refl).
Defined.

(** ** The bounding box of the selection *)

Lemma bbox_fold (rest : list Block.t) :
  forall (acc : Q * Q * Q * Q) (minX minY maxX maxY : Q),
    fold_left bbox_step rest acc = (minX, minY, maxX, maxY) ->
    (minX <= fst (fst (fst acc)) /\ minY <= snd (fst (fst acc))
     /\ snd (fst acc) <= maxX /\ snd acc <= maxY)
    /\ forall b, In b rest ->
                 minX <= Block.x b /\ minY <= Block.y b
                 /\ Block.x b + Block.width b <= maxX
                 /\ Block.y b + Block.height b <= maxY.
Proof.
  induction rest as [|a rest IH]; intros [[[x0 y0] x1] y1] minX minY maxX maxY Hf.
  - cbn in Hf. injection Hf as <- <- <- <-. cbn.
    split; [repeat split; apply Qle_refl | intros b []].
  - cbn [fold_left bbox_step] in Hf. apply IH in Hf. cbn in Hf.
    destruct Hf as [[H1 [H2 [H3 H4]]] Hrest].
    pose proof (Q.le_min_l x0 (Block.x a)). pose proof (Q.le_min_r x0 (Block.x a)).
    pose proof (Q.le_min_l y0 (Block.y a)). pose proof (Q.le_min_r y0 (Block.y a)).
    pose proof (Q.le_max_l x1 (Block.x a + Block.width a)).
    pose proof (Q.le_max_r x1 (Block.x a + Block.width a)).
    pose proof (Q.le_max_l y1 (Block.y a + Block.height a)).
    pose proof (Q.le_max_r y1 (Block.y a + Block.height a)).
    cbn. split; [repeat split; lra|].
    intros b [<-|Hin]; [repeat split; lra | now apply Hrest].
Qed.

(** X10.  The selection has a bounding box exactly when a block of the
    current page is selected, and the box encloses every selected block:
    it starts at or before the block on both axes and ends at or after
    it. *)
Theorem getSelectionBoundingBox_encloses (st : State.t) (bbox : Rect.t) (b : Block.t) :
  getSelectionBoundingBox st = Some bbox ->
  In b (getSelectedBlocks st) ->
  Rect.x bbox <= Block.x b
  /\ Rect.y bbox <= Block.y b
  /\ Block.x b + Block.width b <= Rect.x bbox + Rect.width bbox
  /\ Block.y b + Block.height b <= Rect.y bbox + Rect.height bbox
  /\ (forall st', getSelectionBoundingBox st' = None <-> getSelectedBlocks st' = []).
Proof.
  intros Hbb Hin.
  assert (Hnone : forall st', getSelectionBoundingBox st' = None
                              <-> getSelectedBlocks st' = []).
  { intros st'. unfold getSelectionBoundingBox.
    destruct (getSelectedBlocks st') as [|a [|c r]]; [tauto | split; discriminate |].
    destruct (fold_left bbox_step (c :: r) _) as [[[? ?] ?] ?]. split; discriminate. }
  unfold getSelectionBoundingBox in Hbb.
  destruct (getSelectedBlocks st) as [|a [|c r]] eqn:Hsel; [contradiction| |].
  - injection Hbb as <-. destruct Hin as [<-|[]]. cbn.
    refine (conj _ (conj _ (conj _ (conj _ Hnone)))); apply Qle_refl.
  - destruct (fold_left bbox_step (c :: r) _) as [[[minX minY] maxX] maxY] eqn:Hfold.
    injection Hbb as <-. cbn [Rect.x Rect.y Rect.width Rect.height].
    apply bbox_fold in Hfold. cbn in Hfold. destruct Hfold as [[H1 [H2 [H3 H4]]] Hrest].
    destruct Hin as [<-|Hin].
    + refine (conj _ (conj _ (conj _ (conj _ Hnone)))); lra.
    + destruct (Hrest b Hin) as [H5 [H6 [H7 H8]]].
      refine (conj _ (conj _ (conj _ (conj _ Hnone)))); lra.
Qed.

Lemma getSelectionBoundingBox_encloses_witness :
  Rect.x (the (getSelectionBoundingBox state_selected) (rect_of_block blockA))
  <= Block.x blockB
  /\ Rect.y (the (getSelectionBoundingBox state_selected) (rect_of_block blockA))
     <= Block.y blockB
  /\ Block.x blockB + Block.width blockB
     <= Rect.x (the (getSelectionBoundingBox state_selected) (rect_of_block blockA))
        + Rect.width (the (getSelectionBoundingBox state_selected) (rect_of_block blockA))
  /\ Block.y blockB + Block.height blockB
     <= Rect.y (the (getSelectionBoundingBox state_selected) (rect_of_block blockA))
        + Rect.height (the (getSelectionBoundingBox state_selected) (rect_of_block blockA))
  /\ (forall st', getSelectionBoundingBox st' = None <-> getSelectedBlocks st' = []).
Proof.
  refine (getSelectionBoundingBox_encloses state_selected
            (the (getSelectionBoundingBox state_selected) (rect_of_block blockA))
            blockB eq_refl _).
  cbn. right. left. reflexivity.
Defined.

(** ** Dragging *)

Lemma Forall2_map_r (A : Type) (R : A -> A -> Prop) (f : A -> A) (l : list A) :
  (forall a, In a l -> R a (f a)) -> Forall2 R l (map f l).
Proof.
  intros H. induction l as [|a l IH]; constructor.
  - apply H. now left.
  - apply IH. intros b Hb. apply H. now right.
Qed.

(** X11.  While a drag record is set and no resize and no edit mode is on,
    a pointer-move records the pointer position and gives every selected
    block of the current page the position [x + dx / zoom], [y + dy / zoom],
    where [(dx, dy)] is how far the pointer went since the position last
    recorded; the blocks that are not selected, all sizes, the selection,
    the drag record, the viewport and the history stay as they were. *)
Theorem drag_follows_pointer (st : State.t) (event : PointerEvent) (canvasRect : DOMRect)
    (page : Page.t) (ds : DragState.t) :
  getCurrentPage st = Some page ->
  Page.resizing page = None ->
  Page.dragStart page = Some ds ->
  Page.editingId page = None ->
  exists p1,
    getCurrentPage (onpointermove st event canvasRect) = Some p1
    /\ Page.mouseX p1 = clientX event /\ Page.mouseY p1 = clientY event
    /\ Forall2 (fun b b' =>
                  if includes (Page.selectedIds page) (Block.id b)
                  then same_block b b'
                       /\ Block.x b'
                          = Block.x b + (clientX event - Page.mouseX page) / Page.zoom page
                       /\ Block.y b'
                          = Block.y b + (clientY event - Page.mouseY page) / Page.zoom page
                       /\ Block.width b' = Block.width b
                       /\ Block.height b' = Block.height b
                  else b' = b)
               (Page.blocks page) (Page.blocks p1)
    /\ Page.selectedIds p1 = Page.selectedIds page
    /\ Page.dragStart p1 = Some ds
    /\ getCurrentViewport (onpointermove st event canvasRect) = getCurrentViewport st
    /\ State.mementoManager (onpointermove st event canvasRect) = State.mementoManager st.
Proof.
  intros Hp Hr Hd He.
  set (m := [mouseX_ (clientX event); mouseY_ (clientY event)]).
  assert (Hpm : getCurrentPage (updateCurrentPage st m) = Some (spread page m))
    by (now rewrite getCurrentPage_update, Hp by reflexivity).
  set (f := fun block =>
              if includes (Page.selectedIds page) (Block.id block)
              then with_position block
                     (Block.x block + (clientX event - Page.mouseX page) / Page.zoom page)
                     (Block.y block + (clientY event - Page.mouseY page) / Page.zoom page)
              else block).
  assert (Hmove : onpointermove st event canvasRect
                  = updateCurrentPage (updateCurrentPage st m)
                      [blocks_ (map f (Page.blocks page))]).
  { unfold onpointermove. rewrite Hp, Hr, Hd, He. cbn [is_some andb negb]. cbv zeta.
    fold m. unfold handleBlockDrag, getSelectedBlockIds.
    rewrite (getCurrentViewport_Some _ _ Hpm), (getCurrentBlocks_Some _ _ Hpm), Hpm.
    subst f. destruct page; reflexivity. }
  rewrite Hmove. eexists.
  split; [now rewrite getCurrentPage_update, Hpm by reflexivity|].
  rewrite (getCurrentViewport_Some _ _ Hp).
  unfold getCurrentViewport. rewrite getCurrentPage_update, Hpm by reflexivity.
  rewrite !updateCurrentPage_mementoManager.
  split; [destruct page; reflexivity|]. split; [destruct page; reflexivity|].
  split.
  { replace (Page.blocks (spread (spread page m) [blocks_ (map f (Page.blocks page))]))
      with (map f (Page.blocks page)) by (destruct page; reflexivity).
    apply Forall2_map_r. intros b _. subst f. cbv beta.
    destruct (includes (Page.selectedIds page) (Block.id b)); [|reflexivity].
    split; [unfold with_position; apply same_block_with_geometry|].
    repeat split; reflexivity. }
  rewrite <- Hd. destruct page; repeat split; reflexivity.
Qed.

Lemma drag_follows_pointer_witness :
  exists p1,
    getCurrentPage (onpointermove state_nudging (click 70 25) origin) = Some p1
    /\ Page.mouseX p1 = clientX (click 70 25) /\ Page.mouseY p1 = clientY (click 70 25)
    /\ Forall2 (fun b b' =>
                  if includes (Page.selectedIds page_nudging) (Block.id b)
                  then same_block b b'
                       /\ Block.x b'
                          = Block.x b
                            + (clientX (click 70 25) - Page.mouseX page_nudging)
                              / Page.zoom page_nudging
                       /\ Block.y b'
                          = Block.y b
                            + (clientY (click 70 25) - Page.mouseY page_nudging)
                              / Page.zoom page_nudging
                       /\ Block.width b' = Block.width b
                       /\ Block.height b' = Block.height b
                  else b' = b)
               (Page.blocks page_nudging) (Page.blocks p1)
    /\ Page.selectedIds p1 = Page.selectedIds page_nudging
    /\ Page.dragStart p1
       = Some (the (Page.dragStart page_nudging) (DragState.mk 0 0 0))
    /\ getCurrentViewport (onpointermove state_nudging (click 70 25) origin)
       = getCurrentViewport state_nudging
    /\ State.mementoManager (onpointermove state_nudging (click 70 25) origin)
       = State.mementoManager state_nudging.
Proof.
  exact (drag_follows_pointer state_nudging (click 70 25) origin page_nudging
           (the (Page.dragStart page_nudging) (DragState.mk 0 0 0))
           eq_refl eq_refl eq_refl eq_refl).
Defined.

(** ** Resizing one block *)

Lemma min_max_edge (edge p : Q) :
  Qmin (edge - MIN_SIZE) p + Qmax MIN_SIZE (edge - p) == edge.
Proof.
  unfold MIN_SIZE.
  destruct (Q.min_spec (edge - 20) p) as [[H1 E1]|[H1 E1]];
    destruct (Q.max_spec 20 (edge - p)) as [[H2 E2]|[H2 E2]];
    rewrite E1, E2; lra.
Qed.

Lemma find_block_map (f : Block.t -> Block.t) (l : list Block.t) (i : Z) :
  (forall b, Block.id (f b) = Block.id b) ->
  find_block (map f l) i = option_map f (find_block l i).
Proof.
  intros Hf. unfold find_block. induction l as [|a l IH]; [reflexivity|].
  cbn. rewrite Hf. destruct (Z.eqb (Block.id a) i); [reflexivity | exact IH].
Qed.

(** X12.  Without shift, a resize pointer-move of a single block never moves
    the side opposite the handle: with a handle on the west side the right
    edge stays, otherwise the left edge; with a handle on the north side
    the bottom edge stays, otherwise the top edge, however far the pointer
    goes. *)
Theorem resize_keeps_opposite_edge (st : State.t) (event : PointerEvent)
    (canvasRect : DOMRect) (page : Page.t) (resizing : ResizeState.t) (i : Z)
    (block : Block.t) :
  getCurrentPage st = Some page ->
  Page.resizing page = Some resizing ->
  ResizeState.id resizing = BlockId i ->
  find_block (Page.blocks page) i = Some block ->
  State.isShiftPressed st = false ->
  exists b',
    find_block (getCurrentBlocks (handleResizePointerMove st event canvasRect)) i = Some b'
    /\ same_block block b'
    /\ (if includes_w (ResizeState.handle resizing)
        then Block.x b' + Block.width b' == Block.x block + Block.width block
        else Block.x b' == Block.x block)
    /\ (if includes_n (ResizeState.handle resizing)
        then Block.y b' + Block.height b' == Block.y block + Block.height block
        else Block.y b' == Block.y block).
Proof.
  intros Hp Hr Hid Hf Hshift.
  unfold handleResizePointerMove. rewrite Hp, Hr, Hid.
  rewrite (getCurrentBlocks_Some _ _ Hp), Hf.
  rewrite (getCurrentBlocks_update_blocks _ _ _ Hp).
  rewrite find_block_map
    by (intros b; destruct (Z.eqb (Block.id b) i); reflexivity).
  rewrite Hf. cbn [option_map].
  destruct (find_block_In _ _ _ Hf) as [_ Hbi]. rewrite Hbi, Z.eqb_refl.
  eexists. split; [reflexivity|]. split; [apply same_block_with_geometry|].
  unfold single_resize_rect. rewrite Hshift.
  destruct (ResizeState.handle resizing); cbn;
    split; try reflexivity; try apply min_max_edge.
Qed.

Lemma resize_keeps_opposite_edge_witness :
  exists b',
    find_block (getCurrentBlocks
                  (handleResizePointerMove state_resizing_nw (click 500 (-40)) origin)) 1
    = Some b'
    /\ same_block blockA b'
    /\ (if includes_w ResizeString.nw
        then Block.x b' + Block.width b' == Block.x blockA + Block.width blockA
        else Block.x b' == Block.x blockA)
    /\ (if includes_n ResizeString.nw
        then Block.y b' + Block.height b' == Block.y blockA + Block.height blockA
        else Block.y b' == Block.y blockA).
Proof.
  exact (resize_keeps_opposite_edge state_resizing_nw (click 500 (-40)) origin
           (the (getCurrentPage state_resizing_nw) page1)
           (the (Page.resizing (the (getCurrentPage state_resizing_nw) page1))
                (ResizeState.mk SelectionBoundingBox ResizeString.se 0 0 0 0 None))
           1 blockA eq_refl eq_refl eq_refl eq_refl eq_refl).
Defined.

(** ** The aspect-ratio constraint *)

Lemma Qmax_above (m v : Q) : m < Qmax m v -> Qmax m v == v.
Proof.
  destruct (Q.max_spec m v) as [[H E]|[H E]]; rewrite E; intros H'; [reflexivity | lra].
Qed.

(** X13.  For an original rectangle of positive width and height,
    [applyAspectRatioConstraint] returns a rectangle of the original's
    aspect ratio whenever the returned width and height are both above the
    minimum size; with a north or south handle the result keeps the
    original's horizontal centre, with an east or west handle its vertical
    centre. *)
Theorem applyAspectRatioConstraint_ratio (dimensions originalBlock : Rect.t)
    (handle : ResizeString.t) :
  0 < Rect.width originalBlock ->
  0 < Rect.height originalBlock ->
  MIN_SIZE < Rect.width (applyAspectRatioConstraint dimensions originalBlock handle) ->
  MIN_SIZE < Rect.height (applyAspectRatioConstraint dimensions originalBlock handle) ->
  Rect.width (applyAspectRatioConstraint dimensions originalBlock handle)
  * Rect.height originalBlock
  == Rect.height (applyAspectRatioConstraint dimensions originalBlock handle)
     * Rect.width originalBlock
  /\ (is_n_or_s handle = true ->
      Rect.x (applyAspectRatioConstraint dimensions originalBlock handle)
      + Rect.width (applyAspectRatioConstraint dimensions originalBlock handle) / 2
      == Rect.x originalBlock + Rect.width originalBlock / 2)
  /\ (is_corner handle = false -> is_n_or_s handle = false ->
      Rect.y (applyAspectRatioConstraint dimensions originalBlock handle)
      + Rect.height (applyAspectRatioConstraint dimensions originalBlock handle) / 2
      == Rect.y originalBlock + Rect.height originalBlock / 2).
Proof.
  destruct dimensions as [dw dh dx dy], originalBlock as [ow oh ox oy].
  cbn [Rect.width Rect.height Rect.x Rect.y]. intros Hw Hh.
  assert (Hw0 : ~ ow == 0) by lra. assert (Hh0 : ~ oh == 0) by lra.
  unfold applyAspectRatioConstraint. cbn [Rect.width Rect.height Rect.x Rect.y].
  destruct handle; cbn [is_corner is_n_or_s includes_n includes_w];
    try (destruct (leb _ _)); cbn [Rect.width Rect.height Rect.x Rect.y];
    intros H1 H2;
    try (apply Qmax_above in H1); try (apply Qmax_above in H2);
    (split; [|split]); try discriminate; intros;
    rewrite ?H1, ?H2; field; auto.
Qed.

Lemma applyAspectRatioConstraint_ratio_witness :
  Rect.width (applyAspectRatioConstraint (Rect.mk 140 90 0 0) (Rect.mk 100 50 0 0)
                ResizeString.se)
  * Rect.height (Rect.mk 100 50 0 0)
  == Rect.height (applyAspectRatioConstraint (Rect.mk 140 90 0 0) (Rect.mk 100 50 0 0)
                    ResizeString.se)
     * Rect.width (Rect.mk 100 50 0 0)
  /\ (is_n_or_s ResizeString.se = true ->
      Rect.x (applyAspectRatioConstraint (Rect.mk 140 90 0 0) (Rect.mk 100 50 0 0)
                ResizeString.se)
      + Rect.width (applyAspectRatioConstraint (Rect.mk 140 90 0 0) (Rect.mk 100 50 0 0)
                      ResizeString.se) / 2
      == Rect.x (Rect.mk 100 50 0 0) + Rect.width (Rect.mk 100 50 0 0) / 2)
  /\ (is_corner ResizeString.se = false -> is_n_or_s ResizeString.se = false ->
      Rect.y (applyAspectRatioConstraint (Rect.mk 140 90 0 0) (Rect.mk 100 50 0 0)
                ResizeString.se)
      + Rect.height (applyAspectRatioConstraint (Rect.mk 140 90 0 0) (Rect.mk 100 50 0 0)
                       ResizeString.se) / 2
      == Rect.y (Rect.mk 100 50 0 0) + Rect.height (Rect.mk 100 50 0 0) / 2).
Proof.
  exact (applyAspectRatioConstraint_ratio (Rect.mk 140 90 0 0) (Rect.mk 100 50 0 0)
           ResizeString.se eq_refl eq_refl eq_refl eq_refl).
Defined.

(** ** Resizing a group *)

Lemma spread_blocks_twice (p : Page.t) (a b : list Block.t) :
  spread (spread p [blocks_ a]) [blocks_ b] = spread p [blocks_ b].
Proof. destruct p. reflexivity. Qed.

Lemma updateCurrentPage_blocks_twice (st : State.t) (a b : list Block.t) :
  updateCurrentPage (updateCurrentPage st [blocks_ a]) [blocks_ b]
  = updateCurrentPage st [blocks_ b].
Proof.
  destruct st as [ps cp ? ? ? ? ? ? ? ? ? ? ?]. unfold updateCurrentPage. cbn.
  f_equal. rewrite map_map. apply map_ext. intros p.
  destruct p as [i ? ? ? ? ? ? ? ? ? ? ? ? ? ? ? ? ? ? ? ?]. cbn.
  destruct (String.eqb i cp) eqn:E; cbn; rewrite E; reflexivity.
Qed.

Lemma group_resize_block_twice (resizing : ResizeState.t)
    (originalBlocks : list OriginalBlockState.t) (bb1 bb2 : Rect.t) (b : Block.t) :
  group_resize_block resizing originalBlocks bb2
    (group_resize_block resizing originalBlocks bb1 b)
  = group_resize_block resizing originalBlocks bb2 b.
Proof.
  unfold group_resize_block.
  destruct (find_original originalBlocks (Block.id b)) eqn:E;
    cbn [with_geometry Block.id]; rewrite E; reflexivity.
Qed.

(** X14.  While a group is being resized every pointer-move recomputes the
    blocks from the geometry recorded at pointer-down, so the state after
    two moves is the state the second move alone gives: the path of the
    pointer leaves no trace. *)
Theorem group_resize_path_independent (st : State.t) (e1 e2 : PointerEvent)
    (r1 r2 : DOMRect) (page : Page.t) (resizing : ResizeState.t)
    (originalBlocks : list OriginalBlockState.t) :
  getCurrentPage st = Some page ->
  Page.resizing page = Some resizing ->
  ResizeState.id resizing = SelectionBoundingBox ->
  ResizeState.originalBlocks resizing = Some originalBlocks ->
  handleResizePointerMove (handleResizePointerMove st e1 r1) e2 r2
  = handleResizePointerMove st e2 r2.
Proof.
  intros Hp Hr Hid Ho.
  assert (H1 : handleResizePointerMove st e1 r1
               = updateCurrentPage st
                   [blocks_ (map (group_resize_block resizing originalBlocks
                                    (group_newBBox st resizing
                                       ((clientX e1 - left r1) / Page.zoom page)
                                       ((clientY e1 - top r1) / Page.zoom page)))
                                 (Page.blocks page))]).
  { unfold handleResizePointerMove, getCurrentViewport.
    rewrite Hp, Hr, Hid, Ho, (getCurrentBlocks_Some _ _ Hp). reflexivity. }
  rewrite H1. set (bs1 := map _ (Page.blocks page)).
  assert (Hp1 : getCurrentPage (updateCurrentPage st [blocks_ bs1])
                = Some (spread page [blocks_ bs1]))
    by now apply getCurrentPage_blocks_update.
  unfold handleResizePointerMove at 1. unfold getCurrentViewport.
  rewrite Hp1.
  replace (Page.resizing (spread page [blocks_ bs1])) with (Some resizing)
    by (rewrite <- Hr; destruct page; reflexivity).
  rewrite Hid, Ho, (getCurrentBlocks_Some _ _ Hp1).
  replace (Page.blocks (spread page [blocks_ bs1])) with bs1 by (destruct page; reflexivity).
  cbv zeta. cbn [vp_zoom]. rewrite updateCurrentPage_blocks_twice.
  replace (Page.zoom (spread page [blocks_ bs1])) with (Page.zoom page)
    by (destruct page; reflexivity).
  replace (group_newBBox (updateCurrentPage st [blocks_ bs1]) resizing)
    with (group_newBBox st resizing)
    by (unfold group_newBBox; now rewrite updateCurrentPage_isShiftPressed).
  unfold handleResizePointerMove, getCurrentViewport.
  rewrite Hp, Hr, Hid, Ho, (getCurrentBlocks_Some _ _ Hp). cbv zeta. cbn [vp_zoom].
  f_equal. f_equal. f_equal.
  subst bs1. rewrite map_map. apply map_ext. intros b.
  apply group_resize_block_twice.
Qed.

Lemma group_resize_path_independent_witness :
  handleResizePointerMove
    (handleResizePointerMove (state_pressed false) (click 400 20) origin)
    (click 180 130) origin
  = handleResizePointerMove (state_pressed false) (click 180 130) origin.
Proof.
  exact (group_resize_path_independent (state_pressed false) (click 400 20)
           (click 180 130) origin origin
           (the (getCurrentPage (state_pressed false)) page1)
           (the (Page.resizing (the (getCurrentPage (state_pressed false)) page1))
                (ResizeState.mk SelectionBoundingBox ResizeString.se 0 0 0 0 None))
           (the (ResizeState.originalBlocks
                   (the (Page.resizing (the (getCurrentPage (state_pressed false)) page1))
                        (ResizeState.mk SelectionBoundingBox ResizeString.se 0 0 0 0 None)))
                [])
           eq_refl eq_refl eq_refl eq_refl).
Defined.

(** ** The Escape and Delete keys *)


(** X15.  Outside a focused text editor, pressing Escape twice leaves the
    current page with no block in edit mode and nothing selected, whatever
    it was before; the blocks and the history are untouched, and the first
    Escape alone keeps the selection when a block was in edit mode. *)
Theorem escape_twice (st : State.t) (page : Page.t) :
  getCurrentPage st = Some page ->
  Page.isTextEditorFocused page = false ->
  exists p1 p2,
    getCurrentPage (onkeydown_Escape st) = Some p1
    /\ getCurrentPage (onkeydown_Escape (onkeydown_Escape st)) = Some p2
    /\ Page.editingId p1 = None
    /\ (Page.editingId page <> None -> Page.selectedIds p1 = Page.selectedIds page)
    /\ Page.editingId p2 = None
    /\ Page.selectedIds p2 = []
    /\ Page.blocks p2 = Page.blocks page
    /\ State.mementoManager (onkeydown_Escape (onkeydown_Escape st))
       = State.mementoManager st.
Proof.
  intros Hp Hf.
  assert (Hstep : forall s p,
    getCurrentPage s = Some p -> Page.isTextEditorFocused p = false ->
    exists p',
      getCurrentPage (onkeydown_Escape s) = Some p'
      /\ Page.isTextEditorFocused p' = false
      /\ Page.blocks p' = Page.blocks p
      /\ State.mementoManager (onkeydown_Escape s) = State.mementoManager s
      /\ Page.editingId p' = None
      /\ Page.selectedIds p'
         = match Page.editingId p with Some _ => Page.selectedIds p | None => [] end).
  { intros s p Hs Hfs. unfold onkeydown_Escape, hasSelection, deselectAllBlocks.
    rewrite Hs, Hfs.
    destruct (Page.editingId p) eqn:Ee; cbn [is_some].
    - eexists. rewrite getCurrentPage_update, Hs by reflexivity.
      split; [reflexivity|]. rewrite updateCurrentPage_mementoManager.
      destruct p; cbn in *. repeat split; auto.
    - destruct (Page.selectedIds p) eqn:Es; cbn [length Nat.ltb Nat.leb].
      + exists p. rewrite Hs, Hfs, Ee, Es. repeat split; reflexivity.
      + eexists. rewrite getCurrentPage_update, Hs by reflexivity.
        split; [reflexivity|]. rewrite updateCurrentPage_mementoManager.
        destruct p; cbn in *. repeat split; auto. }
  destruct (Hstep st page Hp Hf) as (p1 & H1 & Hf1 & Hb1 & Hm1 & He1 & Hs1).
  destruct (Hstep _ p1 H1 Hf1) as (p2 & H2 & Hf2 & Hb2 & Hm2 & He2 & Hs2).
  exists p1, p2. rewrite He1 in Hs2.
  repeat match goal with |- _ /\ _ => split end; auto; try congruence.
  intros Hne. rewrite Hs1. destruct (Page.editingId page); congruence.
Qed.

Lemma escape_twice_witness :
  exists p1 p2,
    getCurrentPage (onkeydown_Escape state_editing) = Some p1
    /\ getCurrentPage (onkeydown_Escape (onkeydown_Escape state_editing)) = Some p2
    /\ Page.editingId p1 = None
    /\ (Page.editingId (the (getCurrentPage state_editing) page1) <> None ->
        Page.selectedIds p1 = Page.selectedIds (the (getCurrentPage state_editing) page1))
    /\ Page.editingId p2 = None
    /\ Page.selectedIds p2 = []
    /\ Page.blocks p2 = Page.blocks (the (getCurrentPage state_editing) page1)
    /\ State.mementoManager (onkeydown_Escape (onkeydown_Escape state_editing))
       = State.mementoManager state_editing.
Proof.
  exact (escape_twice state_editing (the (getCurrentPage state_editing) page1)
           eq_refl eq_refl).
Defined.

Lemma getCurrentPage_cleanPages (s : State.t) (ps : list Page.t) (cp : string) :
  State.pages s = cleanPages ps ->
  State.currentPageId s = cp ->
  getCurrentPage s
  = option_map (fun page => spread page [selectedIds_ []; dragStart_ None; resizing_ None])
               (find (fun page => String.eqb (Page.id page) cp) ps).
Proof.
  intros Hps Hcp. unfold getCurrentPage. rewrite Hps, Hcp. unfold cleanPages.
  apply find_map_same. intros p. destruct p; reflexivity.
Qed.

(** X16.  Outside a focused text editor and outside edit mode, the Delete
    key with a selection removes exactly the selected blocks of the current
    page and empties the selection.  With a history size that is not
    negative, an undo right after brings all the blocks of the page back,
    though not the selection, and a redo removes the same blocks again. *)
Theorem delete_then_undo (st : State.t) (page : Page.t) :
  getCurrentPage st = Some page ->
  Page.isTextEditorFocused page = false ->
  Page.editingId page = None ->
  Page.selectedIds page <> [] ->
  (0 <= MementoManager.maxHistorySize (State.mementoManager st))%Z ->
  (forall b, In b (getCurrentBlocks (onkeydown_Delete st))
             <-> In b (Page.blocks page) /\ ~ In (Block.id b) (Page.selectedIds page))
  /\ getSelectedBlockIds (onkeydown_Delete st) = []
  /\ getCurrentBlocks (undoState (onkeydown_Delete st)) = Page.blocks page
  /\ getSelectedBlockIds (undoState (onkeydown_Delete st)) = []
  /\ getCurrentBlocks (redoState (undoState (onkeydown_Delete st)))
     = getCurrentBlocks (onkeydown_Delete st).
Proof.
  intros Hp Hf He Hs Hmax.
  assert (Hd : onkeydown_Delete st
               = saveMementoAndReturn st
                   (updateCurrentPage st
                      [blocks_ (filter (fun block =>
                                          negb (includes (Page.selectedIds page)
                                                         (Block.id block)))
                                       (Page.blocks page));
                       selectedIds_ []])).
  { unfold onkeydown_Delete, getFirstSelectedBlockId, getSelectedBlockIds,
      deleteSelectedBlocks.
    rewrite Hp, Hf, He. destruct (Page.selectedIds page); [congruence | reflexivity]. }
  rewrite Hd. set (d := [blocks_ _; selectedIds_ []]).
  assert (Hnew : getCurrentPage (saveMementoAndReturn st (updateCurrentPage st d))
                 = Some (spread page d)).
  { rewrite getCurrentPage_saveMementoAndReturn, getCurrentPage_update, Hp
      by reflexivity. reflexivity. }
  destruct (commit_then_undo_pages st (updateCurrentPage st d) Hmax)
    as (Hu1 & Hu2 & Hr1 & Hr2).
  pose proof (getCurrentPage_cleanPages _ _ _ Hu1 Hu2) as Hu.
  fold (getCurrentPage st) in Hu. rewrite Hp in Hu. cbn [option_map] in Hu.
  pose proof (getCurrentPage_cleanPages _ _ _ Hr1 Hr2) as Hr.
  fold (getCurrentPage (updateCurrentPage st d)) in Hr.
  rewrite getCurrentPage_update, Hp in Hr by reflexivity. cbn [option_map] in Hr.
  unfold getSelectedBlockIds. rewrite !(getCurrentBlocks_Some _ _ Hnew).
  rewrite (getCurrentBlocks_Some _ _ Hu), (getCurrentBlocks_Some _ _ Hr), Hnew, Hu.
  subst d. destruct page. cbn -[includes].
  repeat match goal with |- _ /\ _ => split end; try reflexivity.
  intros b. rewrite filter_In, negb_true_iff, <- not_true_iff_false, includes_In.
  reflexivity.
Qed.

Lemma delete_then_undo_witness :
  (forall b, In b (getCurrentBlocks (onkeydown_Delete state_selected))
             <-> In b (Page.blocks (the (getCurrentPage state_selected) page1))
                 /\ ~ In (Block.id b)
                         (Page.selectedIds (the (getCurrentPage state_selected) page1)))
  /\ getSelectedBlockIds (onkeydown_Delete state_selected) = []
  /\ getCurrentBlocks (undoState (onkeydown_Delete state_selected))
     = Page.blocks (the (getCurrentPage state_selected) page1)
  /\ getSelectedBlockIds (undoState (onkeydown_Delete state_selected)) = []
  /\ getCurrentBlocks (redoState (undoState (onkeydown_Delete state_selected)))
     = getCurrentBlocks (onkeydown_Delete state_selected).
Proof.
  refine (delete_then_undo state_selected (the (getCurrentPage state_selected) page1)
            eq_refl eq_refl eq_refl _ _); cbn; discriminate.
Defined.

(** ** Undo right after a gesture *)

Lemma push_memento_top (mm : MementoManager.t) (m : Memento.t) :
  (0 <= MementoManager.maxHistorySize mm)%Z ->
  exists l, MementoManager.undoStack (push_memento mm m) = l ++ [m].
Proof.
  intros Hmax. unfold push_memento. cbn [MementoManager.undoStack].
  rewrite slice_from.
  set (u := MementoManager.undoStack mm). set (k := Z.to_nat _).
  assert (Hk : (k <= length u)%nat).
  { subst k. rewrite length_app. cbn [length]. unfold rel_index.
    destruct (_ <? 0)%Z eqn:E; [apply Z.ltb_lt in E|apply Z.ltb_ge in E]; lia. }
  exists (skipn k u). rewrite skipn_app.
  replace (k - length u)%nat with 0%nat by lia. reflexivity.
Qed.

(** X17.  A resize gesture: a pointer-down on a resize handle, of one block
    or of the group, in a state with no gesture record set, on a page with
    distinct block ids; then pointer-moves; then the pointer-up.  With a
    history size that is not negative, an undo right after a resize gesture
    with a net change gives the current page its blocks, all of them and in
    their order, at the position and size they had at the pointer-down, and
    an empty selection. *)
Theorem undo_after_resize (st0 : State.t) (page0 : Page.t) (target : PointerTarget)
    (event : PointerEvent) (canvasRect : DOMRect)
    (moves : list (PointerEvent * DOMRect)) (page : Page.t) :
  getCurrentPage st0 = Some page0 ->
  gesture_count page0 = 0%nat ->
  NoDup (map Block.id (Page.blocks page0)) ->
  on_handle target = true ->
  (0 <= MementoManager.maxHistorySize (State.mementoManager st0))%Z ->
  getCurrentPage (run_pointer (gesture target event canvasRect moves) st0) = Some page ->
  net_change (Page.blocks page0) page ->
  restored (Page.blocks page0)
    (getCurrentBlocks
       (undoState (onpointerup (run_pointer (gesture target event canvasRect moves) st0))))
  /\ getSelectedBlockIds
       (undoState (onpointerup (run_pointer (gesture target event canvasRect moves) st0)))
     = [].
Proof.
  intros Hp Hg Hnd Hh Hmax Hpg Hnet.
  assert (Hrend : rendered st0 target) by (destruct target; [exact I | discriminate | exact I | exact I]).
  destruct (gesture_up st0 page0 target event canvasRect moves Hp Hg Hnd Hrend)
    as (page' & Hpg' & _ & Hyes & _).
  rewrite Hpg in Hpg'. injection Hpg' as <-.
  destruct (Hyes Hnet) as (blocks' & Hres & Hmm).
  set (st := run_pointer (gesture target event canvasRect moves) st0) in *.
  destruct (push_memento_top (State.mementoManager st0)
              (createMemento (updateCurrentPage st [blocks_ blocks'])) Hmax) as [l Hl].
  rewrite <- Hmm in Hl. rewrite (undoState_push _ _ _ Hl).
  set (s := restore _ _ _ _).
  assert (Hs : getCurrentPage s
               = Some (spread (spread page [blocks_ blocks'])
                              [selectedIds_ []; dragStart_ None; resizing_ None])).
  { rewrite (getCurrentPage_cleanPages s
               (State.pages (updateCurrentPage st [blocks_ blocks']))
               (State.currentPageId st)).
    - replace (find _ _) with (getCurrentPage (updateCurrentPage st [blocks_ blocks']))
        by (unfold getCurrentPage; now rewrite updateCurrentPage_currentPageId).
      rewrite getCurrentPage_update, Hpg by reflexivity. reflexivity.
    - subst s. destruct (onpointerup st). reflexivity.
    - subst s. destruct (onpointerup st), st. reflexivity. }
  unfold getSelectedBlockIds. rewrite (getCurrentBlocks_Some _ _ Hs), Hs.
  destruct page. split; [exact Hres | reflexivity].
Qed.

Lemma undo_after_resize_witness :
  restored (Page.blocks page1)
    (getCurrentBlocks
       (undoState
          (onpointerup
             (run_pointer (gesture (OnBlockHandle ResizeString.se 1) (click 100 100) origin
                             [(click 150 120, origin)]) state1))))
  /\ getSelectedBlockIds
       (undoState
          (onpointerup
             (run_pointer (gesture (OnBlockHandle ResizeString.se 1) (click 100 100) origin
                             [(click 150 120, origin)]) state1)))
     = [].
Proof.
  refine (undo_after_resize state1 page1 (OnBlockHandle ResizeString.se 1)
            (click 100 100) origin [(click 150 120, origin)]
            (the (getCurrentPage
                    (run_pointer (gesture (OnBlockHandle ResizeString.se 1)
                                    (click 100 100) origin [(click 150 120, origin)])
                       state1)) page1)
            eq_refl eq_refl _ eq_refl _ eq_refl _).
  - cbn. repeat constructor; cbn; intuition discriminate.
  - cbn. discriminate.
  - exists blockA,
      (nth 0 (getCurrentBlocks
                (run_pointer (gesture (OnBlockHandle ResizeString.se 1) (click 100 100)
                                origin [(click 150 120, origin)]) state1)) blockB).
    split; [now left|]. split; [reflexivity|].
    intros (_ & _ & Hw & _). revert Hw. vm_compute. discriminate.
Defined.

(** ** The blocks under pointer and wheel events *)


Lemma same_blocks_refl (st : State.t) : same_blocks st st.
Proof.
  unfold same_blocks. induction (getCurrentBlocks st); constructor;
    [apply same_block_refl | assumption].
Qed.

Lemma spread_blocks_other (d : PageData) (p : Page.t) :
  keeps_blocks_field d = true -> Page.blocks (spread p d) = Page.blocks p.
Proof.
  unfold spread. revert p. induction d as [|f d IH]; intros p H; [reflexivity|].
  cbn in H. apply andb_prop in H. destruct H as [Hf Hd].
  cbn [fold_left]. rewrite (IH _ Hd). destruct p, f; try reflexivity; discriminate.
Qed.

Lemma sb_update (st0 st : State.t) (d : PageData) :
  keeps_id d = true -> keeps_blocks_field d = true ->
  same_blocks st0 st -> same_blocks st0 (updateCurrentPage st d).
Proof.
  intros Hid Hb H. unfold same_blocks, getCurrentBlocks in *.
  rewrite getCurrentPage_update by exact Hid.
  destruct (getCurrentPage st) as [p|]; cbn [option_map]; [|exact H].
  now rewrite spread_blocks_other.
Qed.

Lemma sb_map (st0 st : State.t) (f : Block.t -> Block.t) :
  (forall b, same_block b (f b)) ->
  same_blocks st0 st ->
  same_blocks st0 (updateCurrentPage st [blocks_ (map f (getCurrentBlocks st))]).
Proof.
  intros Hf H. unfold same_blocks in *.
  assert (Hb : getCurrentBlocks (updateCurrentPage st [blocks_ (map f (getCurrentBlocks st))])
               = map f (getCurrentBlocks st)).
  { unfold getCurrentBlocks at 1. rewrite getCurrentPage_update by reflexivity.
    unfold getCurrentBlocks.
    destruct (getCurrentPage st) as [p|]; cbn [option_map]; [|reflexivity].
    destruct p. reflexivity. }
  rewrite Hb. clear Hb. revert H. generalize (getCurrentBlocks st0).
  induction (getCurrentBlocks st) as [|b bs IH]; intros l H; inversion H; subst;
    constructor.
  - eapply same_block_trans; [eassumption | apply Hf].
  - now apply IH.
Qed.

Lemma sb_save (st0 prevState newState : State.t) :
  same_blocks st0 newState -> same_blocks st0 (saveMementoAndReturn prevState newState).
Proof.
  unfold same_blocks, getCurrentBlocks.
  now rewrite getCurrentPage_saveMementoAndReturn.
Qed.

Lemma same_block_group (resizing : ResizeState.t)
    (originalBlocks : list OriginalBlockState.t) (newBBox : Rect.t) (b : Block.t) :
  same_block b (group_resize_block resizing originalBlocks newBBox b).
Proof.
  unfold group_resize_block. destruct (find_original _ _);
    [apply same_block_with_geometry | apply same_block_refl].
Qed.

Ltac sb_step :=
  cbv beta iota zeta;
  match goal with
  | H : same_blocks ?a ?b |- same_blocks ?a ?b => exact H
  | |- same_blocks _ (updateCurrentPage _ [blocks_ (map _ (getCurrentBlocks _))]) =>
      apply sb_map;
      [ first [ apply same_block_group
              | let b := fresh "b" in
                intros b; cbv beta;
                match goal with
                | |- same_block _ (if ?c then _ else _) =>
                    destruct c;
                    [ unfold with_position; apply same_block_with_geometry
                    | apply same_block_refl ]
                end ]
      | ]
  | |- same_blocks _ (updateCurrentPage _ _) =>
      apply sb_update; [reflexivity | reflexivity | ]
  | |- same_blocks _ (saveMementoAndReturn _ _) => apply sb_save
  | |- same_blocks _ (match ?x with _ => _ end) =>
      let y := scrutinee x in destruct y
  end.

Ltac sb_solve := repeat sb_step.

Lemma sb_handleResizePointerMove (st0 st : State.t) (event : PointerEvent)
    (canvasRect : DOMRect) :
  same_blocks st0 st -> same_blocks st0 (handleResizePointerMove st event canvasRect).
Proof. intros H. unfold handleResizePointerMove. sb_solve. Qed.

Lemma sb_toggleBlockSelection (st0 st : State.t) (blockId : Z) :
  same_blocks st0 st -> same_blocks st0 (toggleBlockSelection st blockId).
Proof.
  intros H. unfold toggleBlockSelection, removeBlockFromSelection, addBlockToSelection.
  sb_solve.
Qed.

Lemma sb_onpointerdown (st0 st : State.t) (event : PointerEvent) (canvasRect : DOMRect) :
  same_blocks st0 st -> same_blocks st0 (onpointerdown st event canvasRect).
Proof.
  intros H. unfold onpointerdown, handleMiddleMouseDown, deselectAllBlocks,
    handleDragStart, handleSelectionBoxStart.
  sb_solve.
Qed.

Lemma sb_pointerdown (st0 st : State.t) (target : PointerTarget) (event : PointerEvent)
    (canvasRect : DOMRect) :
  same_blocks st0 st -> same_blocks st0 (pointerdown target st event canvasRect).
Proof.
  intros H. destruct target; cbn [pointerdown].
  - now apply sb_onpointerdown.
  - unfold block_onpointerdown, selectBlock.
    repeat first [ apply sb_onpointerdown | apply sb_toggleBlockSelection | sb_step ].
  - unfold ResizeHandle_block_onpointerdown, selectBlock. sb_solve.
  - unfold ResizeHandle_multi_onpointerdown. sb_solve.
Qed.

Lemma sb_onpointermove (st0 st : State.t) (event : PointerEvent) (canvasRect : DOMRect) :
  same_blocks st0 st -> same_blocks st0 (onpointermove st event canvasRect).
Proof.
  intros H. unfold onpointermove, handleBlockDrag, handleViewportDrag, handleSelectionBoxMove.
  repeat first [ apply sb_handleResizePointerMove | sb_step ].
Qed.

Lemma sb_onpointerup (st0 st : State.t) :
  same_blocks st0 st -> same_blocks st0 (onpointerup st).
Proof.
  intros H. unfold onpointerup.
  destruct (getCurrentPage st) as [p|]; [|exact H].
  assert (Hnew : same_blocks st0
    match Page.selectionBox p with
    | Some selectionBox =>
        updateCurrentPage
          (handleSelectionBoxComplete
             (updateCurrentPage st
                [isViewportDragging_ false; resizing_ None; dragStart_ None;
                 cursorStyle_ "default"]) selectionBox)
          [selectionBox_ None]
    | None =>
        updateCurrentPage st
          [isViewportDragging_ false; resizing_ None; dragStart_ None;
           cursorStyle_ "default"]
    end).
  { unfold handleSelectionBoxComplete. sb_solve. }
  unfold handleDragCompletion, handleResizeCompletion. sb_solve.
Qed.

Lemma sb_run_pointer (evs : list PointerEv) (st0 st : State.t) :
  same_blocks st0 st -> same_blocks st0 (run_pointer evs st).
Proof.
  revert st. induction evs as [|ev evs IH]; intros st H; [exact H|].
  cbn [run_pointer fold_left]. apply IH.
  destruct ev; cbn [pointer_step].
  - now apply sb_pointerdown.
  - now apply sb_onpointermove.
  - now apply sb_onpointerup.
Qed.

(** X18.  No pointer event, run of pointer events, wheel event or Escape
    key adds, removes or reorders a block of the current page, or changes a
    block's id, z-index, image or source: the ids and the z-indices of the
    current page, read in order, stay what they were. *)
Theorem pointer_events_keep_blocks (st : State.t) :
  (forall evs,
      same_blocks st (run_pointer evs st)
      /\ map Block.id (getCurrentBlocks (run_pointer evs st))
         = map Block.id (getCurrentBlocks st)
      /\ map Block.zIndex (getCurrentBlocks (run_pointer evs st))
         = map Block.zIndex (getCurrentBlocks st))
  /\ (forall event rect, same_blocks st (onwheel st event rect))
  /\ same_blocks st (onkeydown_Escape st).
Proof.
  pose proof (same_blocks_refl st) as H.
  split; [|split].
  - intros evs. pose proof (sb_run_pointer evs st st H) as Hr.
    split; [exact Hr|]. unfold same_blocks in Hr.
    induction Hr as [|b b' l l' (Hi & Hz & _) _ [IH1 IH2]]; [split; reflexivity|].
    cbn [map]. rewrite Hi, Hz, IH1, IH2. split; reflexivity.
  - intros event rect. unfold onwheel. sb_solve.
  - unfold onkeydown_Escape, deselectAllBlocks. sb_solve.
Qed.

(** ** The end of a marquee *)

Lemma calculatePreviewSelection_ext (s1 s2 : State.t) (p1 p2 : Page.t)
    (box : SelectionBoxState.t) :
  getCurrentPage s1 = Some p1 ->
  getCurrentPage s2 = Some p2 ->
  Page.blocks p1 = Page.blocks p2 ->
  Page.selectedIds p1 = Page.selectedIds p2 ->
  State.isShiftPressed s1 = State.isShiftPressed s2 ->
  calculatePreviewSelection s1 box = calculatePreviewSelection s2 box.
Proof.
  intros H1 H2 Hb Hs Hsh. unfold calculatePreviewSelection.
  rewrite (getCurrentBlocks_Some _ _ H1), (getCurrentBlocks_Some _ _ H2), H1, H2.
  now rewrite Hb, Hs, Hsh.
Qed.

(** X19.  While a marquee is open and nothing else is going on, a
    pointer-move only updates the preview and leaves the selection as it
    is; the pointer-up right after makes the previewed ids the selection,
    empties the preview, closes the marquee and leaves the history
    alone. *)
Theorem marquee_commit (st : State.t) (event : PointerEvent) (canvasRect : DOMRect)
    (page : Page.t) (box : SelectionBoxState.t) :
  getCurrentPage st = Some page ->
  Page.selectionBox page = Some box ->
  Page.resizing page = None ->
  Page.dragStart page = None ->
  Page.isViewportDragging page = false ->
  exists p1 p2,
    getCurrentPage (onpointermove st event canvasRect) = Some p1
    /\ getCurrentPage (onpointerup (onpointermove st event canvasRect)) = Some p2
    /\ Page.selectedIds p1 = Page.selectedIds page
    /\ Page.selectedIds p2 = Page.previewSelectedIds p1
    /\ Page.previewSelectedIds p2 = []
    /\ Page.selectionBox p2 = None
    /\ Page.blocks p2 = Page.blocks page
    /\ State.mementoManager (onpointerup (onpointermove st event canvasRect))
       = State.mementoManager st.
Proof.
  intros Hp Hbox Hr Hd Hv.
  set (m := [mouseX_ (clientX event); mouseY_ (clientY event)]).
  set (stm := updateCurrentPage st m).
  assert (Hpm : getCurrentPage stm = Some (spread page m))
    by (subst stm; now rewrite getCurrentPage_update, Hp by reflexivity).
  set (ubox := SelectionBoxState.mk (SelectionBoxState.startX box)
                 (SelectionBoxState.startY box)
                 (fst (getCanvasCoordinates event stm canvasRect))
                 (snd (getCanvasCoordinates event stm canvasRect))).
  set (d1 := [selectionBox_ (Some ubox);
              previewSelectedIds_ (calculatePreviewSelection stm ubox)]).
  assert (Hmove : onpointermove st event canvasRect = updateCurrentPage stm d1).
  { unfold onpointermove. rewrite Hp, Hr, Hd, Hv, Hbox. cbn [is_some andb]. cbv zeta.
    fold m. fold stm. unfold handleSelectionBoxMove. rewrite Hpm.
    replace (Page.selectionBox (spread page m)) with (Some box)
      by (rewrite <- Hbox; destruct page; reflexivity).
    reflexivity. }
  rewrite Hmove.
  assert (Hp1 : getCurrentPage (updateCurrentPage stm d1) = Some (spread (spread page m) d1))
    by (now rewrite getCurrentPage_update, Hpm by reflexivity).
  set (u := [isViewportDragging_ false; resizing_ None; dragStart_ None;
             cursorStyle_ "default"]).
  set (ns := updateCurrentPage (updateCurrentPage stm d1) u).
  assert (Hns : getCurrentPage ns = Some (spread (spread (spread page m) d1) u))
    by (subst ns; now rewrite getCurrentPage_update, Hp1 by reflexivity).
  set (c := [selectedIds_ (calculatePreviewSelection ns ubox); previewSelectedIds_ []]).
  assert (Hup : onpointerup (updateCurrentPage stm d1)
                = updateCurrentPage (updateCurrentPage ns c) [selectionBox_ None]).
  { unfold onpointerup. rewrite Hp1.
    replace (Page.selectionBox (spread (spread page m) d1)) with (Some ubox)
      by (destruct page; reflexivity).
    replace (Page.dragStart (spread (spread page m) d1)) with (@None DragState.t)
      by (rewrite <- Hd; destruct page; reflexivity).
    replace (Page.resizing (spread (spread page m) d1)) with (@None ResizeState.t)
      by (rewrite <- Hr; destruct page; reflexivity).
    reflexivity. }
  rewrite Hup.
  assert (Hcalc : calculatePreviewSelection ns ubox = calculatePreviewSelection stm ubox).
  { apply (calculatePreviewSelection_ext _ _ _ _ _ Hns Hpm).
    - destruct page; reflexivity.
    - destruct page; reflexivity.
    - subst ns stm. now rewrite !updateCurrentPage_isShiftPressed. }
  exists (spread (spread page m) d1),
         (spread (spread (spread (spread (spread page m) d1) u) c) [selectionBox_ None]).
  split; [exact Hp1|].
  split; [now rewrite !getCurrentPage_update, Hns by reflexivity|].
  split; [destruct page; reflexivity|].
  split; [subst c; rewrite Hcalc; destruct page; reflexivity|].
  split; [destruct page; reflexivity|].
  split; [destruct page; reflexivity|].
  split; [destruct page; reflexivity|].
  subst ns stm. now rewrite !updateCurrentPage_mementoManager.
Qed.

Lemma marquee_commit_witness :
  exists p1 p2,
    getCurrentPage (onpointermove state_marquee (click 120 20) origin) = Some p1
    /\ getCurrentPage (onpointerup (onpointermove state_marquee (click 120 20) origin))
       = Some p2
    /\ Page.selectedIds p1 = Page.selectedIds (the (getCurrentPage state_marquee) page1)
    /\ Page.selectedIds p2 = Page.previewSelectedIds p1
    /\ Page.previewSelectedIds p2 = []
    /\ Page.selectionBox p2 = None
    /\ Page.blocks p2 = Page.blocks (the (getCurrentPage state_marquee) page1)
    /\ State.mementoManager (onpointerup (onpointermove state_marquee (click 120 20) origin))
       = State.mementoManager state_marquee.
Proof.
  exact (marquee_commit state_marquee (click 120 20) origin
           (the (getCurrentPage state_marquee) page1)
           (the (Page.selectionBox (the (getCurrentPage state_marquee) page1))
                (marquee 0 0 0 0))
           eq_refl eq_refl eq_refl eq_refl eq_refl).
Defined.

(** ** Panning *)

(** X20.  While the viewport is being dragged and no resize or block drag
    is going on, a pointer-move shifts the offset of the current page by
    the distance the pointer went since the last recorded position, so the
    canvas point under the pointer stays the same; zoom, blocks, selection
    and history are untouched. *)
Theorem pan_follows_pointer (st : State.t) (event : PointerEvent) (canvasRect : DOMRect)
    (page : Page.t) :
  getCurrentPage st = Some page ->
  Page.isViewportDragging page = true ->
  Page.resizing page = None ->
  Page.dragStart page = None ->
  exists p1,
    getCurrentPage (onpointermove st event canvasRect) = Some p1
    /\ Page.mouseX p1 = clientX event /\ Page.mouseY p1 = clientY event
    /\ Page.offsetX p1 - Page.mouseX p1 == Page.offsetX page - Page.mouseX page
    /\ Page.offsetY p1 - Page.mouseY p1 == Page.offsetY page - Page.mouseY page
    /\ fst (screenToCanvas (Page.mouseX p1) (Page.mouseY p1)
              (getCurrentViewport (onpointermove st event canvasRect)))
       == fst (screenToCanvas (Page.mouseX page) (Page.mouseY page) (getCurrentViewport st))
    /\ snd (screenToCanvas (Page.mouseX p1) (Page.mouseY p1)
              (getCurrentViewport (onpointermove st event canvasRect)))
       == snd (screenToCanvas (Page.mouseX page) (Page.mouseY page) (getCurrentViewport st))
    /\ Page.zoom p1 = Page.zoom page
    /\ Page.blocks p1 = Page.blocks page
    /\ Page.selectedIds p1 = Page.selectedIds page
    /\ State.mementoManager (onpointermove st event canvasRect) = State.mementoManager st.
Proof.
  intros Hp Hv Hr Hd.
  set (m := [mouseX_ (clientX event); mouseY_ (clientY event)]).
  assert (Hpm : getCurrentPage (updateCurrentPage st m) = Some (spread page m))
    by (now rewrite getCurrentPage_update, Hp by reflexivity).
  assert (Hmove : onpointermove st event canvasRect
                  = updateCurrentPage (updateCurrentPage st m)
                      [offsetX_ (Page.offsetX page + (clientX event - Page.mouseX page));
                       offsetY_ (Page.offsetY page + (clientY event - Page.mouseY page))]).
  { unfold onpointermove. rewrite Hp, Hr, Hd, Hv. cbn [is_some andb]. cbv zeta.
    fold m. unfold handleViewportDrag. rewrite (getCurrentViewport_Some _ _ Hpm).
    destruct page; reflexivity. }
  rewrite Hmove. eexists.
  split; [now rewrite getCurrentPage_update, Hpm by reflexivity|].
  rewrite (getCurrentViewport_Some _ _ Hp).
  unfold getCurrentViewport. rewrite getCurrentPage_update, Hpm by reflexivity.
  rewrite !updateCurrentPage_mementoManager.
  destruct page. cbn.
  repeat match goal with |- _ /\ _ => split end; try reflexivity; try ring.
  - apply Qmult_comp; [ring | reflexivity].
  - apply Qmult_comp; [ring | reflexivity].
Qed.

Lemma pan_follows_pointer_witness :
  exists p1,
    getCurrentPage (onpointermove state_panning (click 70 25) origin) = Some p1
    /\ Page.mouseX p1 = clientX (click 70 25) /\ Page.mouseY p1 = clientY (click 70 25)
    /\ Page.offsetX p1 - Page.mouseX p1
       == Page.offsetX (the (getCurrentPage state_panning) page1)
          - Page.mouseX (the (getCurrentPage state_panning) page1)
    /\ Page.offsetY p1 - Page.mouseY p1
       == Page.offsetY (the (getCurrentPage state_panning) page1)
          - Page.mouseY (the (getCurrentPage state_panning) page1)
    /\ fst (screenToCanvas (Page.mouseX p1) (Page.mouseY p1)
              (getCurrentViewport (onpointermove state_panning (click 70 25) origin)))
       == fst (screenToCanvas (Page.mouseX (the (getCurrentPage state_panning) page1))
                 (Page.mouseY (the (getCurrentPage state_panning) page1))
                 (getCurrentViewport state_panning))
    /\ snd (screenToCanvas (Page.mouseX p1) (Page.mouseY p1)
              (getCurrentViewport (onpointermove state_panning (click 70 25) origin)))
       == snd (screenToCanvas (Page.mouseX (the (getCurrentPage state_panning) page1))
                 (Page.mouseY (the (getCurrentPage state_panning) page1))
                 (getCurrentViewport state_panning))
    /\ Page.zoom p1 = Page.zoom (the (getCurrentPage state_panning) page1)
    /\ Page.blocks p1 = Page.blocks (the (getCurrentPage state_panning) page1)
    /\ Page.selectedIds p1 = Page.selectedIds (the (getCurrentPage state_panning) page1)
    /\ State.mementoManager (onpointermove state_panning (click 70 25) origin)
       = State.mementoManager state_panning.
Proof.
  exact (pan_follows_pointer state_panning (click 70 25) origin
           (the (getCurrentPage state_panning) page1) eq_refl eq_refl eq_refl eq_refl).
Defined.

(** ** No current page *)

Lemma updateCurrentPage_no_page (st : State.t) (d : PageData) :
  getCurrentPage st = None -> updateCurrentPage st d = st.
Proof.
  unfold getCurrentPage, updateCurrentPage.
  destruct st as [ps cp ? ? ? ? ? ? ? ? ? ? ?]. cbn. intros H. f_equal.
  induction ps as [|p ps IH]; [reflexivity|].
  cbn in *. destruct (String.eqb (Page.id p) cp); [discriminate|].
  now rewrite IH.
Qed.

Lemma pointerdown_no_page (st : State.t) (target : PointerTarget) (event : PointerEvent)
    (canvasRect : DOMRect) :
  getCurrentPage st = None -> pointerdown target st event canvasRect = st.
Proof.
  intros Hp.
  assert (Hdown : onpointerdown st event canvasRect = st).
  { unfold onpointerdown, handleMiddleMouseDown, deselectAllBlocks, handleDragStart,
      handleSelectionBoxStart, isPointInSelectionBounds, getSelectedBlocks.
    rewrite Hp. cbn.
    destruct (button event =? 1)%Z;
      [now rewrite !(updateCurrentPage_no_page st _ Hp)|].
    destruct (button event =? 0)%Z; [|reflexivity].
    now apply updateCurrentPage_no_page. }
  destruct target; cbn [pointerdown].
  - exact Hdown.
  - unfold block_onpointerdown. rewrite Hp. exact Hdown.
  - unfold ResizeHandle_block_onpointerdown, getCurrentBlocks. now rewrite Hp.
  - unfold ResizeHandle_multi_onpointerdown, getSelectionBoundingBox, getSelectedBlocks.
    now rewrite Hp.
Qed.

(** X21.  In a state whose [currentPageId] is the id of no page, every
    pointer event and run of pointer events, every wheel event, the Escape,
    Delete and undo keys, [updateCurrentPage], [deleteSelectedBlocks],
    [sendToFront], [sendToBack] and [addBlock] return the state as it
    is. *)
Theorem no_current_page (st : State.t) :
  getCurrentPage st = None ->
  (forall evs, run_pointer evs st = st)
  /\ (forall event rect, onwheel st event rect = st)
  /\ onkeydown_Escape st = st
  /\ onkeydown_Delete st = st
  /\ (forall shift, onkeydown_z st shift = st)
  /\ (forall d, updateCurrentPage st d = st)
  /\ deleteSelectedBlocks st = st
  /\ (forall i, sendToFront st i = st)
  /\ (forall i, sendToBack st i = st)
  /\ (forall window imageSrc pageSrc x y width height,
         addBlock window st imageSrc pageSrc x y width height = st).
Proof.
  intros Hp.
  repeat match goal with |- _ /\ _ => split end.
  - intros evs. induction evs as [|ev evs IH]; [reflexivity|].
    cbn [run_pointer fold_left].
    replace (pointer_step st ev) with st; [exact IH|].
    destruct ev; cbn [pointer_step].
    + symmetry. now apply pointerdown_no_page.
    + unfold onpointermove. now rewrite Hp.
    + unfold onpointerup. now rewrite Hp.
  - intros event rect. unfold onwheel. now rewrite Hp.
  - unfold onkeydown_Escape. now rewrite Hp.
  - unfold onkeydown_Delete. now rewrite Hp.
  - intros shift. unfold onkeydown_z. now rewrite Hp.
  - intros d. now apply updateCurrentPage_no_page.
  - unfold deleteSelectedBlocks. now rewrite Hp.
  - intros i. unfold sendToFront, getCurrentBlocks. now rewrite Hp.
  - intros i. unfold sendToBack, getCurrentBlocks. now rewrite Hp.
  - intros. unfold addBlock. now rewrite Hp.
Qed.

Lemma no_current_page_witness :
  (forall evs, run_pointer evs state_no_page = state_no_page)
  /\ (forall event rect, onwheel state_no_page event rect = state_no_page)
  /\ onkeydown_Escape state_no_page = state_no_page
  /\ onkeydown_Delete state_no_page = state_no_page
  /\ (forall shift, onkeydown_z state_no_page shift = state_no_page)
  /\ (forall d, updateCurrentPage state_no_page d = state_no_page)
  /\ deleteSelectedBlocks state_no_page = state_no_page
  /\ (forall i, sendToFront state_no_page i = state_no_page)
  /\ (forall i, sendToBack state_no_page i = state_no_page)
  /\ (forall window imageSrc pageSrc x y width height,
         addBlock window state_no_page imageSrc pageSrc x y width height = state_no_page).
Proof. exact (no_current_page state_no_page eq_refl). Defined.

(** ** Paste *)

Lemma addBlock_page (window : Window) (st : State.t) (imageSrc pageSrc : string)
    (x y : option Q) (width height : Q) (page : Page.t) :
  getCurrentPage st = Some page ->
  exists nb page',
    getCurrentPage (addBlock window st imageSrc pageSrc x y width height) = Some page'
    /\ Page.blocks page' = Page.blocks page ++ [nb]
    /\ Block.id nb = (Math_max_0 (map Block.id (getGlobalBlocks st)) + 1)%Z
    /\ Block.width nb = width /\ Block.height nb = height
    /\ (forall v, x = Some v -> Block.x nb = v)
    /\ (forall v, y = Some v -> Block.y nb = v)
    /\ Block.imageSrc nb = imageSrc /\ Block.pageSrc nb = pageSrc
    /\ State.mementoManager (addBlock window st imageSrc pageSrc x y width height)
       = push_memento (State.mementoManager st) (createMemento st).
Proof.
  intros Hp. unfold addBlock. rewrite Hp.
  eexists. eexists. split.
  { rewrite getCurrentPage_saveMementoAndReturn. unfold selectBlock.
    page_after Hp. reflexivity. }
  rewrite (getCurrentBlocks_Some _ _ Hp).
  split; [destruct page; reflexivity|].
  cbn [Block.id Block.width Block.height Block.x Block.y Block.imageSrc Block.pageSrc].
  repeat match goal with |- _ /\ _ => split end; try reflexivity.
  - now intros v ->.
  - now intros v ->.
  - apply mementoManager_saveMementoAndReturn.
Qed.

Lemma current_in_global (st : State.t) (page : Page.t) (b : Block.t) :
  getCurrentPage st = Some page -> In b (Page.blocks page) -> In b (getGlobalBlocks st).
Proof.
  intros Hp Hb. unfold getGlobalBlocks. apply in_flat_map. exists page.
  split; [|exact Hb]. unfold getCurrentPage in Hp. now apply find_some in Hp.
Qed.

Lemma StronglySorted_snoc (l : list Z) (x : Z) :
  StronglySorted Z.lt l -> (forall y, In y l -> (y < x)%Z) ->
  StronglySorted Z.lt (l ++ [x]).
Proof.
  intros Hs Hx. induction Hs as [|a l Hs IH Ha]; cbn.
  - repeat constructor.
  - constructor.
    + apply IH. intros y Hy. apply Hx. now right.
    + apply Forall_app. split; [exact Ha|]. constructor; [|constructor].
      apply Hx. now left.
Qed.

Lemma addBlocks_snoc (window : Window) (st : State.t) (configs : list BlockConfig)
    (config : BlockConfig) :
  addBlocks window st (configs ++ [config])
  = addBlocks_step window (addBlocks window st configs) config.
Proof. unfold addBlocks. now rewrite fold_left_app. Qed.

(** What the loop of [addBlocks] keeps true. *)
Lemma addBlocks_inv (window : Window) (st : State.t) (page : Page.t)
    (configs : list BlockConfig) :
  getCurrentPage st = Some page ->
  exists new page',
    getCurrentPage (fst (addBlocks window st configs)) = Some page'
    /\ Page.blocks page' = Page.blocks page ++ new
    /\ snd (addBlocks window st configs) = map Block.id new
    /\ Forall2 (fun c b =>
                  (forall v, cfg_x c = Some v -> Block.x b = v)
                  /\ (forall v, cfg_y c = Some v -> Block.y b = v)
                  /\ Block.width b = match cfg_width c with Some v => v | None => 200 end
                  /\ Block.height b = match cfg_height c with Some v => v | None => 200 end
                  /\ Block.imageSrc b = cfg_imageSrc c
                  /\ Block.pageSrc b = cfg_pageSrc c)
               configs new
    /\ StronglySorted Z.lt (map Block.id new)
    /\ (forall b, In b new ->
          (Math_max_0 (map Block.id (getGlobalBlocks st)) < Block.id b)%Z
          /\ (Block.id b
              <= Math_max_0 (map Block.id
                               (getGlobalBlocks (fst (addBlocks window st configs)))))%Z)
    /\ (Math_max_0 (map Block.id (getGlobalBlocks st))
        <= Math_max_0 (map Block.id
                         (getGlobalBlocks (fst (addBlocks window st configs)))))%Z
    /\ MementoManager.maxHistorySize
         (State.mementoManager (fst (addBlocks window st configs)))
       = MementoManager.maxHistorySize (State.mementoManager st)
    /\ (configs <> [] ->
        exists prev page0,
          State.mementoManager (fst (addBlocks window st configs))
          = push_memento (State.mementoManager prev) (createMemento prev)
          /\ getCurrentPage prev = Some page0
          /\ Page.blocks page0 = Page.blocks page ++ removelast new
          /\ MementoManager.maxHistorySize (State.mementoManager prev)
             = MementoManager.maxHistorySize (State.mementoManager st)).
Proof.
  intros Hp. induction configs as [|config configs IH] using rev_ind.
  - exists [], page. cbn. rewrite app_nil_r.
    repeat match goal with |- _ /\ _ => split end;
      try reflexivity; try constructor; try lia; try exact Hp; try congruence.
  - destruct IH
      as (new & page' & Hp' & Hb & Hids & Hcfg & Hsort & Hrange & Hmax & Hsize & _).
    rewrite addBlocks_snoc.
    destruct (addBlocks window st configs) as [s ids]. cbn [fst snd] in *.
    unfold addBlocks_step.
    destruct (addBlock_page window s (cfg_imageSrc config) (cfg_pageSrc config)
                (cfg_x config) (cfg_y config)
                (match cfg_width config with Some v => v | None => 200 end)
                (match cfg_height config with Some v => v | None => 200 end)
                page' Hp')
      as (nb & page'' & Hp'' & Hb'' & Hid & Hw & Hh & Hx & Hy & Hi & Hs & Hmm).
    set (s' := addBlock _ _ _ _ _ _ _ _) in *.
    rewrite (getCurrentBlocks_Some _ _ Hp''), Hb'', last_entry_app. cbn [fst snd].
    assert (Hnb : (Block.id nb
                   <= Math_max_0 (map Block.id (getGlobalBlocks s')))%Z).
    { apply (proj2 (Math_max_0_ge _)). apply in_map.
      apply (current_in_global _ _ _ Hp''). rewrite Hb''. apply in_or_app.
      right. now left. }
    exists (new ++ [nb]), page''.
    repeat match goal with |- _ /\ _ => split end.
    + exact Hp''.
    + now rewrite Hb'', Hb, app_assoc.
    + now rewrite Hids, map_app.
    + apply Forall2_app; [exact Hcfg|]. constructor; [|constructor].
      repeat split; assumption.
    + rewrite map_app. apply StronglySorted_snoc; [exact Hsort|].
      intros z Hz. apply in_map_iff in Hz. destruct Hz as (b & <- & Hin).
      destruct (Hrange b Hin). lia.
    + intros b Hin. apply in_app_or in Hin. destruct Hin as [Hin|[<-|[]]].
      * destruct (Hrange b Hin). lia.
      * lia.
    + lia.
    + rewrite Hmm. cbn. exact Hsize.
    + intros _. exists s, page'. rewrite removelast_last. auto.
Qed.

(** X22.  On a state with a current page, [pasteClipboardBlocks] appends one
    block per clipboard entry to the current page, in the clipboard's
    order: each at the entry's position plus the paste offset, with the
    entry's size, image and source, the new ids increasing and above every
    id of every page before; a paste of at least one block makes the new
    blocks the selection.  Every pasted block takes its own snapshot: with
    a history size that is not negative, one undo after the paste takes
    back only the last pasted block. *)
Theorem paste_appends (window : Window) (st : State.t) (page : Page.t)
    (clipboardData : list Block.t) :
  getCurrentPage st = Some page ->
  State.clipboard st = Some clipboardData ->
  exists new,
    getCurrentBlocks (pasteClipboardBlocks window st) = Page.blocks page ++ new
    /\ Forall2 pasted_from clipboardData new
    /\ StronglySorted Z.lt (map Block.id new)
    /\ (forall b b', In b (getGlobalBlocks st) -> In b' new ->
                     (Block.id b < Block.id b')%Z)
    /\ (clipboardData <> [] ->
        getSelectedBlockIds (pasteClipboardBlocks window st) = map Block.id new)
    /\ ((0 <= MementoManager.maxHistorySize (State.mementoManager st))%Z ->
        clipboardData <> [] ->
        getCurrentBlocks (undoState (pasteClipboardBlocks window st))
        = Page.blocks page ++ removelast new).
Proof.
  intros Hp Hcb. unfold pasteClipboardBlocks. rewrite Hcb.
  set (configs := map _ clipboardData).
  destruct (addBlocks_inv window st page configs Hp)
    as (new & page' & Hp' & Hb & Hids & Hcfg & Hsort & Hrange & _ & _ & Hlast).
  exists new.
  assert (Hlen : length new = length clipboardData).
  { apply Forall2_length in Hcfg. subst configs. rewrite length_map in Hcfg. lia. }
  assert (Hblocks : getCurrentBlocks
                      (let '(newState, blockIds) := addBlocks window st configs in
                       if (0 <? length blockIds)%nat
                       then updateCurrentPage newState [selectedIds_ blockIds]
                       else newState)
                    = Page.blocks page ++ new).
  { destruct (addBlocks window st configs) as [s ids]. cbn [fst snd] in *.
    destruct (0 <? length ids)%nat.
    - unfold getCurrentBlocks. rewrite getCurrentPage_update, Hp' by reflexivity.
      cbn [option_map]. rewrite <- Hb. destruct page'; reflexivity.
    - now rewrite (getCurrentBlocks_Some _ _ Hp'). }
  split; [exact Hblocks|].
  split.
  { subst configs. clear - Hcfg. revert new Hcfg.
    induction clipboardData as [|c cs IH]; intros new H; inversion H; subst;
      constructor.
    - destruct H2 as (Hx & Hy & Hw & Hh & Hi & Hs). cbn in *.
      unfold pasted_from. repeat split; auto.
    - now apply IH. }
  split; [exact Hsort|].
  split.
  { intros b b' Hin Hin'. destruct (Hrange b' Hin') as [Hlo _].
    pose proof (proj2 (Math_max_0_ge (map Block.id (getGlobalBlocks st)))
                  (Block.id b) (in_map _ _ _ Hin)).
    lia. }
  split.
  { intros Hne. destruct (addBlocks window st configs) as [s ids]. cbn [fst snd] in *.
    assert (Hpos : (0 <? length ids)%nat = true).
    { apply Nat.ltb_lt. rewrite Hids, length_map, Hlen.
      destruct clipboardData; [congruence | cbn; lia]. }
    rewrite Hpos. unfold getSelectedBlockIds.
    rewrite getCurrentPage_update, Hp' by reflexivity. cbn [option_map].
    rewrite Hids. destruct page'; reflexivity. }
  intros Hmax Hne.
  assert (Hcne : configs <> []).
  { subst configs. destruct clipboardData; [congruence | discriminate]. }
  destruct (Hlast Hcne) as (prev & page0 & Hmm & Hp0 & Hb0 & Hsize).
  set (st' := let '(newState, blockIds) := addBlocks window st configs in _).
  assert (Hmm' : State.mementoManager st'
                 = push_memento (State.mementoManager prev) (createMemento prev)).
  { subst st'. destruct (addBlocks window st configs) as [s ids]. cbn [fst] in Hmm.
    destruct (0 <? length ids)%nat;
      [now rewrite updateCurrentPage_mementoManager | exact Hmm]. }
  rewrite <- Hsize in Hmax.
  destruct (push_memento_top (State.mementoManager prev) (createMemento prev) Hmax)
    as [l Hl].
  rewrite <- Hmm' in Hl. rewrite (undoState_push _ _ _ Hl).
  set (r := restore _ _ _ _).
  assert (Hr : getCurrentPage r
               = Some (spread page0 [selectedIds_ []; dragStart_ None; resizing_ None])).
  { rewrite (getCurrentPage_cleanPages r (State.pages prev) (State.currentPageId prev)).
    - fold (getCurrentPage prev). now rewrite Hp0.
    - subst r. destruct st'. reflexivity.
    - subst r. destruct st'. reflexivity. }
  rewrite (getCurrentBlocks_Some _ _ Hr), <- Hb0. destruct page0; reflexivity.
Qed.

Lemma paste_appends_witness :
  exists new,
    getCurrentBlocks
      (pasteClipboardBlocks (mkWindow 1000 800) (copySelectedBlocks state_selected))
    = Page.blocks (the (getCurrentPage (copySelectedBlocks state_selected)) page1) ++ new
    /\ Forall2 pasted_from (the (State.clipboard (copySelectedBlocks state_selected)) []) new
    /\ StronglySorted Z.lt (map Block.id new)
    /\ (forall b b', In b (getGlobalBlocks (copySelectedBlocks state_selected)) ->
                     In b' new -> (Block.id b < Block.id b')%Z)
    /\ (the (State.clipboard (copySelectedBlocks state_selected)) [] <> [] ->
        getSelectedBlockIds
          (pasteClipboardBlocks (mkWindow 1000 800) (copySelectedBlocks state_selected))
        = map Block.id new)
    /\ ((0 <= MementoManager.maxHistorySize
                (State.mementoManager (copySelectedBlocks state_selected)))%Z ->
        the (State.clipboard (copySelectedBlocks state_selected)) [] <> [] ->
        getCurrentBlocks
          (undoState
             (pasteClipboardBlocks (mkWindow 1000 800) (copySelectedBlocks state_selected)))
        = Page.blocks (the (getCurrentPage (copySelectedBlocks state_selected)) page1)
          ++ removelast new).
Proof.
  exact (paste_appends (mkWindow 1000 800) (copySelectedBlocks state_selected)
           (the (getCurrentPage (copySelectedBlocks state_selected)) page1)
           (the (State.clipboard (copySelectedBlocks state_selected)) [])
           eq_refl eq_refl).
Defined.

(** ** Copy *)

Lemma insert_by_zIndex_perm (b : Block.t) (l : list Block.t) :
  Permutation (insert_by_zIndex b l) (b :: l).
Proof.
  induction l as [|a r IH]; cbn; [reflexivity|].
  destruct (Block.zIndex b <? Block.zIndex a)%Z; [reflexivity|].
  rewrite IH. apply perm_swap.
Qed.

Lemma insert_by_zIndex_sorted (b : Block.t) (l : list Block.t) :
  Sorted (fun a a' => (Block.zIndex a <= Block.zIndex a')%Z) l ->
  Sorted (fun a a' => (Block.zIndex a <= Block.zIndex a')%Z) (insert_by_zIndex b l).
Proof.
  intros Hs. induction l as [|a r IH]; cbn; [repeat constructor|].
  destruct (Block.zIndex b <? Block.zIndex a)%Z eqn:E.
  - apply Z.ltb_lt in E. constructor; [exact Hs | constructor; lia].
  - apply Z.ltb_ge in E. apply Sorted_inv in Hs. destruct Hs as [Hs Hd].
    constructor; [now apply IH|].
    destruct r as [|a' r']; cbn; [constructor; exact E|].
    destruct (Block.zIndex b <? Block.zIndex a')%Z; constructor;
      [exact E | now apply HdRel_inv in Hd].
Qed.

Lemma sort_by_zIndex_spec (l : list Block.t) :
  Permutation (sort_by_zIndex l) l
  /\ Sorted (fun a a' => (Block.zIndex a <= Block.zIndex a')%Z) (sort_by_zIndex l).
Proof.
  unfold sort_by_zIndex.
  assert (H : forall acc,
    Sorted (fun a a' => (Block.zIndex a <= Block.zIndex a')%Z) acc ->
    Permutation (fold_left (fun sorted b => insert_by_zIndex b sorted) l acc) (acc ++ l)
    /\ Sorted (fun a a' => (Block.zIndex a <= Block.zIndex a')%Z)
              (fold_left (fun sorted b => insert_by_zIndex b sorted) l acc)).
  { induction l as [|b r IH]; intros acc Hacc; cbn [fold_left].
    - rewrite app_nil_r. split; [reflexivity | exact Hacc].
    - destruct (IH (insert_by_zIndex b acc) (insert_by_zIndex_sorted b acc Hacc))
        as [Hp Hs].
      split; [|exact Hs]. rewrite Hp, insert_by_zIndex_perm.
      cbn. apply Permutation_middle. }
  apply (H []). constructor.
Qed.

(** X23.  With at least one selected block, [copySelectedBlocks] puts on the
    clipboard the selected blocks of the current page, each once, in
    ascending order of z-index and with the id -1; pages, current page and
    history stay as they are.  With nothing selected it returns the state
    as it is, the clipboard included. *)
Theorem copySelectedBlocks_clipboard (st : State.t) :
  (getSelectedBlocks st = [] -> copySelectedBlocks st = st)
  /\ (getSelectedBlocks st <> [] ->
      exists data,
        State.clipboard (copySelectedBlocks st) = Some data
        /\ Permutation data (map (fun b => with_id b (-1)) (getSelectedBlocks st))
        /\ Sorted (fun a a' => (Block.zIndex a <= Block.zIndex a')%Z) data
        /\ Forall (fun b => Block.id b = (-1)%Z) data
        /\ State.pages (copySelectedBlocks st) = State.pages st
        /\ State.currentPageId (copySelectedBlocks st) = State.currentPageId st
        /\ State.mementoManager (copySelectedBlocks st) = State.mementoManager st).
Proof.
  unfold copySelectedBlocks. split.
  - now intros ->.
  - intros Hne. destruct (getSelectedBlocks st) as [|b0 r] eqn:Hsel; [congruence|].
    cbn [length Nat.eqb].
    destruct (sort_by_zIndex_spec (b0 :: r)) as [Hperm Hsorted].
    eexists. split; [destruct st; reflexivity|].
    split; [now apply Permutation_map|].
    split.
    { clear Hperm. induction Hsorted as [|a l Hs IH Hd]; cbn; constructor; [exact IH|].
      destruct Hd; cbn; constructor. assumption. }
    split; [apply Forall_map; apply Forall_forall; reflexivity|].
    destruct st; repeat split; reflexivity.
Qed.

Lemma copySelectedBlocks_clipboard_witness :
  (getSelectedBlocks state_selected = [] -> copySelectedBlocks state_selected = state_selected)
  /\ (getSelectedBlocks state_selected <> [] ->
      exists data,
        State.clipboard (copySelectedBlocks state_selected) = Some data
        /\ Permutation data
             (map (fun b => with_id b (-1)) (getSelectedBlocks state_selected))
        /\ Sorted (fun a a' => (Block.zIndex a <= Block.zIndex a')%Z) data
        /\ Forall (fun b => Block.id b = (-1)%Z) data
        /\ State.pages (copySelectedBlocks state_selected) = State.pages state_selected
        /\ State.currentPageId (copySelectedBlocks state_selected)
           = State.currentPageId state_selected
        /\ State.mementoManager (copySelectedBlocks state_selected)
           = State.mementoManager state_selected).
Proof. exact (copySelectedBlocks_clipboard state_selected). Defined.

(** ** Edit mode *)

(** X24.  A double click on a block, outside interact mode and a focused
    text editor, selects that block alone, puts it in edit mode and clears
    any drag record.  In that state the Delete key and the undo and redo
    keys do nothing; Escape leaves edit mode with the block still selected,
    and Delete then removes the blocks of that id and no other. *)
Theorem dblclick_guards_keys (block : Block.t) (st : State.t) (page : Page.t) :
  getCurrentPage st = Some page ->
  Page.isInteractMode page = false ->
  Page.isTextEditorFocused page = false ->
  exists page',
    getCurrentPage (ondblclick block st) = Some page'
    /\ Page.editingId page' = Some (Block.id block)
    /\ Page.selectedIds page' = [Block.id block]
    /\ Page.dragStart page' = None
    /\ Page.blocks page' = Page.blocks page
    /\ onkeydown_Delete (ondblclick block st) = ondblclick block st
    /\ (forall shift, onkeydown_z (ondblclick block st) shift = ondblclick block st)
    /\ getSelectedBlockIds (onkeydown_Escape (ondblclick block st)) = [Block.id block]
    /\ getCurrentBlocks (onkeydown_Delete (onkeydown_Escape (ondblclick block st)))
       = filter (fun b => negb (Z.eqb (Block.id b) (Block.id block))) (Page.blocks page).
Proof.
  intros Hp Hi Hf.
  set (d := [editingId_ (Some (Block.id block)); dragStart_ None]).
  set (sel := [selectedIds_ [Block.id block]; editingId_ None]).
  assert (Hdbl : ondblclick block st = updateCurrentPage (updateCurrentPage st sel) d).
  { unfold ondblclick. rewrite Hp, Hi, Hf. reflexivity. }
  rewrite Hdbl.
  assert (Hp1 : getCurrentPage (updateCurrentPage (updateCurrentPage st sel) d)
                = Some (spread (spread page sel) d))
    by (now rewrite !getCurrentPage_update, Hp by reflexivity).
  set (st1 := updateCurrentPage (updateCurrentPage st sel) d) in *.
  assert (Hesc : onkeydown_Escape st1 = updateCurrentPage st1 [editingId_ None]).
  { unfold onkeydown_Escape. rewrite Hp1.
    replace (Page.isTextEditorFocused (spread (spread page sel) d)) with false
      by (rewrite <- Hf; destruct page; reflexivity).
    destruct page; reflexivity. }
  assert (Hp2 : getCurrentPage (updateCurrentPage st1 [editingId_ None])
                = Some (spread (spread (spread page sel) d) [editingId_ None]))
    by (now rewrite getCurrentPage_update, Hp1 by reflexivity).
  exists (spread (spread page sel) d).
  split; [exact Hp1|].
  split; [destruct page; reflexivity|].
  split; [destruct page; reflexivity|].
  split; [destruct page; reflexivity|].
  split; [destruct page; reflexivity|].
  split.
  { unfold onkeydown_Delete. rewrite Hp1.
    replace (Page.isTextEditorFocused (spread (spread page sel) d)) with false
      by (rewrite <- Hf; destruct page; reflexivity).
    replace (Page.editingId (spread (spread page sel) d)) with (Some (Block.id block))
      by (destruct page; reflexivity).
    cbn [is_some negb]. now rewrite andb_false_r. }
  split.
  { intros shift. unfold onkeydown_z. rewrite Hp1.
    replace (Page.isTextEditorFocused (spread (spread page sel) d)) with false
      by (rewrite <- Hf; destruct page; reflexivity).
    destruct page; reflexivity. }
  rewrite Hesc. split.
  { unfold getSelectedBlockIds. rewrite Hp2. destruct page; reflexivity. }
  unfold onkeydown_Delete, getFirstSelectedBlockId, getSelectedBlockIds, deleteSelectedBlocks.
  rewrite Hp2.
  replace (Page.isTextEditorFocused
             (spread (spread (spread page sel) d) [editingId_ None])) with false
    by (rewrite <- Hf; destruct page; reflexivity).
  replace (Page.selectedIds (spread (spread (spread page sel) d) [editingId_ None]))
    with [Block.id block] by (destruct page; reflexivity).
  replace (Page.editingId (spread (spread (spread page sel) d) [editingId_ None]))
    with (@None Z) by (destruct page; reflexivity).
  cbn [is_some negb andb].
  unfold getCurrentBlocks.
  rewrite getCurrentPage_saveMementoAndReturn, getCurrentPage_update, Hp2 by reflexivity.
  cbn [option_map].
  replace (Page.blocks (spread (spread (spread page sel) d) [editingId_ None]))
    with (Page.blocks page) by (destruct page; reflexivity).
  transitivity (filter (fun b => negb (includes [Block.id block] (Block.id b)))
                       (Page.blocks page)).
  { destruct page; reflexivity. }
  apply filter_ext. intros b. unfold includes. cbn [existsb].
  rewrite orb_false_r. reflexivity.
Qed.

Lemma dblclick_guards_keys_witness :
  exists page',
    getCurrentPage (ondblclick blockA state_selected) = Some page'
    /\ Page.editingId page' = Some (Block.id blockA)
    /\ Page.selectedIds page' = [Block.id blockA]
    /\ Page.dragStart page' = None
    /\ Page.blocks page' = Page.blocks (the (getCurrentPage state_selected) page1)
    /\ onkeydown_Delete (ondblclick blockA state_selected) = ondblclick blockA state_selected
    /\ (forall shift, onkeydown_z (ondblclick blockA state_selected) shift
                      = ondblclick blockA state_selected)
    /\ getSelectedBlockIds (onkeydown_Escape (ondblclick blockA state_selected))
       = [Block.id blockA]
    /\ getCurrentBlocks (onkeydown_Delete (onkeydown_Escape (ondblclick blockA state_selected)))
       = filter (fun b => negb (Z.eqb (Block.id b) (Block.id blockA)))
                (Page.blocks (the (getCurrentPage state_selected) page1)).
Proof.
  exact (dblclick_guards_keys blockA state_selected
           (the (getCurrentPage state_selected) page1) eq_refl eq_refl eq_refl).
Defined.

(** ** The zoom under pointer and wheel events *)

Lemma spread_zoom_other (d : PageData) (p : Page.t) :
  keeps_zoom_field d = true -> Page.zoom (spread p d) = Page.zoom p.
Proof.
  unfold spread. revert p. induction d as [|f d IH]; intros p H; [reflexivity|].
  cbn in H. apply andb_prop in H. destruct H as [Hf Hd].
  cbn [fold_left]. rewrite (IH _ Hd). destruct p, f; try reflexivity; discriminate.
Qed.

Lemma zr_update (st : State.t) (d : PageData) :
  keeps_zoom_field d = true -> zoom_in_range st -> zoom_in_range (updateCurrentPage st d).
Proof.
  intros Hd H. unfold zoom_in_range in *. rewrite updateCurrentPage_pages.
  apply Forall_map. revert H. apply Forall_impl. intros p Hp.
  destruct (String.eqb _ _); [now rewrite spread_zoom_other | exact Hp].
Qed.

Lemma zr_update_zoom (st : State.t) (z ox oy : Q) :
  0.1 <= z -> z <= 5 -> zoom_in_range st ->
  zoom_in_range (updateCurrentPage st [zoom_ z; offsetX_ ox; offsetY_ oy]).
Proof.
  intros Hlo Hhi H. unfold zoom_in_range in *. rewrite updateCurrentPage_pages.
  apply Forall_map. revert H. apply Forall_impl. intros p Hp.
  destruct (String.eqb _ _); [|exact Hp]. destruct p. cbn. auto.
Qed.

Lemma zr_save (prevState newState : State.t) :
  zoom_in_range newState -> zoom_in_range (saveMementoAndReturn prevState newState).
Proof.
  unfold zoom_in_range. now rewrite (proj1 (saveMementoAndReturn_pages _ _)).
Qed.

Ltac zr_step :=
  cbv beta iota zeta;
  match goal with
  | H : zoom_in_range ?b |- zoom_in_range ?b => exact H
  | |- zoom_in_range (updateCurrentPage _ _) => apply zr_update; [reflexivity|]
  | |- zoom_in_range (saveMementoAndReturn _ _) => apply zr_save
  | |- zoom_in_range (match ?x with _ => _ end) =>
      let y := scrutinee x in destruct y
  end.

Ltac zr_solve := repeat zr_step.

Lemma zr_handleResizePointerMove (st : State.t) (event : PointerEvent)
    (canvasRect : DOMRect) :
  zoom_in_range st -> zoom_in_range (handleResizePointerMove st event canvasRect).
Proof. intros H. unfold handleResizePointerMove. zr_solve. Qed.

Lemma zr_toggleBlockSelection (st : State.t) (blockId : Z) :
  zoom_in_range st -> zoom_in_range (toggleBlockSelection st blockId).
Proof.
  intros H. unfold toggleBlockSelection, removeBlockFromSelection, addBlockToSelection.
  zr_solve.
Qed.

Lemma zr_onpointerdown (st : State.t) (event : PointerEvent) (canvasRect : DOMRect) :
  zoom_in_range st -> zoom_in_range (onpointerdown st event canvasRect).
Proof.
  intros H. unfold onpointerdown, handleMiddleMouseDown, deselectAllBlocks,
    handleDragStart, handleSelectionBoxStart.
  zr_solve.
Qed.

Lemma zr_pointer_step (st : State.t) (ev : PointerEv) :
  zoom_in_range st -> zoom_in_range (pointer_step st ev).
Proof.
  intros H. destruct ev as [target event canvasRect|event canvasRect|];
    cbn [pointer_step].
  - destruct target; cbn [pointerdown].
    + now apply zr_onpointerdown.
    + unfold block_onpointerdown, selectBlock.
      repeat first [ apply zr_onpointerdown | apply zr_toggleBlockSelection | zr_step ].
    + unfold ResizeHandle_block_onpointerdown, selectBlock. zr_solve.
    + unfold ResizeHandle_multi_onpointerdown. zr_solve.
  - unfold onpointermove, handleBlockDrag, handleViewportDrag, handleSelectionBoxMove.
    repeat first [ apply zr_handleResizePointerMove | zr_step ].
  - unfold onpointerup.
    destruct (getCurrentPage st) as [p|]; [|exact H].
    assert (Hnew : zoom_in_range
      match Page.selectionBox p with
      | Some selectionBox =>
          updateCurrentPage
            (handleSelectionBoxComplete
               (updateCurrentPage st
                  [isViewportDragging_ false; resizing_ None; dragStart_ None;
                   cursorStyle_ "default"]) selectionBox)
            [selectionBox_ None]
      | None =>
          updateCurrentPage st
            [isViewportDragging_ false; resizing_ None; dragStart_ None;
             cursorStyle_ "default"]
      end).
    { unfold handleSelectionBoxComplete. zr_solve. }
    unfold handleDragCompletion, handleResizeCompletion. zr_solve.
Qed.

Lemma zr_onwheel (st : State.t) (event : WheelEvent) (rect : DOMRect) :
  zoom_in_range st -> zoom_in_range (onwheel st event rect).
Proof.
  intros H. unfold onwheel.
  destruct (getCurrentPage st) as [page|]; [|exact H].
  destruct (ltb _ _ && _); [zr_solve|].
  destruct (ctrlKey event || metaKey event); [|exact H].
  cbv zeta. apply zr_update_zoom; [apply Q.le_max_l | | exact H].
  apply Q.max_lub; [lra | apply Q.le_min_l].
Qed.

(** X25.  If every page has a zoom between 0.1 and 5, so it has after any
    run of pointer and wheel events: the zoom the handlers divide by never
    becomes zero or negative. *)
Theorem zoom_stays_in_range (st : State.t) (evs : list CanvasEv) :
  zoom_in_range st ->
  zoom_in_range (run_canvas evs st)
  /\ 0 < vp_zoom (getCurrentViewport (run_canvas evs st)).
Proof.
  intros H.
  assert (Hrun : zoom_in_range (run_canvas evs st)).
  { revert st H. induction evs as [|ev evs IH]; intros st H; [exact H|].
    cbn [run_canvas fold_left]. apply IH.
    destruct ev; cbn [canvas_step]; [now apply zr_pointer_step | now apply zr_onwheel]. }
  split; [exact Hrun|].
  unfold getCurrentViewport.
  destruct (getCurrentPage (run_canvas evs st)) as [p|] eqn:Hp; cbn; [|lra].
  unfold getCurrentPage in Hp. apply find_some in Hp. destruct Hp as [Hin _].
  unfold zoom_in_range in Hrun. rewrite Forall_forall in Hrun.
  destruct (Hrun p Hin). lra.
Qed.

Lemma zoom_stays_in_range_witness :
  zoom_in_range
    (run_canvas [Wheel (mkWheelEvent 0 (-900) true false) origin;
                 Pointer (Down OnCanvas (click 300 300) origin);
                 Pointer (Move (click 50 50) origin);
                 Wheel (mkWheelEvent 0 2000 true false) origin;
                 Pointer Up] state1)
  /\ 0 < vp_zoom
           (getCurrentViewport
              (run_canvas [Wheel (mkWheelEvent 0 (-900) true false) origin;
                           Pointer (Down OnCanvas (click 300 300) origin);
                           Pointer (Move (click 50 50) origin);
                           Wheel (mkWheelEvent 0 2000 true false) origin;
                           Pointer Up] state1)).
Proof.
  refine (zoom_stays_in_range state1 _ _).
  repeat constructor; cbn; lra.
Defined.
